(** * Authentication and session-verification core of the task manager

    A shallow embedding of
      - [src/lib/auth/jwt.ts]   (createToken, getUserIdFromToken,
                                 getUserIdFromTokenSync),
      - [src/lib/auth.ts]       (getToken),
      - [middleware.ts]         (the edge gatekeeper),
      - [api/auth/login/route.ts] and [api/auth/register/route.ts],
    and the properties the specification states about them.

    Conventions.  A JavaScript string is a [string] (a header value is a
    ByteString, one code unit per character); [undefined]/[null] of a
    string-valued expression is [None]; an object used as a dictionary is
    a [gmap]; a function that may throw (or an async function that may
    reject) returns a [Completion]. *)

From Stdlib Require Import ZArith Ascii String List Bool Lia.
From Stdlib Require Import DecimalString DecimalPos.
From stdpp Require Import base option list gmap strings.

Set Warnings "-register-all".
Local Open Scope string_scope.
Local Open Scope Z_scope.

(** ** JavaScript string primitives used by the source *)

Module JsString.

(** White space removed by [String.prototype.trim], restricted to the
    code units a header value can hold (0..255): TAB, LF, VT, FF, CR,
    SPACE and NO-BREAK SPACE. *)
Definition is_whitespace (c : ascii) : bool :=
  let n := nat_of_ascii c in
  ((9 <=? n) && (n <=? 13) || (n =? 32) || (n =? 160))%nat.

Fixpoint trimStart (s : string) : string :=
  match s with
  | String c s' => if is_whitespace c then trimStart s' else s
  | EmptyString => EmptyString
  end.

Fixpoint trimEnd (s : string) : string :=
  match s with
  | EmptyString => EmptyString
  | String c s' =>
      match trimEnd s' with
      | EmptyString => if is_whitespace c then EmptyString else String c EmptyString
      | t => String c t
      end
  end.

(** [s.trim()] *)
Definition trim (s : string) : string := trimEnd (trimStart s).

(** [s.split(sep)] for a one-character separator: every occurrence of
    [sep] cuts; the result is never empty ([''.split(';')] is ['']). *)
Fixpoint split (sep : ascii) (s : string) : list string :=
  match s with
  | EmptyString => [EmptyString]
  | String c s' =>
      if Ascii.eqb c sep then EmptyString :: split sep s'
      else match split sep s' with
           | p :: ps => String c p :: ps
           | [] => [String c EmptyString]
           end
  end.

(** [s.startsWith(p)] *)
Definition startsWith (s p : string) : bool := String.prefix p s.

(** [a === b] on strings *)
Definition strictEq (a b : string) : bool := String.eqb a b.

(** Truthiness of a value of type [string | undefined]: [undefined] and
    the empty string are falsy. *)
Definition truthy (v : option string) : bool :=
  match v with
  | None => false
  | Some s => negb (String.eqb s "")
  end.

(** Does the character occur in the string? *)
Fixpoint occurs (c : ascii) (s : string) : bool :=
  match s with
  | EmptyString => false
  | String a s' => Ascii.eqb a c || occurs c s'
  end.

(** Every character of the string satisfies the test. *)
Fixpoint all_chars (P : ascii -> bool) (s : string) : bool :=
  match s with
  | EmptyString => true
  | String c s' => P c && all_chars P s'
  end.

End JsString.

(** ** Completions: a value returned or an error thrown *)

Inductive Completion (E A : Type) : Type :=
| Return (a : A)
| Throw (e : E).
Arguments Return {E A} a.
Arguments Throw {E A} e.

Definition bindC {E A B} (m : Completion E A) (k : A -> Completion E B) : Completion E B :=
  match m with
  | Return a => k a
  | Throw e => Throw e
  end.

(** [try { body } catch (error) { handler }] *)
Definition tryCatch {E A} (body : Completion E A) (handler : E -> Completion E A) : Completion E A :=
  match body with
  | Return a => Return a
  | Throw e => handler e
  end.

#[global] Instance Completion_ret {E} : MRet (Completion E) := fun _ a => Return a.
#[global] Instance Completion_bind {E} : MBind (Completion E) :=
  fun _ _ k m => bindC m k.

(** ** The cookie-header parser of [jwt.ts] and [auth.ts]

    <<
    const cookies = cookieHeader.split(';').reduce((acc, cookie) => {
      const [key, value] = cookie.trim().split('=');
      acc[key] = value;
      return acc;
    }, {} as Record<string, string>);
    >> *)

Module CookieHeader.
Import JsString.

(** The accumulator: own properties of a plain object, each holding a
    string or [undefined]. *)
Abbreviation Cookies := (gmap string (option string)).

(** [const [key, value] = parts]: the first two elements of the array,
    [undefined] where the array is too short. *)
Definition destructure2 (parts : list string) : option string * option string :=
  (nth_error parts 0, nth_error parts 1).

(** [acc[key] = value] on a plain object.  The key ["__proto__"] reaches
    the prototype setter, which ignores a string or [undefined]. *)
Definition assign (acc : Cookies) (key : string) (value : option string) : Cookies :=
  if String.eqb key "__proto__" then acc else <[key := value]> acc.

(** The callback given to [reduce].  An [undefined] key would name the
    property ["undefined"]; [split] never returns an empty array, so
    this does not occur. *)
Definition reducer (acc : Cookies) (cookie : string) : Cookies :=
  match destructure2 (split "=" (trim cookie)) with
  | (Some key, value) => assign acc key value
  | (None, value) => assign acc "undefined" value
  end.

Definition parseCookies (cookieHeader : string) : Cookies :=
  fold_left reducer (split ";" cookieHeader) ∅.

(** [cookies[name]]: an own property, else [undefined] (the prototype
    of a plain object has no property of a cookie's name we read). *)
Definition get (cookies : Cookies) (name : string) : option string :=
  match cookies !! name with
  | Some v => v
  | None => None
  end.

(** [cookies['auth-token']] *)
Definition authToken (cookieHeader : string) : option string :=
  get (parseCookies cookieHeader) "auth-token".

(** The header has a pair of that name: some piece between semicolons
    reads, once trimmed, [name=...]. *)
Definition has_pair (name cookieHeader : string) : bool :=
  existsb (fun piece => String.prefix (name ++ "=") (trim piece))
          (split ";" cookieHeader).

(** Characters that pass through the parser untouched: no white
    space, no [;], no [=].  The base64url alphabet and the dot of a
    compact token are among them. *)
Definition is_token_char (c : ascii) : bool :=
  negb (is_whitespace c) && negb (Ascii.eqb c ";") && negb (Ascii.eqb c "=").

End CookieHeader.

(** ** JSON values: request and response bodies *)

Inductive Json : Type :=
| JNull
| JBool (b : bool)
| JNum (n : Z)
| JStr (s : string)
| JDate (ms : Z)                       (* a Date; serialised as its ISO string *)
| JArr (items : list Json)
| JObj (fields : list (string * Json)).

(** ** Errors thrown by the libraries the source calls *)

Inductive JsError : Type :=
| JWSInvalid                        (* jose: not a compact JWS / bad JSON *)
| JOSEAlgNotAllowed                 (* jose: algorithm not usable with the key *)
| JWSSignatureVerificationFailed    (* jose: signature mismatch *)
| JWTExpired                        (* jose: "exp" claim timestamp check failed *)
| JsonWebTokenError (msg : string)  (* jsonwebtoken: malformed / invalid signature *)
| TokenExpiredError                 (* jsonwebtoken: jwt expired *)
| SyntaxError                       (* request.json(): body is not JSON *)
| ZodError (errors : Json)          (* schema.parse: validation issues *)
| TypeError (msg : string)          (* Headers.set: not a header value *)
| OtherError (msg : string).        (* anything else, e.g. a database failure *)

(** [process.env]: the two variables the source reads.  The secret is
    configured: the source reads it as [process.env.JWT_SECRET!]. *)
Record ProcessEnv : Type := {
  JWT_SECRET : string;
  NODE_ENV : option string
}.

(** [Request]: the source reads one header. *)
Record Request : Type := { headers : gmap string string }.

(** [request.headers.get(name)] *)
Definition headers_get (request : Request) (name : string) : option string :=
  headers request !! name.

(** ** Session tokens: [jwt.ts] and [auth.ts] *)

Module Jwt.
Import JsString.

(** [interface JwtPayload] *)
Record JwtPayload : Type := {
  userId : string;
  email : string;
  name : option string
}.

(** The argument of [createToken]. *)
Record User : Type := {
  id : string;
  user_email : string;
  user_name : option string
}.

(** The payload of a decoded token: the application claims and the
    registered claims [iat] and [exp] (NumericDate: whole seconds). *)
Record JWTPayload : Type := {
  claims : JwtPayload;
  iat : option Z;
  exp : option Z
}.

(** A compact JWS taken apart: the signing input (the first two
    segments as received), the algorithm of its header, its payload
    and its signature segment. *)
Record Decoded : Type := {
  signing_input : string;
  alg : string;
  payload : JWTPayload;
  signature : string
}.

(** Twenty-four hours in seconds: [expiresIn: '24h']. *)
Definition expiresIn_24h : Z := 24 * 60 * 60.

(** [Math.floor(ms / 1000)]: the clock in whole seconds. *)
Definition epoch (now_ms : Z) : Z := now_ms / 1000.

(** The base64url alphabet: letters, digits, [-] and [_]. *)
Definition is_base64url_char (c : ascii) : bool :=
  let n := nat_of_ascii c in
  ((65 <=? n) && (n <=? 90) || (97 <=? n) && (n <=? 122) || (48 <=? n) && (n <=? 57)
   || (n =? 45) || (n =? 95))%nat.

(** The characters of a signing input: the alphabet and the dot
    between its segments. *)
Definition is_segment_char (c : ascii) : bool :=
  is_base64url_char c || Ascii.eqb c ".".

(** A request whose only header is [cookie]. *)
Definition request_with_cookie (cookieHeader : string) : Request :=
  {| headers := {[ "cookie" := cookieHeader ]} |}.

Section Codec.
(** The primitives of the two libraries that are not in the
    repository.  Nothing is assumed about them here: a property that
    needs one says so in its statement. *)

(** [new TextEncoder().encode(s)]; a string key of jsonwebtoken is
    turned into the same bytes. *)
Variable TextEncoder_encode : string -> list Byte.byte.
(** The MAC of an algorithm under a key, base64url-encoded. *)
Variable hmac : string -> list Byte.byte -> string -> string.
(** base64url(header) ++ "." ++ base64url(payload) *)
Variable encodeSigningInput : string -> JWTPayload -> string.
(** Taking a compact serialisation apart; [None] when it is not three
    base64url segments holding a JSON header and a JSON payload. *)
Variable decode : string -> option Decoded.

Definition symmetric_alg (a : string) : bool :=
  String.eqb a "HS256" || String.eqb a "HS384" || String.eqb a "HS512".

(** Modelled from the spec: jsonwebtoken is a library, not among the
    sources.  [jwt.sign(payload, secret, { expiresIn: '24h', algorithm:
    'HS256' })] at clock [now_ms], after section 4.2: the token encodes
    header, claims and expiry (now + 24h) with a signature over the
    encoded payload under the secret and the one fixed algorithm.  The
    timestamps are whole seconds. *)
Definition jsonwebtoken_sign (p : JwtPayload) (secret : string) (now_ms : Z) : string :=
  let timestamp := epoch now_ms in
  let body := {| claims := p; iat := Some timestamp;
                 exp := Some (timestamp + expiresIn_24h) |} in
  let input := encodeSigningInput "HS256" body in
  input ++ "." ++ hmac "HS256" (TextEncoder_encode secret) input.

(** Modelled from the spec: [jwt.verify(token, secret)] of jsonwebtoken
    at clock [now_ms], after section 4.2: decode header and payload,
    recompute the signature with the secret, reject on a mismatch,
    reject when the current time is at or past the expiry, otherwise
    return the claims.  A token without expiry does not expire. *)
Definition jsonwebtoken_verify (token secret : string) (now_ms : Z)
  : Completion JsError JWTPayload :=
  match decode token with
  | None => Throw (JsonWebTokenError "jwt malformed")
  | Some d =>
      if negb (symmetric_alg (alg d)) then Throw (JsonWebTokenError "invalid algorithm")
      else if negb (String.eqb (hmac (alg d) (TextEncoder_encode secret) (signing_input d))
                               (signature d))
      then Throw (JsonWebTokenError "invalid signature")
      else match exp (payload d) with
           | Some e => if epoch now_ms >=? e then Throw TokenExpiredError
                       else Return (payload d)
           | None => Return (payload d)
           end
  end.

(** Modelled from the spec: [jwtVerify(token, key)] of jose at clock
    [now_ms], the second implementation of the same verification
    (section 4.2), keyed by the encoded secret. *)
Definition jose_jwtVerify (token : string) (key : list Byte.byte) (now_ms : Z)
  : Completion JsError JWTPayload :=
  match decode token with
  | None => Throw JWSInvalid
  | Some d =>
      if negb (symmetric_alg (alg d)) then Throw JOSEAlgNotAllowed
      else if negb (String.eqb (hmac (alg d) key (signing_input d)) (signature d))
      then Throw JWSSignatureVerificationFailed
      else match exp (payload d) with
           | Some e => if e <=? epoch now_ms then Throw JWTExpired
                       else Return (payload d)
           | None => Return (payload d)
           end
  end.

Variable env : ProcessEnv.

(** [createToken] of [jwt.ts]. *)
Definition createToken (user : User) (now_ms : Z) : string :=
  let payload := {| userId := id user;
                    email := user_email user;
                    name := user_name user |} in
  jsonwebtoken_sign payload (JWT_SECRET env) now_ms.

(** [getUserIdFromToken] of [jwt.ts] (jose). *)
Definition getUserIdFromToken (request : Request) (now_ms : Z)
  : Completion JsError (option string) :=
  tryCatch
    (let cookieHeader := headers_get request "cookie" in
     if negb (truthy cookieHeader) then Return None
     else
       let cookies := CookieHeader.parseCookies (default "" cookieHeader) in
       let token := CookieHeader.get cookies "auth-token" in
       if negb (truthy token) then Return None
       else
         let secret := TextEncoder_encode (JWT_SECRET env) in
         payload ← jose_jwtVerify (default "" token) secret now_ms;
         Return (Some (userId (claims payload))))
    (fun error => Return None).

(** [getUserIdFromTokenSync] of [jwt.ts] (jsonwebtoken). *)
Definition getUserIdFromTokenSync (request : Request) (now_ms : Z)
  : Completion JsError (option string) :=
  tryCatch
    (let cookieHeader := headers_get request "cookie" in
     if negb (truthy cookieHeader) then Return None
     else
       let cookies := CookieHeader.parseCookies (default "" cookieHeader) in
       let token := CookieHeader.get cookies "auth-token" in
       if negb (truthy token) then Return None
       else
         decoded ← jsonwebtoken_verify (default "" token) (JWT_SECRET env) now_ms;
         Return (Some (userId (claims decoded))))
    (fun error => Return None).

(** [getToken] of [auth.ts] (jose); it returns the whole payload. *)
Definition getToken (request : Request) (now_ms : Z)
  : Completion JsError (option JWTPayload) :=
  tryCatch
    (let cookieHeader := headers_get request "cookie" in
     if negb (truthy cookieHeader) then Return None
     else
       let cookies := CookieHeader.parseCookies (default "" cookieHeader) in
       let token := CookieHeader.get cookies "auth-token" in
       if negb (truthy token) then Return None
       else
         let secret := TextEncoder_encode (JWT_SECRET env) in
         payload ← jose_jwtVerify (default "" token) secret now_ms;
         Return (Some payload))
    (fun error => Return None).

(** *** Vocabulary of the statements about tokens *)

(** The payload [createToken] signs for [user] at clock [issued_ms]:
    the claims, the issuance timestamp and the expiry. *)
Definition issued_payload (user : User) (issued_ms : Z) : JWTPayload :=
  {| claims := {| userId := id user; email := user_email user;
                  name := user_name user |};
     iat := Some (epoch issued_ms);
     exp := Some (epoch issued_ms + expiresIn_24h) |}.

(** The parts of the token [createToken] returns. *)
Definition issued_parts (user : User) (issued_ms : Z) : Decoded :=
  let input := encodeSigningInput "HS256" (issued_payload user issued_ms) in
  {| signing_input := input;
     alg := "HS256";
     payload := issued_payload user issued_ms;
     signature := hmac "HS256" (TextEncoder_encode (JWT_SECRET env)) input |}.

(** What the compact serialisation (RFC 7515) gives, whatever the
    library: taking apart a signing input followed by a dot and a
    base64url signature returns the algorithm, the payload and the
    signature it was made of; and signing inputs and MACs are written
    in the base64url alphabet, the signing input with its dot. *)
Definition compact_codec : Prop :=
  (forall a body sig,
      all_chars is_base64url_char sig = true ->
      decode (encodeSigningInput a body ++ "." ++ sig)
      = Some {| signing_input := encodeSigningInput a body;
                alg := a; payload := body; signature := sig |})
  /\ (forall a body, all_chars is_segment_char (encodeSigningInput a body) = true)
  /\ (forall a key input, all_chars is_base64url_char (hmac a key input) = true).

(** The three extractors answer [null]: the caller sees no identity. *)
Definition no_identity (request : Request) (now_ms : Z) : Prop :=
  getUserIdFromToken request now_ms = Return None
  /\ getUserIdFromTokenSync request now_ms = Return None
  /\ getToken request now_ms = Return None.

(** At clock [now_ms] the token, sent back in the [auth-token]
    cookie, is accepted with payload [p]: by [getToken] (jose), by
    jsonwebtoken's [verify], and by the two user-id extractors. *)
Definition accepted (token : string) (p : JWTPayload) (now_ms : Z) : Prop :=
  getToken (request_with_cookie ("auth-token=" ++ token)) now_ms = Return (Some p)
  /\ jsonwebtoken_verify token (JWT_SECRET env) now_ms = Return p
  /\ getUserIdFromToken (request_with_cookie ("auth-token=" ++ token)) now_ms
     = Return (Some (userId (claims p)))
  /\ getUserIdFromTokenSync (request_with_cookie ("auth-token=" ++ token)) now_ms
     = Return (Some (userId (claims p))).

(** At clock [now_ms] the token is refused as expired by all of them. *)
Definition refused_expired (token : string) (now_ms : Z) : Prop :=
  getToken (request_with_cookie ("auth-token=" ++ token)) now_ms = Return None
  /\ jsonwebtoken_verify token (JWT_SECRET env) now_ms = Throw TokenExpiredError
  /\ getUserIdFromToken (request_with_cookie ("auth-token=" ++ token)) now_ms
     = Return None
  /\ getUserIdFromTokenSync (request_with_cookie ("auth-token=" ++ token)) now_ms
     = Return None.

End Codec.

(** The [try]/[catch] of the extractors applied to the outcome of
    verification: a payload is mapped, an error becomes [null]. *)
Definition settle {A B} (f : A -> B) (v : Completion JsError A)
  : Completion JsError (option B) :=
  match v with
  | Return a => Return (Some (f a))
  | Throw _ => Return None
  end.

(** The token the extractors pass to verification; [None] where they
    return [null] before verifying. *)
Definition located (request : Request) : option string :=
  match headers_get request "cookie" with
  | None => None
  | Some cookieHeader =>
      match CookieHeader.authToken cookieHeader with
      | Some token => if String.eqb token "" then None else Some token
      | None => None
      end
  end.

End Jwt.

(** ** The edge gatekeeper: [middleware.ts] *)

Module Middleware.
Import JsString.

(** [URL]: what the source builds is an origin, a path and query
    parameters; the text of the query string is the URL library's. *)
Record URL : Type := {
  origin : string;
  url_pathname : string;
  searchParams : list (string * string)
}.

(** [new URL(path, base)] for an absolute path. *)
Definition new_URL (path base_origin : string) : URL :=
  {| origin := base_origin; url_pathname := path; searchParams := [] |}.

(** [url.searchParams.set(name, value)] *)
Definition searchParams_set (u : URL) (name value : string) : URL :=
  {| origin := origin u; url_pathname := url_pathname u;
     searchParams :=
       if existsb (fun kv => String.eqb (fst kv) name) (searchParams u)
       then map (fun kv => if String.eqb (fst kv) name then (name, value) else kv)
                (searchParams u)
       else searchParams u ++ [(name, value)] |}.

(** [NextRequest]: the path, the origin of [request.url] and the
    cookies the framework parsed. *)
Record NextRequest : Type := {
  pathname : string;
  request_origin : string;
  cookies : gmap string string
}.

(** [request.cookies.get(name)?.value] *)
Definition cookies_get_value (request : NextRequest) (name : string) : option string :=
  cookies request !! name.

Inductive Action : Type :=
| Next                      (* NextResponse.next() *)
| Redirect (target : URL).  (* NextResponse.redirect(url) *)

(** [NextResponse]: what it does, the headers set on it and the
    cookies it tells the client to delete. *)
Record NextResponse : Type := {
  action : Action;
  response_headers : gmap string string;
  deleted_cookies : list string
}.

Definition NextResponse_next : NextResponse :=
  {| action := Next; response_headers := ∅; deleted_cookies := [] |}.

Definition NextResponse_redirect (u : URL) : NextResponse :=
  {| action := Redirect u; response_headers := ∅; deleted_cookies := [] |}.

(** HTTP whitespace: TAB, LF, CR and SPACE. *)
Definition is_http_whitespace (c : ascii) : bool :=
  let n := nat_of_ascii c in
  ((n =? 9) || (n =? 10) || (n =? 13) || (n =? 32))%nat.

Fixpoint strip_leading (s : string) : string :=
  match s with
  | String c s' => if is_http_whitespace c then strip_leading s' else s
  | EmptyString => EmptyString
  end.

Fixpoint strip_trailing (s : string) : string :=
  match s with
  | EmptyString => EmptyString
  | String c s' =>
      match strip_trailing s' with
      | EmptyString => if is_http_whitespace c then EmptyString else String c EmptyString
      | t => String c t
      end
  end.

(** Normalising a header value: leading and trailing HTTP whitespace is
    removed. *)
Definition normalize (value : string) : string := strip_trailing (strip_leading value).

(** A header value holds no NUL, LF or CR. *)
Definition is_header_value (value : string) : bool :=
  negb (occurs "000" value) && negb (occurs "010" value) && negb (occurs "013" value).

(** [response.headers.set(name, value)].  [Headers] is the platform's
    (the Fetch standard), not the repository's: the value is
    normalised, a normalised value that is not a header value is
    refused with a [TypeError], and otherwise it replaces what the name
    held.  The two names the source passes are header names. *)
Definition headers_set (r : NextResponse) (name value : string)
  : Completion JsError NextResponse :=
  let value := normalize value in
  if is_header_value value then
    Return {| action := action r;
              response_headers := <[name := value]> (response_headers r);
              deleted_cookies := deleted_cookies r |}
  else Throw (TypeError "Invalid header value").

(** What [headers.set] stores for a value; [None] where it throws. *)
Definition header_value (value : string) : option string :=
  if is_header_value (normalize value) then Some (normalize value) else None.

(** [response.cookies.delete(name)] *)
Definition cookies_delete (r : NextResponse) (name : string) : NextResponse :=
  {| action := action r;
     response_headers := response_headers r;
     deleted_cookies := deleted_cookies r ++ [name] |}.

Section Gatekeeper.
Variable TextEncoder_encode : string -> list Byte.byte.
Variable hmac : string -> list Byte.byte -> string -> string.
Variable decode : string -> option Jwt.Decoded.
Variable env : ProcessEnv.

(** The two route lists, as parameters of the function body. *)
Variable publicRoutes protectedRoutes : list string.

Definition isPublicRoute (pathname : string) : bool :=
  existsb (fun route => strictEq pathname route || startsWith pathname (route ++ "/"))
          publicRoutes.

Definition isProtectedRoute (pathname : string) : bool :=
  existsb (fun route => startsWith pathname route) protectedRoutes.

(** The body of [middleware]. *)
Definition middleware_body (request : NextRequest) (now_ms : Z)
  : Completion JsError NextResponse :=
  let pathname := pathname request in
  if isPublicRoute pathname then Return NextResponse_next
  else if negb (isProtectedRoute pathname) then Return NextResponse_next
  else
    let token := cookies_get_value request "auth-token" in
    if negb (truthy token) then
      let loginUrl := new_URL "/login" (request_origin request) in
      let loginUrl := searchParams_set loginUrl "redirect" pathname in
      Return (NextResponse_redirect loginUrl)
    else
      tryCatch
        (let secret := TextEncoder_encode (JWT_SECRET env) in
         payload ← Jwt.jose_jwtVerify hmac decode (default "" token) secret now_ms;
         let response := NextResponse_next in
         response ← headers_set response "x-user-id" (Jwt.userId (Jwt.claims payload));
         response ← headers_set response "x-user-email" (Jwt.email (Jwt.claims payload));
         Return response)
        (fun error =>
           let response := NextResponse_redirect
                             (new_URL "/login" (request_origin request)) in
           let response := cookies_delete response "auth-token" in
           Return response).
End Gatekeeper.

Definition publicRoutes : list string :=
  ["/"; "/login"; "/register"; "/api/auth/login"; "/api/auth/register";
   "/api/auth/logout"; "/api/health"].

Definition protectedRoutes : list string :=
  ["/dashboard"; "/workspace"; "/project"; "/profile"; "/settings"].

(** [middleware] of [middleware.ts]. *)
Definition middleware TextEncoder_encode hmac decode env
    (request : NextRequest) (now_ms : Z) : Completion JsError NextResponse :=
  middleware_body TextEncoder_encode hmac decode env
                  publicRoutes protectedRoutes request now_ms.

(** Did the gatekeeper let the request through? *)
Definition allowed (c : Completion JsError NextResponse) : bool :=
  match c with
  | Return r => match action r with Next => true | Redirect _ => false end
  | Throw _ => false
  end.

(** The URL a response redirects to, if it redirects. *)
Definition redirect_target (c : Completion JsError NextResponse) : option URL :=
  match c with
  | Return r => match action r with Redirect u => Some u | Next => None end
  | Throw _ => None
  end.

(** [url.searchParams.get(name)] *)
Definition searchParams_get (u : URL) (name : string) : option string :=
  snd <$> find (fun kv => String.eqb (fst kv) name) (searchParams u).

End Middleware.

(** ** The login and registration handlers *)

Module Api.

(** Modelled from the spec: the database client ([lib/db]) and its
    schema are not among the sources; the spec treats the store as an
    external collaborator (section 1) and names the public fields of a
    user (section 6).  The rows hold the fields the handlers read and
    write. *)
Record UserRow : Type := {
  id : string;
  email : string;
  name : option string;
  createdAt : Z
}.

Record AspNetUserRow : Type := {
  asp_id : string;
  userName : string;
  normalizedUserName : string;
  asp_email : string;
  normalizedEmail : string;
  passwordHash : option string;
  securityStamp : option string;
  emailConfirmed : bool;
  twoFactorEnabled : bool;
  lockoutEnabled : bool;
  accessFailedCount : Z
}.

Record Db : Type := {
  users : list UserRow;
  aspNetUsers : list AspNetUserRow
}.

(** Modelled from the spec: the query of the absent database client.
    [db.user.findUnique({ where: { email }, include: { aspNetUser: true } })]:
    the user of that email with the credential record of the same id
    (the id [register] gives it), or [null]. *)
Definition user_findUnique (db : Db) (where_email : string)
  : option (UserRow * option AspNetUserRow) :=
  match find (fun u => String.eqb (email u) where_email) (users db) with
  | Some u => Some (u, find (fun a => String.eqb (asp_id a) (id u)) (aspNetUsers db))
  | None => None
  end.

(** An API request: its body, [None] when it is not JSON. *)
Record ApiRequest : Type := { json_body : option Json }.

(** [await request.json()] *)
Definition request_json (request : ApiRequest) : Completion JsError Json :=
  match json_body request with
  | Some j => Return j
  | None => Throw SyntaxError
  end.

(** The options of [response.cookies.set]. *)
Record CookieOptions : Type := {
  httpOnly : bool;
  secure : bool;
  sameSite : string;
  maxAge : Z;
  path : string
}.

Record SetCookie : Type := {
  cookie_name : string;
  cookie_value : string;
  cookie_options : CookieOptions
}.

(** [NextResponse.json(body, { status })] and the cookies set on it. *)
Record ApiResponse : Type := {
  status : Z;
  body : Json;
  set_cookies : list SetCookie
}.

Definition NextResponse_json (body : Json) (status : Z) : ApiResponse :=
  {| status := status; body := body; set_cookies := [] |}.

Definition cookies_set (r : ApiResponse) (name value : string) (o : CookieOptions)
  : ApiResponse :=
  {| status := status r; body := body r;
     set_cookies :=
       List.filter (fun c => negb (String.eqb (cookie_name c) name)) (set_cookies r)
       ++ [{| cookie_name := name; cookie_value := value; cookie_options := o |}] |}.

(** A nullable string as a JSON value. *)
Definition json_of_nullable (v : option string) : Json :=
  match v with
  | Some s => JStr s
  | None => JNull
  end.

(** The [catch] block both handlers end with. *)
Definition error_response (error : JsError) : ApiResponse :=
  match error with
  | ZodError errors =>
      NextResponse_json
        (JObj [("error", JStr "Validation failed"); ("details", errors)]) 400
  | _ => NextResponse_json (JObj [("error", JStr "Internal server error")]) 500
  end.

Section Handlers.
(** Library functions the handlers call. *)
Variable TextEncoder_encode : string -> list Byte.byte.
Variable hmac : string -> list Byte.byte -> string -> string.
Variable encodeSigningInput : string -> Jwt.JWTPayload -> string.
(** [loginSchema.parse] and [registerSchema.parse] of zod: the
    validated fields, or a [ZodError]. *)
Variable loginSchema_parse : Json -> Completion JsError (string * string).
Variable registerSchema_parse : Json -> Completion JsError (string * string * string).
Variable toLowerCase toUpperCase : string -> string.
(** [bcrypt.compare(password, hash)]: false for a malformed hash. *)
Variable bcrypt_compare : string -> string -> bool.
(** [bcrypt.hash(password, rounds)] with the salt it drew, and
    [bcrypt.genSaltSync(rounds)]. *)
Variable bcrypt_hash : string -> Z -> string.
Variable bcrypt_genSaltSync : Z -> string.
Variable env : ProcessEnv.

(** [POST] of [api/auth/login/route.ts]. *)
Definition login_POST (db : Db) (request : ApiRequest) (now_ms : Z)
  : Completion JsError ApiResponse :=
  tryCatch
    (body ← request_json request;
     validatedData ← loginSchema_parse body;
     let '(email_in, password) := validatedData in
     let user := user_findUnique db (toLowerCase email_in) in
     match user with
     | None | Some (_, None) =>
         Return (NextResponse_json
                   (JObj [("error", JStr "Invalid email or password")]) 401)
     | Some (user, Some aspNetUser) =>
         let isPasswordValid :=
           bcrypt_compare password (default "" (passwordHash aspNetUser)) in
         if negb isPasswordValid then
           Return (NextResponse_json
                     (JObj [("error", JStr "Invalid email or password")]) 401)
         else
           let payload := {| Jwt.userId := id user;
                             Jwt.email := email user;
                             Jwt.name := name user |} in
           let token :=
             Jwt.jsonwebtoken_sign TextEncoder_encode hmac encodeSigningInput
                                   payload (JWT_SECRET env) now_ms in
           let response :=
             NextResponse_json
               (JObj [("message", JStr "Login successful");
                      ("user", JObj [("id", JStr (id user));
                                     ("email", JStr (email user));
                                     ("name", json_of_nullable (name user));
                                     ("createdAt", JDate (createdAt user))])])
               200 in
           let response :=
             cookies_set response "auth-token" token
               {| httpOnly := true;
                  secure := bool_decide (NODE_ENV env = Some "production");
                  sameSite := "strict";
                  maxAge := 24 * 60 * 60;
                  path := "/" |} in
           Return response
     end)
    (fun error => Return (error_response error)).

(** [POST] of [api/auth/register/route.ts].  [fresh_id] and [now_ms]
    are the id and the creation time the database gives the new
    row; the result carries the database after the request. *)
Definition register_POST (db : Db) (request : ApiRequest) (fresh_id : string) (now_ms : Z)
  : Completion JsError (ApiResponse * Db) :=
  tryCatch
    (body ← request_json request;
     validatedData ← registerSchema_parse body;
     let '(fullName, email_in, password) := validatedData in
     let existingUser := user_findUnique db (toLowerCase email_in) in
     match existingUser with
     | Some _ =>
         Return (NextResponse_json
                   (JObj [("error", JStr "User with this email already exists")]) 409,
                 db)
     | None =>
         let saltRounds := 12 in
         let passwordHash := bcrypt_hash password saltRounds in
         let securityStamp := bcrypt_genSaltSync 8 in
         let user := {| id := fresh_id;
                        email := toLowerCase email_in;
                        name := Some fullName;
                        createdAt := now_ms |} in
         let aspNetUser := {| asp_id := id user;
                              userName := toLowerCase email_in;
                              normalizedUserName := toUpperCase email_in;
                              asp_email := toLowerCase email_in;
                              normalizedEmail := toUpperCase email_in;
                              passwordHash := Some passwordHash;
                              securityStamp := Some securityStamp;
                              emailConfirmed := false;
                              twoFactorEnabled := false;
                              lockoutEnabled := true;
                              accessFailedCount := 0 |} in
         let db' := {| users := users db ++ [user];
                       aspNetUsers := aspNetUsers db ++ [aspNetUser] |} in
         Return (NextResponse_json
                   (JObj [("message", JStr "User registered successfully");
                          ("user", JObj [("id", JStr (id user));
                                         ("email", JStr (email user));
                                         ("name", json_of_nullable (name user));
                                         ("createdAt", JDate (createdAt user))])])
                   201,
                 db')
     end)
    (fun error => Return (error_response error, db)).

(** *** Vocabulary of the statements about the handlers *)

(** The three ways the credentials of a validated login are bad. *)
Inductive BadCredentials (db : Db) (email_in password : string) : Prop :=
| unknown_email :
    user_findUnique db (toLowerCase email_in) = None ->
    BadCredentials db email_in password
| no_credential_record user :
    user_findUnique db (toLowerCase email_in) = Some (user, None) ->
    BadCredentials db email_in password
| wrong_password user aspNetUser :
    user_findUnique db (toLowerCase email_in) = Some (user, Some aspNetUser) ->
    bcrypt_compare password (default "" (passwordHash aspNetUser)) = false ->
    BadCredentials db email_in password.

(** The credentials of a validated login are those of [user]. *)
Definition GoodCredentials (db : Db) (email_in password : string) (user : UserRow) : Prop :=
  exists aspNetUser,
    user_findUnique db (toLowerCase email_in) = Some (user, Some aspNetUser)
    /\ bcrypt_compare password (default "" (passwordHash aspNetUser)) = true.

End Handlers.

(** The response of a handler that also returns the database. *)
Definition response_of (c : Completion JsError (ApiResponse * Db))
  : Completion JsError ApiResponse :=
  match c with
  | Return (r, _) => Return r
  | Throw e => Throw e
  end.

(** The names of the fields of a JSON object. *)
Definition field_names (j : Json) : list string :=
  match j with
  | JObj fields => map fst fields
  | _ => []
  end.

(** The field of a JSON object. *)
Definition field (j : Json) (name : string) : option Json :=
  match j with
  | JObj fields => snd <$> find (fun kv => String.eqb (fst kv) name) fields
  | _ => None
  end.

(** The same credential record with other secrets. *)
Definition with_secrets (a : AspNetUserRow) (secrets : option string * option string)
  : AspNetUserRow :=
  {| asp_id := asp_id a;
     userName := userName a;
     normalizedUserName := normalizedUserName a;
     asp_email := asp_email a;
     normalizedEmail := normalizedEmail a;
     passwordHash := fst secrets;
     securityStamp := snd secrets;
     emailConfirmed := emailConfirmed a;
     twoFactorEnabled := twoFactorEnabled a;
     lockoutEnabled := lockoutEnabled a;
     accessFailedCount := accessFailedCount a |}.

(** The same database with the password hash and the security stamp of
    every credential record replaced. *)
Definition reseal (f : AspNetUserRow -> option string * option string) (db : Db) : Db :=
  {| users := users db;
     aspNetUsers := map (fun a => with_secrets a (f a)) (aspNetUsers db) |}.

(** The object a success body carries under [user]. *)
Definition public_user (u : UserRow) : Json :=
  JObj [("id", JStr (id u));
        ("email", JStr (email u));
        ("name", json_of_nullable (name u));
        ("createdAt", JDate (createdAt u))].

(** The bodies the two handlers can answer with: a message and the
    public fields of a user; an error; an error with the issues the
    schema found in the request. *)
Inductive HandlerBody : Json -> Prop :=
| success_body message u :
    HandlerBody (JObj [("message", JStr message); ("user", public_user u)])
| error_body message :
    HandlerBody (JObj [("error", JStr message)])
| validation_body errors :
    HandlerBody (JObj [("error", JStr "Validation failed"); ("details", errors)]).

End Api.

(** ** A small concrete instance of the library primitives

    Used to run the definitions on concrete requests. *)

Module Sample.

Definition TextEncoder_encode (s : string) : list Byte.byte :=
  map byte_of_ascii (list_ascii_of_string s).

Definition hmac (alg : string) (key : list Byte.byte) (input : string) : string := "s".

Definition encodeSigningInput (alg : string) (body : Jwt.JWTPayload) : string := "h.p".

Definition env : ProcessEnv :=
  {| JWT_SECRET := "secret"; NODE_ENV := Some "production" |}.

Definition alice : Jwt.User :=
  {| Jwt.id := "u1"; Jwt.user_email := "alice@example.com";
     Jwt.user_name := Some "Alice" |}.

(** The one token this instance knows: the one issued to [alice] at
    clock 0. *)
Definition decode (token : string) : option Jwt.Decoded :=
  if String.eqb token "h.p.s"
  then Some (Jwt.issued_parts TextEncoder_encode hmac encodeSigningInput env alice 0)
  else None.

(** Requests to the gatekeeper. *)
Definition to_path (p : string) (cookie : option string) : Middleware.NextRequest :=
  {| Middleware.pathname := p;
     Middleware.request_origin := "https://tasks.example";
     Middleware.cookies :=
       match cookie with
       | Some v => {[ "auth-token" := v ]}
       | None => ∅
       end |}.

(** A database with one registered user, and requests to the handlers. *)
Definition alice_row : Api.UserRow :=
  {| Api.id := "u1"; Api.email := "alice@example.com"; Api.name := Some "Alice";
     Api.createdAt := 1700000000000 |}.

Definition alice_credentials : Api.AspNetUserRow :=
  {| Api.asp_id := "u1";
     Api.userName := "alice@example.com";
     Api.normalizedUserName := "ALICE@EXAMPLE.COM";
     Api.asp_email := "alice@example.com";
     Api.normalizedEmail := "ALICE@EXAMPLE.COM";
     Api.passwordHash := Some "$2a$12$hash-of-correct-horse";
     Api.securityStamp := Some "$2a$08$stamp";
     Api.emailConfirmed := false;
     Api.twoFactorEnabled := false;
     Api.lockoutEnabled := true;
     Api.accessFailedCount := 0 |}.

Definition db : Api.Db :=
  {| Api.users := [alice_row]; Api.aspNetUsers := [alice_credentials] |}.

Definition credentials (email password : string) : Api.ApiRequest :=
  {| Api.json_body := Some (JObj [("email", JStr email); ("password", JStr password)]) |}.

Definition registration (fullName email password : string) : Api.ApiRequest :=
  {| Api.json_body := Some (JObj [("fullName", JStr fullName); ("email", JStr email);
                                  ("password", JStr password)]) |}.

(** The schemas on bodies of the expected shape; any other body is
    refused with an empty list of issues. *)
Definition loginSchema_parse (body : Json) : Completion JsError (string * string) :=
  match body with
  | JObj [("email", JStr e); ("password", JStr p)] =>
      if String.eqb p "" then Throw (ZodError (JArr [JStr "Password is required"]))
      else Return (e, p)
  | _ => Throw (ZodError (JArr []))
  end.

Definition registerSchema_parse (body : Json)
  : Completion JsError (string * string * string) :=
  match body with
  | JObj [("fullName", JStr n); ("email", JStr e); ("password", JStr p)] =>
      Return (n, e, p)
  | _ => Throw (ZodError (JArr []))
  end.

(** Case conversion is the identity on the addresses used here. *)
Definition toLowerCase (s : string) : string := s.
Definition toUpperCase (s : string) : string := s.

(** One password matches the one stored hash. *)
Definition bcrypt_compare (password hash : string) : bool :=
  String.eqb password "correct horse" && String.eqb hash "$2a$12$hash-of-correct-horse".

Definition bcrypt_hash (password : string) (rounds : Z) : string :=
  "$2a$12$hash-of-" ++ password.

Definition bcrypt_genSaltSync (rounds : Z) : string := "$2a$08$stamp".

End Sample.

(** ** A concrete compact codec

    A self-delimiting text encoding over letters and digits, its
    decoder, and a keyed tag that stands in for the MAC.  It serves to
    run signing and verification on concrete users and clocks. *)

Module Toy.
Import JsString.

Definition bit (b : bool) : ascii := if b then "1"%char else "0"%char.

Definition unbit (c : ascii) : option bool :=
  if Ascii.eqb c "1" then Some true
  else if Ascii.eqb c "0" then Some false
  else None.

(** A string: each character as [c] and its eight bits, then [e]. *)
Fixpoint write_string (s rest : string) : string :=
  match s with
  | EmptyString => String "e" rest
  | String (Ascii b0 b1 b2 b3 b4 b5 b6 b7) s' =>
      String "c" (String (bit b0) (String (bit b1) (String (bit b2) (String (bit b3)
        (String (bit b4) (String (bit b5) (String (bit b6) (String (bit b7)
          (write_string s' rest)))))))))
  end.

Fixpoint read_string (s : string) : option (string * string) :=
  match s with
  | EmptyString => None
  | String c r =>
      if Ascii.eqb c "e" then Some (EmptyString, r)
      else if Ascii.eqb c "c" then
        match r with
        | String c0 (String c1 (String c2 (String c3
            (String c4 (String c5 (String c6 (String c7 r'))))))) =>
            match unbit c0, unbit c1, unbit c2, unbit c3,
                  unbit c4, unbit c5, unbit c6, unbit c7, read_string r' with
            | Some b0, Some b1, Some b2, Some b3,
              Some b4, Some b5, Some b6, Some b7, Some (v, rest) =>
                Some (String (Ascii b0 b1 b2 b3 b4 b5 b6 b7) v, rest)
            | _, _, _, _, _, _, _, _, _ => None
            end
        | _ => None
        end
      else None
  end.

(** A positive number: its bits from the lowest, then [e]. *)
Fixpoint write_positive (p : positive) (rest : string) : string :=
  match p with
  | xH => String "e" rest
  | xO q => String "0" (write_positive q rest)
  | xI q => String "1" (write_positive q rest)
  end.

Fixpoint read_positive (s : string) : option (positive * string) :=
  match s with
  | EmptyString => None
  | String c r =>
      if Ascii.eqb c "e" then Some (xH, r)
      else if Ascii.eqb c "0" then
        match read_positive r with
        | Some (q, rest) => Some (xO q, rest)
        | None => None
        end
      else if Ascii.eqb c "1" then
        match read_positive r with
        | Some (q, rest) => Some (xI q, rest)
        | None => None
        end
      else None
  end.

Definition write_Z (n : Z) (rest : string) : string :=
  match n with
  | Z0 => String "z" rest
  | Zpos q => String "p" (write_positive q rest)
  | Zneg q => String "n" (write_positive q rest)
  end.

Definition read_Z (s : string) : option (Z * string) :=
  match s with
  | EmptyString => None
  | String c r =>
      if Ascii.eqb c "z" then Some (Z0, r)
      else if Ascii.eqb c "p" then
        match read_positive r with
        | Some (q, rest) => Some (Zpos q, rest)
        | None => None
        end
      else if Ascii.eqb c "n" then
        match read_positive r with
        | Some (q, rest) => Some (Zneg q, rest)
        | None => None
        end
      else None
  end.

(** An optional field: [N], or [S] and the value. *)
Definition write_option {A} (write : A -> string -> string) (v : option A) (rest : string)
  : string :=
  match v with
  | None => String "N" rest
  | Some a => String "S" (write a rest)
  end.

Definition read_option {A} (read : string -> option (A * string)) (s : string)
  : option (option A * string) :=
  match s with
  | EmptyString => None
  | String c r =>
      if Ascii.eqb c "N" then Some (None, r)
      else if Ascii.eqb c "S" then
        match read r with
        | Some (a, rest) => Some (Some a, rest)
        | None => None
        end
      else None
  end.

Definition write_payload (body : Jwt.JWTPayload) (rest : string) : string :=
  write_string (Jwt.userId (Jwt.claims body))
    (write_string (Jwt.email (Jwt.claims body))
       (write_option write_string (Jwt.name (Jwt.claims body))
          (write_option write_Z (Jwt.iat body)
             (write_option write_Z (Jwt.exp body) rest)))).

Definition read_payload (s : string) : option (Jwt.JWTPayload * string) :=
  match read_string s with
  | Some (userId, s1) =>
      match read_string s1 with
      | Some (email, s2) =>
          match read_option read_string s2 with
          | Some (name, s3) =>
              match read_option read_Z s3 with
              | Some (iat, s4) =>
                  match read_option read_Z s4 with
                  | Some (exp, rest) =>
                      Some ({| Jwt.claims := {| Jwt.userId := userId; Jwt.email := email;
                                                Jwt.name := name |};
                               Jwt.iat := iat; Jwt.exp := exp |}, rest)
                  | None => None
                  end
              | None => None
              end
          | None => None
          end
      | None => None
      end
  | None => None
  end.

(** The signing input, written before [rest]: the algorithm, a dot,
    the payload. *)
Definition encode_before (a : string) (body : Jwt.JWTPayload) (rest : string) : string :=
  write_string a (String "." (write_payload body rest)).

Definition encodeSigningInput (a : string) (body : Jwt.JWTPayload) : string :=
  encode_before a body EmptyString.

Definition TextEncoder_encode (s : string) : list Byte.byte :=
  map byte_of_ascii (list_ascii_of_string s).

(** The tag of an input under a key: it determines algorithm, key and
    input. *)
Definition hmac (a : string) (key : list Byte.byte) (input : string) : string :=
  write_string a
    (write_string (string_of_list_ascii (map ascii_of_byte key))
       (write_string input EmptyString)).

Definition decode (token : string) : option Jwt.Decoded :=
  match read_string token with
  | Some (a, String dot1 s1) =>
      if Ascii.eqb dot1 "." then
        match read_payload s1 with
        | Some (body, String dot2 sig) =>
            if Ascii.eqb dot2 "." && all_chars Jwt.is_base64url_char sig then
              Some {| Jwt.signing_input := encodeSigningInput a body;
                      Jwt.alg := a; Jwt.payload := body; Jwt.signature := sig |}
            else None
        | _ => None
        end
      else None
  | _ => None
  end.

Definition env : ProcessEnv :=
  {| JWT_SECRET := "secret"; NODE_ENV := Some "production" |}.

(** A user whose id holds a line feed, and one whose id is padded
    with blanks. *)
Definition two_lines : Jwt.User :=
  {| Jwt.id := String "a" (String "010" (String "b" EmptyString));
     Jwt.user_email := "lines@example.com"; Jwt.user_name := None |}.

Definition padded : Jwt.User :=
  {| Jwt.id := " u1 "; Jwt.user_email := "padded@example.com"; Jwt.user_name := None |}.

End Toy.

(** ** The rest of [auth.ts] *)

Module AuthLib.
Import JsString.

Section Codec.
Variable TextEncoder_encode : string -> list Byte.byte.
Variable hmac : string -> list Byte.byte -> string -> string.
Variable decode : string -> option Jwt.Decoded.
Variable env : ProcessEnv.

(** [getUserFromToken] of [auth.ts] (for server components). *)
Definition getUserFromToken (request : Request) (now_ms : Z)
  : Completion JsError (option Jwt.JWTPayload) :=
  tryCatch
    (let cookieHeader := headers_get request "cookie" in
     if negb (truthy cookieHeader) then Return None
     else
       let cookies := CookieHeader.parseCookies (default "" cookieHeader) in
       let token := CookieHeader.get cookies "auth-token" in
       if negb (truthy token) then Return None
       else
         let secret := TextEncoder_encode (JWT_SECRET env) in
         payload ← Jwt.jose_jwtVerify hmac decode (default "" token) secret now_ms;
         Return (Some payload))
    (fun error => Return None).

(** The request carries a session with payload [p] at clock [now_ms]:
    its cookie header yields a non-empty token that decodes, is signed
    under the configured secret with a symmetric algorithm, and is not
    past its expiry. *)
Definition carries_session (request : Request) (now_ms : Z) (p : Jwt.JWTPayload) : Prop :=
  exists cookieHeader token parts,
    headers_get request "cookie" = Some cookieHeader
    /\ CookieHeader.authToken cookieHeader = Some token
    /\ token <> ""
    /\ decode token = Some parts
    /\ Jwt.symmetric_alg (Jwt.alg parts) = true
    /\ hmac (Jwt.alg parts) (TextEncoder_encode (JWT_SECRET env)) (Jwt.signing_input parts)
       = Jwt.signature parts
    /\ (forall expiry, Jwt.exp (Jwt.payload parts) = Some expiry ->
                       Jwt.epoch now_ms < expiry)
    /\ Jwt.payload parts = p.

End Codec.
End AuthLib.

(** ** Cookie headers as a client writes them *)

Module CookieJar.
Import JsString.

(** [name=value] *)
Definition pair_text (kv : string * string) : string := fst kv ++ "=" ++ snd kv.

(** The pairs joined by ["; "]. *)
Fixpoint render (pairs : list (string * string)) : string :=
  match pairs with
  | [] => ""
  | [kv] => pair_text kv
  | kv :: rest => pair_text kv ++ "; " ++ render rest
  end.

(** The value of the last pair of that name. *)
Fixpoint last_value (name : string) (pairs : list (string * string)) : option string :=
  match pairs with
  | [] => None
  | kv :: rest =>
      match last_value name rest with
      | Some v => Some v
      | None => if String.eqb (fst kv) name then Some (snd kv) else None
      end
  end.

(** A pair the parser reads back as it is: name and value made of token
    characters, and a name other than ["__proto__"]. *)
Definition plain_pair (kv : string * string) : bool :=
  all_chars CookieHeader.is_token_char (fst kv)
  && all_chars CookieHeader.is_token_char (snd kv)
  && negb (String.eqb (fst kv) "__proto__").

End CookieJar.

(** ** What the two tables are expected to satisfy *)

Module ApiInvariants.
Import Api.

(** No two users share an e-mail address. *)
Definition emails_unique (db : Db) : Prop := NoDup (map email (users db)).

(** Every credential record belongs to a user: one of the same id. *)
Definition credentials_owned (db : Db) : Prop :=
  forall a, In a (aspNetUsers db) -> exists u, In u (users db) /\ id u = asp_id a.

(** The database holds no row of that id yet. *)
Definition id_unused (db : Db) (fresh_id : string) : Prop :=
  (forall u, In u (users db) -> id u <> fresh_id)
  /\ (forall a, In a (aspNetUsers db) -> asp_id a <> fresh_id).

(** The rows a registration adds. *)
Definition registered_user (toLowerCase : string -> string)
    (fresh_id fullName email_in : string) (now_ms : Z) : UserRow :=
  {| id := fresh_id; email := toLowerCase email_in; name := Some fullName;
     createdAt := now_ms |}.

Definition registered_credentials (toLowerCase toUpperCase : string -> string)
    (fresh_id email_in hash stamp : string) : AspNetUserRow :=
  {| asp_id := fresh_id;
     userName := toLowerCase email_in;
     normalizedUserName := toUpperCase email_in;
     asp_email := toLowerCase email_in;
     normalizedEmail := toUpperCase email_in;
     passwordHash := Some hash;
     securityStamp := Some stamp;
     emailConfirmed := false;
     twoFactorEnabled := false;
     lockoutEnabled := true;
     accessFailedCount := 0 |}.

Section Login.
Variable TextEncoder_encode : string -> list Byte.byte.
Variable hmac : string -> list Byte.byte -> string -> string.
Variable encodeSigningInput : string -> Jwt.JWTPayload -> string.
Variable env : ProcessEnv.

(** The answer to a login with the credentials of [user] at [now_ms]. *)
Definition login_success (user : UserRow) (now_ms : Z) : ApiResponse :=
  {| status := 200;
     body := JObj [("message", JStr "Login successful"); ("user", public_user user)];
     set_cookies :=
       [{| cookie_name := "auth-token";
           cookie_value :=
             Jwt.jsonwebtoken_sign TextEncoder_encode hmac encodeSigningInput
               {| Jwt.userId := id user; Jwt.email := email user; Jwt.name := name user |}
               (JWT_SECRET env) now_ms;
           cookie_options :=
             {| httpOnly := true;
                secure := bool_decide (NODE_ENV env = Some "production");
                sameSite := "strict"; maxAge := 86400; path := "/" |} |}] |}.

End Login.

(** The cookie is the session cookie that carries [token]: named
    [auth-token], holding the token, HttpOnly, SameSite [strict], Path
    [/], Max-Age 86400 seconds, and Secure exactly in production. *)
Definition session_cookie (env : ProcessEnv) (token : string) (cookie : SetCookie) : Prop :=
  cookie_name cookie = "auth-token"
  /\ cookie_value cookie = token
  /\ httpOnly (cookie_options cookie) = true
  /\ sameSite (cookie_options cookie) = "strict"
  /\ path (cookie_options cookie) = "/"
  /\ maxAge (cookie_options cookie) = 86400
  /\ (secure (cookie_options cookie) = true <-> NODE_ENV env = Some "production").

(** The answer to a login with bad credentials. *)
Definition login_refused : ApiResponse :=
  NextResponse_json (JObj [("error", JStr "Invalid email or password")]) 401.

(** The answer to a registration under a taken address. *)
Definition register_conflict : ApiResponse :=
  NextResponse_json (JObj [("error", JStr "User with this email already exists")]) 409.

(** The answer to a registration that went through. *)
Definition register_success (user : UserRow) : ApiResponse :=
  NextResponse_json
    (JObj [("message", JStr "User registered successfully"); ("user", public_user user)])
    201.

End ApiInvariants.

(** ** A second concrete instance: hashing and comparing that fit *)

Module Demo.

(** The hash of a password, and the comparison that accepts exactly the
    password a hash was made of. *)
Definition bcrypt_hash (password : string) (rounds : Z) : string :=
  "$2a$12$" ++ password.

Definition bcrypt_compare (password hash : string) : bool :=
  String.eqb hash ("$2a$12$" ++ password).

(** A decoder that also knows a forged token: the parts of the token
    issued to the sample user, under another signature. *)
Definition decode (token : string) : option Jwt.Decoded :=
  if String.eqb token "h.p.x"
  then Some {| Jwt.signing_input := "h.p";
               Jwt.alg := "HS256";
               Jwt.payload := Jwt.issued_payload Sample.alice 0;
               Jwt.signature := "x" |}
  else Sample.decode token.

End Demo.

(** ** The client session: [contexts/AuthContext.tsx] and the protected layout *)

Module ClientSession.

(** [interface User] of the context. *)
Record User : Type := {
  id : string;
  name : option string;
  email : string
}.

(** The three pieces of state of [AuthProvider]. *)
Record State : Type := {
  user : option User;
  isLoading : bool;
  hasMounted : bool
}.

(** [useState(null)], [useState(true)], [useState(false)] *)
Definition initial : State :=
  {| user := None; isLoading := true; hasMounted := false |}.

Definition setUser (s : State) (u : option User) : State :=
  {| user := u; isLoading := isLoading s; hasMounted := hasMounted s |}.

Definition setIsLoading (s : State) (b : bool) : State :=
  {| user := user s; isLoading := b; hasMounted := hasMounted s |}.

Definition setHasMounted (s : State) (b : bool) : State :=
  {| user := user s; isLoading := isLoading s; hasMounted := b |}.

(** What axios rejects with. *)
Inductive AxiosError : Type :=
| Timeout
| NetworkError
| BadStatus (code : Z).

(** [response.data] of the two endpoints: [data.user], possibly
    [undefined]. *)
Record ResponseData : Type := { data_user : option User }.

(** The server as the client sees it: the outcome of a GET or POST to a
    path. *)
Record Server : Type := {
  get : string -> Completion AxiosError ResponseData;
  post : string -> Completion AxiosError unit
}.

(** A step of the provider: the state it leaves and the paths it
    requested, in order. *)
Record Step : Type := {
  after : State;
  requested : list string
}.

(** The first effect: [setHasMounted(true)]. *)
Definition mountEffect (s : State) : State := setHasMounted s true.

(** [verifySession], the body of the second effect once mounted. *)
Definition verifySession (server : Server) (s : State) : Step :=
  let tried :=
    match get server "/api/auth/user" with
    | Return response =>
        {| after := setUser s (data_user response);
           requested := ["/api/auth/user"] |}
    | Throw headerError =>
        match get server "/api/auth/verify" with
        | Return fallbackResponse =>
            {| after := setUser s (data_user fallbackResponse);
               requested := ["/api/auth/user"; "/api/auth/verify"] |}
        | Throw tokenError =>
            {| after := setUser s None;
               requested := ["/api/auth/user"; "/api/auth/verify"] |}
        end
    end in
  {| after := setIsLoading (after tried) false; requested := requested tried |}.

(** The second effect: nothing before the component has mounted. *)
Definition verifyEffect (server : Server) (s : State) : Step :=
  if negb (hasMounted s) then {| after := s; requested := [] |}
  else verifySession server s.

(** [logout]: the completion the caller sees and the state left. *)
Definition logout (server : Server) (s : State) : Completion AxiosError unit * State :=
  match post server "/api/auth/logout" with
  | Return _ => (Return tt, setUser s None)
  | Throw error => (Throw error, s)
  end.

(** What [ProtectedLayoutContent] shows. *)
Inductive View : Type :=
| Spinner
| Nothing
| Protected (u : User).

(** The render of [ProtectedLayoutContent], from the context and its own
    [isMounted]. *)
Definition render (s : State) (isMounted : bool) : View :=
  if negb isMounted || isLoading s then Spinner
  else match user s with
       | None => Nothing
       | Some u => Protected u
       end.

(** Its effect: the path it pushes to the router, if any. *)
Definition layoutEffect (s : State) (isMounted : bool) : option string :=
  if isMounted && negb (isLoading s) && negb (bool_decide (is_Some (user s)))
  then Some "/login"
  else None.

End ClientSession.

(** ** Task status constants and utilities

    A status, a priority or an importance is a [number] holding an
    integer (the request schemas ask for one): it is a [Z] here. *)

Module TaskStatus.
Import JsString.

Definition TODO : Z := 0.
Definition IN_PROGRESS : Z := 1.
Definition DONE : Z := 2.
Definition REJECTED : Z := 3.
Definition COMPLETED : Z := 4.

(** A table keyed by small integers: [TABLE[key]], [undefined] for a key
    it does not have. *)
Definition table_get (table : list (Z * string)) (key : Z) : option string :=
  snd <$> find (fun kv => Z.eqb (fst kv) key) table.

Definition TASK_STATUS_LABELS : list (Z * string) :=
  [(TODO, "To Do"); (IN_PROGRESS, "In Progress"); (DONE, "Done");
   (REJECTED, "Rejected"); (COMPLETED, "Completed")].

Definition TASK_STATUS_COLORS : list (Z * string) :=
  [(TODO, "bg-gray-100 text-gray-800"); (IN_PROGRESS, "bg-blue-100 text-blue-800");
   (DONE, "bg-green-100 text-green-800"); (REJECTED, "bg-red-100 text-red-800");
   (COMPLETED, "bg-purple-100 text-purple-800")].

Definition TASK_PRIORITY_LABELS : list (Z * string) :=
  [(0, "Low"); (1, "Medium"); (2, "High"); (3, "Urgent")].

Definition TASK_PRIORITY_COLORS : list (Z * string) :=
  [(0, "bg-gray-100 text-gray-800"); (1, "bg-yellow-100 text-yellow-800");
   (2, "bg-orange-100 text-orange-800"); (3, "bg-red-100 text-red-800")].

Definition TASK_IMPORTANCE_LABELS : list (Z * string) :=
  [(0, "Low"); (1, "Normal"); (2, "High"); (3, "Critical")].

Definition TASK_IMPORTANCE_COLORS : list (Z * string) :=
  [(0, "bg-gray-100 text-gray-800"); (1, "bg-blue-100 text-blue-800");
   (2, "bg-purple-100 text-purple-800"); (3, "bg-red-100 text-red-800")].

(** [interface TaskStatusTransition] *)
Record TaskStatusTransition : Type := {
  from : Z;
  to : Z;
  allowed : bool;
  label : string
}.

Definition TASK_STATUS_TRANSITIONS : list TaskStatusTransition :=
  [ {| from := TODO; to := IN_PROGRESS; allowed := true; label := "Start Task" |};
    {| from := TODO; to := REJECTED; allowed := true; label := "Reject Task" |};
    {| from := IN_PROGRESS; to := TODO; allowed := true; label := "Move Back to To Do" |};
    {| from := IN_PROGRESS; to := DONE; allowed := true; label := "Mark as Done" |};
    {| from := IN_PROGRESS; to := REJECTED; allowed := true; label := "Reject Task" |};
    {| from := DONE; to := IN_PROGRESS; allowed := true; label := "Reopen Task" |};
    {| from := DONE; to := COMPLETED; allowed := true; label := "Mark as Completed" |};
    {| from := REJECTED; to := TODO; allowed := true; label := "Reopen Task" |};
    {| from := COMPLETED; to := IN_PROGRESS; allowed := true; label := "Reopen Task" |} ].

Definition getAllowedStatusTransitions (currentStatus : Z) : list TaskStatusTransition :=
  List.filter (fun transition => Z.eqb (from transition) currentStatus && allowed transition)
              TASK_STATUS_TRANSITIONS.

(** [value || fallback] on [string | undefined] *)
Definition or_else (value : option string) (fallback : string) : string :=
  if truthy value then default fallback value else fallback.

Definition getStatusLabel (status : Z) : string :=
  or_else (table_get TASK_STATUS_LABELS status) "Unknown".

Definition getStatusColor (status : Z) : string :=
  or_else (table_get TASK_STATUS_COLORS status) "bg-gray-100 text-gray-800".

Definition getPriorityLabel (priority : Z) : string :=
  or_else (table_get TASK_PRIORITY_LABELS priority) "Unknown".

Definition getPriorityColor (priority : Z) : string :=
  or_else (table_get TASK_PRIORITY_COLORS priority) "bg-gray-100 text-gray-800".

Definition getImportanceLabel (importance : Z) : string :=
  or_else (table_get TASK_IMPORTANCE_LABELS importance) "Unknown".

Definition getImportanceColor (importance : Z) : string :=
  or_else (table_get TASK_IMPORTANCE_COLORS importance) "bg-gray-100 text-gray-800".

(** The text of an integer in a template literal: its decimal digits.
    This is what JavaScript prints for the whole numbers of days, hours
    and minutes the callers pass; from 10^21 on a number prints in
    exponent form, which still begins with a digit. *)
Definition number_text (n : Z) : string := NilZero.string_of_int (Z.to_int n).

(** [value && value > 0] for an optional integer. *)
Definition positive (value : option Z) : bool :=
  match value with
  | Some n => negb (Z.eqb n 0) && (0 <? n)
  | None => false
  end.

(** [parts.join(' ')] *)
Fixpoint join_spaces (parts : list string) : string :=
  match parts with
  | [] => ""
  | [p] => p
  | p :: rest => p ++ " " ++ join_spaces rest
  end.

(** [parts.push(part)] *)
Definition push (parts : list string) (part : string) : list string :=
  app parts [part].

Definition formatTimeEstimate (days hours minutes : option Z) : string :=
  let parts : list string := [] in
  let parts := if positive days
               then push parts (number_text (default 0 days) ++ "d") else parts in
  let parts := if positive hours
               then push parts (number_text (default 0 hours) ++ "h") else parts in
  let parts := if positive minutes
               then push parts (number_text (default 0 minutes) ++ "m") else parts in
  if (0 <? Z.of_nat (length parts)) then join_spaces parts else "No estimate".

(** The string begins with a decimal digit. *)
Definition begins_with_digit (s : string) : bool :=
  match s with
  | String c _ => (48 <=? nat_of_ascii c)%nat && (nat_of_ascii c <=? 57)%nat
  | EmptyString => false
  end.

(** One status leads to another through allowed transitions. *)
Inductive leads_to : Z -> Z -> Prop :=
| leads_here status : leads_to status status
| leads_on status transition target :
    In transition (getAllowedStatusTransitions status) ->
    leads_to (to transition) target ->
    leads_to status target.

(** The statuses the tables know. *)
Definition known_status (status : Z) : Prop := 0 <= status <= 4.

End TaskStatus.

(** * Properties *)

(** ** Strings *)

Module JsStringFacts.
Import JsString.

Example split_semicolons : split ";" "a=1; b=2;;c" = ["a=1"; " b=2"; ""; "c"].
Proof. reflexivity. Qed.

Example split_empty : split ";" "" = [""].
Proof. reflexivity. Qed.

Example trim_both_ends : trim "  auth-token=x y  " = "auth-token=x y".
Proof. reflexivity. Qed.

Example startsWith_bare : startsWith "/dashboard-public" "/dashboard" = true.
Proof. reflexivity. Qed.

Lemma split_not_nil sep s : split sep s <> [].
Proof.
  destruct s as [|c s]; simpl; [discriminate|].
  destruct (Ascii.eqb c sep); [discriminate|].
  destruct (split sep s); discriminate.
Qed.

(** No piece of a split holds the separator. *)
Lemma split_pieces_free sep s :
  Forall (fun piece => occurs sep piece = false) (split sep s).
Proof.
  induction s as [|c s IH]; simpl.
  - repeat constructor.
  - destruct (Ascii.eqb c sep) eqn:Hc.
    + constructor; [reflexivity | exact IH].
    + destruct (split sep s) as [|p ps].
      * repeat constructor. simpl. now rewrite Hc.
      * inversion IH; subst. constructor; [|assumption].
        simpl. now rewrite Hc.
  Qed.

(** A string without the separator is its own single piece. *)
Lemma split_free sep s : occurs sep s = false -> split sep s = [s].
Proof.
  induction s as [|c s IH]; simpl; [reflexivity|].
  intros H. apply orb_false_iff in H as [Hc Hs].
  rewrite Hc, (IH Hs). reflexivity.
Qed.

(** Splitting [k ++ sep ++ rest] where [k] is free of the separator. *)
Lemma split_app sep k rest :
  occurs sep k = false ->
  split sep (k ++ String sep rest) = k :: split sep rest.
Proof.
  induction k as [|c k IH]; simpl; intros H.
  - now rewrite Ascii.eqb_refl.
  - apply orb_false_iff in H as [Hc Hk].
    rewrite Hc, (IH Hk). reflexivity.
Qed.

(** When a split has a second piece, the first piece and the separator
    open the string. *)
Lemma split_second sep s k v rest :
  split sep s = k :: v :: rest ->
  String.prefix (k ++ String sep EmptyString) s = true.
Proof.
  revert k. induction s as [|c s IH]; simpl; intros k H; [discriminate|].
  destruct (Ascii.eqb c sep) eqn:Hc.
  - injection H as <- _. simpl. apply Ascii.eqb_eq in Hc as ->.
    destruct (ascii_dec sep sep); [now destruct s | congruence].
  - destruct (split sep s) as [|p ps] eqn:Hs; [discriminate|].
    injection H as <- ->. simpl.
    destruct (ascii_dec c c); [| congruence].
    apply IH. reflexivity.
Qed.

Lemma append_assoc (a b c : string) : (a ++ b) ++ c = a ++ (b ++ c).
Proof.
  induction a as [|x a IH]; [reflexivity|].
  change (String x ((a ++ b) ++ c) = String x (a ++ (b ++ c))). now rewrite IH.
Qed.

Lemma prefix_app p s : String.prefix p (p ++ s) = true.
Proof.
  induction p as [|c p IH]; simpl; [now destruct s|].
  destruct (ascii_dec c c); [exact IH | congruence].
Qed.

Lemma prefix_inv p s : String.prefix p s = true -> exists r, s = p ++ r.
Proof.
  revert s. induction p as [|c p IH]; intros s H.
  - exists s. reflexivity.
  - destruct s as [|d s]; simpl in H; [discriminate|].
    destruct (ascii_dec c d) as [->|]; [|discriminate].
    destruct (IH _ H) as [r ->]. exists r. reflexivity.
Qed.

Lemma append_cons c (a b : string) : String c a ++ b = String c (a ++ b).
Proof. reflexivity. Qed.

Lemma occurs_app c (a b : string) : occurs c (a ++ b) = occurs c a || occurs c b.
Proof.
  induction a as [|x a IH]; [reflexivity|].
  rewrite append_cons. simpl. rewrite IH. apply orb_assoc.
Qed.

End JsStringFacts.

(** ** The cookie-header parser *)

Module CookieHeaderFacts.
Import JsString JsStringFacts CookieHeader.

Example authToken_among_others :
  authToken "theme=dark; auth-token=abc.def.ghi; lang=en" = Some "abc.def.ghi".
Proof. reflexivity. Qed.

Example authToken_last_wins : authToken "auth-token=old; auth-token=new" = Some "new".
Proof. reflexivity. Qed.

Example authToken_absent : authToken "theme=dark; lang=en" = None.
Proof. reflexivity. Qed.

Example authToken_proto_ignored : authToken "__proto__=x; auth-token=abc" = Some "abc".
Proof. reflexivity. Qed.

Lemma all_chars_occurs P sep s :
  all_chars P s = true -> P sep = false -> occurs sep s = false.
Proof.
  intros Hall Hsep. induction s as [|c s IH]; simpl in *; [reflexivity|].
  apply andb_true_iff in Hall as [Hc Hs]. rewrite (IH Hs), orb_false_r.
  destruct (Ascii.eqb c sep) eqn:E; [|reflexivity].
  apply Ascii.eqb_eq in E. congruence.
Qed.

Lemma all_chars_app P s t :
  all_chars P (s ++ t) = all_chars P s && all_chars P t.
Proof.
  induction s as [|c s IH]; simpl; [reflexivity|].
  now rewrite IH, andb_assoc.
Qed.

Lemma trimEnd_id s :
  all_chars (fun c => negb (is_whitespace c)) s = true -> trimEnd s = s.
Proof.
  induction s as [|c s IH]; simpl; [reflexivity|].
  intros H. apply andb_true_iff in H as [Hc Hs]. rewrite (IH Hs).
  apply negb_true_iff in Hc. rewrite Hc. now destruct s.
Qed.

Lemma trim_id s :
  all_chars (fun c => negb (is_whitespace c)) s = true -> trim s = s.
Proof.
  intros H. unfold trim.
  assert (trimStart s = s) as ->; [|now apply trimEnd_id].
  destruct s as [|c s]; simpl in *; [reflexivity|].
  apply andb_true_iff in H as [Hc _]. apply negb_true_iff in Hc. now rewrite Hc.
Qed.

(** One step of the reduction can only bring a string under
    ["auth-token"] from a piece that reads [auth-token=...], and the
    string it brings holds no [=]. *)
Lemma reducer_authToken (acc : Cookies) cookie t :
  reducer acc cookie !! "auth-token" = Some (Some t) ->
  acc !! "auth-token" = Some (Some t) \/
  (String.prefix "auth-token=" (trim cookie) = true /\ occurs "=" t = false).
Proof.
  unfold reducer, destructure2.
  pose proof (split_pieces_free "=" (trim cookie)) as Hfree.
  destruct (split "=" (trim cookie)) as [|key rest] eqn:Hsplit.
  { now apply split_not_nil in Hsplit. }
  simpl. unfold assign.
  destruct (String.eqb key "__proto__"); [now left|].
  destruct (decide (key = "auth-token")) as [->|Hne].
  - rewrite lookup_insert_eq. intros [= Hv]. right.
    destruct rest as [|v rest]; simpl in Hv; [discriminate|].
    injection Hv as ->. split.
    + exact (split_second _ _ _ _ _ Hsplit).
    + inversion Hfree as [|? ? _ Hrest]; subst.
      now inversion Hrest.
  - rewrite lookup_insert_ne by exact Hne. now left.
Qed.

Lemma fold_reducer_authToken pieces (acc : Cookies) t :
  fold_left reducer pieces acc !! "auth-token" = Some (Some t) ->
  acc !! "auth-token" = Some (Some t) \/
  (existsb (fun piece => String.prefix "auth-token=" (trim piece)) pieces = true
   /\ occurs "=" t = false).
Proof.
  revert acc. induction pieces as [|p ps IH]; simpl; intros acc H; [now left|].
  destruct (IH _ H) as [Hacc | [Hex Hocc]].
  - destruct (reducer_authToken _ _ _ Hacc) as [? | [Hp Hocc]]; [now left|].
    right. now rewrite Hp.
  - right. now rewrite Hex, orb_true_r.
Qed.

(** What the parser hands out under ["auth-token"] comes from a pair
    of that name and never holds [=]. *)
Lemma authToken_inv cookieHeader t :
  authToken cookieHeader = Some t ->
  has_pair "auth-token" cookieHeader = true /\ occurs "=" t = false.
Proof.
  unfold authToken, get, parseCookies, has_pair. intros H.
  destruct (fold_left reducer (split ";" cookieHeader) ∅ !! "auth-token")
    as [v|] eqn:Hl; [|discriminate].
  subst v.
  destruct (fold_reducer_authToken _ _ _ Hl) as [Hempty | Hres]; [|exact Hres].
  now rewrite lookup_empty in Hempty.
Qed.

(** A header that is the single pair [auth-token=t], [t] made of token
    characters, yields [t]. *)
Lemma authToken_single t :
  all_chars is_token_char t = true ->
  authToken ("auth-token=" ++ t) = Some t.
Proof.
  intros Ht.
  assert (Hws : all_chars (fun c => negb (is_whitespace c)) t = true).
  { clear -Ht. induction t as [|c t IH]; simpl in *; [reflexivity|].
    apply andb_true_iff in Ht as [Hc Ht]. rewrite (IH Ht), andb_true_r.
    unfold is_token_char in Hc. now destruct (is_whitespace c). }
  assert (Hsemi : occurs ";" t = false) by (now apply (all_chars_occurs _ _ _ Ht)).
  assert (Heq : occurs "=" t = false) by (now apply (all_chars_occurs _ _ _ Ht)).
  unfold authToken, parseCookies.
  rewrite split_free by (simpl; exact Hsemi).
  simpl fold_left. unfold reducer.
  rewrite trim_id by (simpl; exact Hws).
  change ("auth-token=" ++ t) with ("auth-token" ++ String "=" t).
  rewrite split_app by reflexivity.
  rewrite (split_free _ _ Heq). simpl. unfold assign, get. simpl.
  now rewrite lookup_insert_eq.
Qed.

End CookieHeaderFacts.

(** C3.  The parser cuts a piece at every [=] and keeps the first two
    parts: from the header [auth-token=a=b] it extracts [a], not the
    remainder [a=b] after the first [=], and no value it extracts ever
    holds an [=].  A piece without [=] is not skipped either: it stores
    [undefined] under its name, over an earlier value of that name. *)
Theorem C3_value_cut_at_second_equals :
  CookieHeader.authToken "auth-token=a=b" = Some "a"
  /\ CookieHeader.authToken "auth-token=a=b" <> Some "a=b"
  /\ (forall cookieHeader t,
        CookieHeader.authToken cookieHeader = Some t ->
        JsString.occurs "=" t = false)
  /\ CookieHeader.authToken "auth-token=abc; auth-token" = None.
Proof.
  split; [reflexivity|]. split; [discriminate|]. split; [|reflexivity].
  intros h t H. exact (proj2 (CookieHeaderFacts.authToken_inv h t H)).
Qed.

(** ** Session tokens *)

Module JwtFacts.
Import JsString JsStringFacts CookieHeader CookieHeaderFacts Jwt.

Section Codec.
Variable TextEncoder_encode : string -> list Byte.byte.
Variable hmac : string -> list Byte.byte -> string -> string.
Variable encodeSigningInput : string -> JWTPayload -> string.
Variable decode : string -> option Decoded.
Variable env : ProcessEnv.

Lemma authToken_empty : authToken "" = None.
Proof. reflexivity. Qed.

Lemma getToken_eq request now_ms :
  getToken TextEncoder_encode hmac decode env request now_ms =
  match located request with
  | None => Return None
  | Some token =>
      settle (fun p => p)
        (jose_jwtVerify hmac decode token (TextEncoder_encode (JWT_SECRET env)) now_ms)
  end.
Proof.
  unfold getToken, located.
  destruct (headers_get request "cookie") as [h|]; simpl; [|reflexivity].
  destruct (String.eqb_spec h "") as [->|Hh]; simpl; [reflexivity|].
  fold (authToken h).
  destruct (authToken h) as [t|]; simpl; [|reflexivity].
  destruct (String.eqb t ""); simpl; [reflexivity|].
  now destruct (jose_jwtVerify _ _ _ _ _).
Qed.

Lemma getUserIdFromToken_eq request now_ms :
  getUserIdFromToken TextEncoder_encode hmac decode env request now_ms =
  match located request with
  | None => Return None
  | Some token =>
      settle (fun p => userId (claims p))
        (jose_jwtVerify hmac decode token (TextEncoder_encode (JWT_SECRET env)) now_ms)
  end.
Proof.
  unfold getUserIdFromToken, located.
  destruct (headers_get request "cookie") as [h|]; simpl; [|reflexivity].
  destruct (String.eqb_spec h "") as [->|Hh]; simpl; [reflexivity|].
  fold (authToken h).
  destruct (authToken h) as [t|]; simpl; [|reflexivity].
  destruct (String.eqb t ""); simpl; [reflexivity|].
  now destruct (jose_jwtVerify _ _ _ _ _).
Qed.

Lemma getUserIdFromTokenSync_eq request now_ms :
  getUserIdFromTokenSync TextEncoder_encode hmac decode env request now_ms =
  match located request with
  | None => Return None
  | Some token =>
      settle (fun p => userId (claims p))
        (jsonwebtoken_verify TextEncoder_encode hmac decode token (JWT_SECRET env) now_ms)
  end.
Proof.
  unfold getUserIdFromTokenSync, located.
  destruct (headers_get request "cookie") as [h|]; simpl; [|reflexivity].
  destruct (String.eqb_spec h "") as [->|Hh]; simpl; [reflexivity|].
  fold (authToken h).
  destruct (authToken h) as [t|]; simpl; [|reflexivity].
  destruct (String.eqb t ""); simpl; [reflexivity|].
  now destruct (jsonwebtoken_verify _ _ _ _ _ _).
Qed.

(** The two verifiers accept a token together and reject it
    together; accepted, they return the same payload. *)
Lemma verifiers_agree token secret now_ms :
  settle (fun p => p)
    (jose_jwtVerify hmac decode token (TextEncoder_encode secret) now_ms) =
  settle (fun p => p)
    (jsonwebtoken_verify TextEncoder_encode hmac decode token secret now_ms).
Proof.
  unfold jose_jwtVerify, jsonwebtoken_verify.
  destruct (decode token) as [d|]; [|reflexivity].
  destruct (negb (symmetric_alg (alg d))); [reflexivity|].
  destruct (negb (String.eqb _ _)); [reflexivity|].
  destruct (exp (payload d)) as [e|]; [|reflexivity].
  destruct (Z.leb_spec e (epoch now_ms)), (Z.geb_spec (epoch now_ms) e);
    try reflexivity; lia.
Qed.

(** A token that does not decode is rejected by both. *)
Lemma reject_malformed token secret key now_ms :
  decode token = None ->
  settle (fun p => p) (jose_jwtVerify hmac decode token key now_ms) = Return None
  /\ settle (fun p => p)
       (jsonwebtoken_verify TextEncoder_encode hmac decode token secret now_ms)
     = Return None.
Proof.
  intros H. unfold jose_jwtVerify, jsonwebtoken_verify. now rewrite H.
Qed.

(** A token past its expiry is rejected by both. *)
Lemma reject_expired token d e secret key now_ms :
  decode token = Some d -> exp (payload d) = Some e -> e <= epoch now_ms ->
  settle (fun p => p) (jose_jwtVerify hmac decode token key now_ms) = Return None
  /\ settle (fun p => p)
       (jsonwebtoken_verify TextEncoder_encode hmac decode token secret now_ms)
     = Return None.
Proof.
  intros Hd He Hle. unfold jose_jwtVerify, jsonwebtoken_verify. rewrite Hd, He.
  destruct (negb (symmetric_alg (alg d))); [now split|].
  split.
  - destruct (negb (String.eqb _ _)); [reflexivity|].
    destruct (Z.leb_spec e (epoch now_ms)); [reflexivity | lia].
  - destruct (negb (String.eqb _ _)); [reflexivity|].
    destruct (Z.geb_spec (epoch now_ms) e); [reflexivity | lia].
Qed.

Lemma settle_None {A B} (f : A -> B) v :
  settle (fun p => p) v = Return None -> settle f v = Return None.
Proof. now destruct v. Qed.

(** Where the extractors stop before verifying. *)
Lemma located_no_header request :
  headers_get request "cookie" = None -> located request = None.
Proof. intros H. unfold located. now rewrite H. Qed.

Lemma located_no_pair request h :
  headers_get request "cookie" = Some h -> has_pair "auth-token" h = false ->
  located request = None.
Proof.
  intros H Hpair. unfold located. rewrite H.
  destruct (authToken h) as [t|] eqn:Ht; [|reflexivity].
  apply authToken_inv in Ht as [Ht _]. congruence.
Qed.

Lemma located_parsed request h t :
  headers_get request "cookie" = Some h -> authToken h = Some t ->
  located request = if String.eqb t "" then None else Some t.
Proof. intros H Ht. unfold located. now rewrite H, Ht. Qed.

(** The three extractors on a request whose token both verifiers
    reject, or that has none. *)
Lemma no_identity_of_located request now_ms :
  match located request with
  | None => True
  | Some token =>
      settle (fun p => p)
        (jose_jwtVerify hmac decode token (TextEncoder_encode (JWT_SECRET env)) now_ms)
      = Return None
      /\ settle (fun p => p)
           (jsonwebtoken_verify TextEncoder_encode hmac decode token (JWT_SECRET env) now_ms)
         = Return None
  end ->
  no_identity TextEncoder_encode hmac decode env request now_ms.
Proof.
  unfold no_identity.
  rewrite getUserIdFromToken_eq, getUserIdFromTokenSync_eq, getToken_eq.
  destruct (located request) as [t|]; [|now repeat split].
  intros [Hjose Hjwt]. repeat split; try exact Hjose; now apply settle_None.
Qed.

(** The value the parser reads from [auth-token=t=junk] is [t]. *)
Lemma authToken_cut t junk :
  all_chars is_token_char t = true -> all_chars is_token_char junk = true ->
  authToken ("auth-token=" ++ t ++ "=" ++ junk) = Some t.
Proof.
  intros Ht Hj.
  assert (Hweak : forall s, all_chars is_token_char s = true ->
            all_chars (fun c => negb (is_whitespace c)) s = true
            /\ occurs ";" s = false /\ occurs "=" s = false).
  { clear. induction s as [|c s IH]; simpl; [now repeat split|].
    intros H. apply andb_true_iff in H as [Hc Hs].
    destruct (IH Hs) as (I1 & I2 & I3). rewrite I1, I2, I3.
    unfold is_token_char in Hc.
    apply andb_true_iff in Hc as [Hc H3]. apply andb_true_iff in Hc as [H1 H2].
    rewrite H1. apply negb_true_iff in H2, H3. rewrite H2, H3. now repeat split. }
  destruct (Hweak t Ht) as (Tw & Ts & Te). destruct (Hweak junk Hj) as (Jw & Js & Je).
  set (whole := "auth-token=" ++ t ++ "=" ++ junk).
  assert (Hsemi : occurs ";" whole = false).
  { unfold whole. rewrite !occurs_app, Ts, Js. reflexivity. }
  assert (Hws : all_chars (fun c => negb (is_whitespace c)) whole = true).
  { unfold whole. rewrite !all_chars_app, Tw, Jw. reflexivity. }
  unfold authToken, parseCookies. rewrite (split_free _ _ Hsemi). cbn [fold_left].
  unfold reducer. rewrite (trim_id _ Hws). unfold whole.
  change ("auth-token=" ++ t ++ "=" ++ junk)
    with ("auth-token" ++ String "=" (t ++ String "=" junk)).
  rewrite split_app by reflexivity. rewrite (split_app _ _ _ Te).
  unfold destructure2. cbn [nth_error]. unfold assign. cbn [String.eqb Ascii.eqb Bool.eqb].
  unfold get. now rewrite lookup_insert_eq.
Qed.

(** *** The token [createToken] issues *)

Lemma headers_get_cookie h :
  headers_get (request_with_cookie h) "cookie" = Some h.
Proof. unfold headers_get, request_with_cookie. simpl. apply lookup_singleton_eq. Qed.

Lemma createToken_not_empty user issued_ms :
  String.eqb (createToken TextEncoder_encode hmac encodeSigningInput env user issued_ms)
             "" = false.
Proof.
  unfold createToken, jsonwebtoken_sign.
  destruct (encodeSigningInput _ _); reflexivity.
Qed.

Lemma located_issued user issued_ms :
  all_chars is_token_char
    (createToken TextEncoder_encode hmac encodeSigningInput env user issued_ms) = true ->
  located (request_with_cookie
             ("auth-token=" ++
              createToken TextEncoder_encode hmac encodeSigningInput env user issued_ms))
  = Some (createToken TextEncoder_encode hmac encodeSigningInput env user issued_ms).
Proof.
  intros Hsafe. unfold located.
  rewrite headers_get_cookie, (authToken_single _ Hsafe), createToken_not_empty.
  reflexivity.
Qed.

(** Both verifiers on the issued token: the expiry decides. *)
Lemma jose_issued user issued_ms now_ms :
  decode (createToken TextEncoder_encode hmac encodeSigningInput env user issued_ms)
  = Some (issued_parts TextEncoder_encode hmac encodeSigningInput env user issued_ms) ->
  jose_jwtVerify hmac decode
    (createToken TextEncoder_encode hmac encodeSigningInput env user issued_ms)
    (TextEncoder_encode (JWT_SECRET env)) now_ms
  = if epoch issued_ms + expiresIn_24h <=? epoch now_ms then Throw JWTExpired
    else Return (issued_payload user issued_ms).
Proof.
  intros Hd. unfold jose_jwtVerify. rewrite Hd. simpl.
  now rewrite String.eqb_refl.
Qed.

Lemma jsonwebtoken_issued user issued_ms now_ms :
  decode (createToken TextEncoder_encode hmac encodeSigningInput env user issued_ms)
  = Some (issued_parts TextEncoder_encode hmac encodeSigningInput env user issued_ms) ->
  jsonwebtoken_verify TextEncoder_encode hmac decode
    (createToken TextEncoder_encode hmac encodeSigningInput env user issued_ms)
    (JWT_SECRET env) now_ms
  = if epoch now_ms >=? epoch issued_ms + expiresIn_24h then Throw TokenExpiredError
    else Return (issued_payload user issued_ms).
Proof.
  intros Hd. unfold jsonwebtoken_verify. rewrite Hd. simpl.
  now rewrite String.eqb_refl.
Qed.

Lemma epoch_shift now_ms seconds : epoch (now_ms + seconds * 1000) = epoch now_ms + seconds.
Proof. unfold epoch. apply Z.div_add. lia. Qed.

(** The characters of a token pass through the cookie parser. *)
Lemma segment_token_char c : is_segment_char c = true -> is_token_char c = true.
Proof.
  destruct c as [[] [] [] [] [] [] [] []]; vm_compute; intros H;
    first [reflexivity | discriminate H].
Qed.

Lemma base64url_segment_char c : is_base64url_char c = true -> is_segment_char c = true.
Proof. intros H. unfold is_segment_char. now rewrite H. Qed.

Lemma all_chars_impl (P Q : ascii -> bool) s :
  (forall c, P c = true -> Q c = true) -> all_chars P s = true -> all_chars Q s = true.
Proof.
  intros HPQ. induction s as [|c s IH]; simpl; [reflexivity|].
  intros H. apply andb_true_iff in H as [Hc Hs]. now rewrite (HPQ c Hc), (IH Hs).
Qed.

(** Under a compact codec the token [createToken] issues takes apart
    into the parts it was made of, and is made of token characters. *)
Lemma decode_issued user issued_ms :
  compact_codec hmac encodeSigningInput decode ->
  decode (createToken TextEncoder_encode hmac encodeSigningInput env user issued_ms)
  = Some (issued_parts TextEncoder_encode hmac encodeSigningInput env user issued_ms).
Proof.
  intros (Hdec & _ & Hmac). unfold createToken, jsonwebtoken_sign, issued_parts.
  cbv zeta. now rewrite Hdec by apply Hmac.
Qed.

Lemma issued_token_chars user issued_ms :
  compact_codec hmac encodeSigningInput decode ->
  all_chars is_token_char
    (createToken TextEncoder_encode hmac encodeSigningInput env user issued_ms) = true.
Proof.
  intros (_ & Hinput & Hmac). unfold createToken, jsonwebtoken_sign. cbv zeta.
  apply (all_chars_impl is_segment_char); [apply segment_token_char|].
  rewrite !all_chars_app, Hinput. cbn [all_chars andb].
  change (is_segment_char ".") with true. cbn [andb].
  apply (all_chars_impl is_base64url_char); [apply base64url_segment_char | apply Hmac].
Qed.

Lemma epoch_mono a b : a <= b -> epoch a <= epoch b.
Proof. intros H. unfold epoch. apply Z.div_le_mono; lia. Qed.

(** Before the expiry the issued token is accepted. *)
Lemma issued_accepted user issued_ms now_ms :
  decode (createToken TextEncoder_encode hmac encodeSigningInput env user issued_ms)
  = Some (issued_parts TextEncoder_encode hmac encodeSigningInput env user issued_ms) ->
  all_chars is_token_char
    (createToken TextEncoder_encode hmac encodeSigningInput env user issued_ms) = true ->
  epoch now_ms < epoch issued_ms + expiresIn_24h ->
  accepted TextEncoder_encode hmac decode env
    (createToken TextEncoder_encode hmac encodeSigningInput env user issued_ms)
    (issued_payload user issued_ms) now_ms.
Proof.
  intros Hd Hsafe Hlt. unfold accepted.
  rewrite getToken_eq, getUserIdFromToken_eq, getUserIdFromTokenSync_eq.
  rewrite (located_issued _ _ Hsafe).
  rewrite (jose_issued _ _ _ Hd), (jsonwebtoken_issued _ _ _ Hd).
  destruct (Z.leb_spec (epoch issued_ms + expiresIn_24h) (epoch now_ms)); [lia|].
  destruct (Z.geb_spec (epoch now_ms) (epoch issued_ms + expiresIn_24h)); [lia|].
  repeat split.
Qed.

(** From the expiry on it is refused. *)
Lemma issued_refused user issued_ms now_ms :
  decode (createToken TextEncoder_encode hmac encodeSigningInput env user issued_ms)
  = Some (issued_parts TextEncoder_encode hmac encodeSigningInput env user issued_ms) ->
  all_chars is_token_char
    (createToken TextEncoder_encode hmac encodeSigningInput env user issued_ms) = true ->
  epoch issued_ms + expiresIn_24h <= epoch now_ms ->
  refused_expired TextEncoder_encode hmac decode env
    (createToken TextEncoder_encode hmac encodeSigningInput env user issued_ms) now_ms.
Proof.
  intros Hd Hsafe Hle. unfold refused_expired.
  rewrite getToken_eq, getUserIdFromToken_eq, getUserIdFromTokenSync_eq.
  rewrite (located_issued _ _ Hsafe).
  rewrite (jose_issued _ _ _ Hd), (jsonwebtoken_issued _ _ _ Hd).
  destruct (Z.leb_spec (epoch issued_ms + expiresIn_24h) (epoch now_ms)); [|lia].
  destruct (Z.geb_spec (epoch now_ms) (epoch issued_ms + expiresIn_24h)); [|lia].
  repeat split.
Qed.

End Codec.
End JwtFacts.

(** ** The concrete codec is a compact codec *)

Module ToyFacts.
Import JsString Toy.

Lemma unbit_bit b : unbit (bit b) = Some b.
Proof. now destruct b. Qed.

Lemma read_write_string s rest : read_string (write_string s rest) = Some (s, rest).
Proof.
  induction s as [|[b0 b1 b2 b3 b4 b5 b6 b7] s IH]; [reflexivity|].
  cbn [write_string read_string]. cbn [Ascii.eqb Bool.eqb].
  now rewrite !unbit_bit, IH.
Qed.

Lemma read_write_positive q rest : read_positive (write_positive q rest) = Some (q, rest).
Proof.
  induction q as [q IH|q IH|]; cbn [write_positive read_positive];
    cbn [Ascii.eqb Bool.eqb]; [now rewrite IH | now rewrite IH | reflexivity].
Qed.

Lemma read_write_Z n rest : read_Z (write_Z n rest) = Some (n, rest).
Proof.
  destruct n as [|q|q]; cbn [write_Z read_Z]; cbn [Ascii.eqb Bool.eqb];
    [reflexivity | now rewrite read_write_positive | now rewrite read_write_positive].
Qed.

Lemma read_write_option {A} (write : A -> string -> string) read v rest :
  (forall a r, read (write a r) = Some (a, r)) ->
  read_option read (write_option write v rest) = Some (v, rest).
Proof.
  intros H. destruct v as [a|]; cbn [write_option read_option]; cbn [Ascii.eqb Bool.eqb];
    [now rewrite H | reflexivity].
Qed.

Lemma read_write_payload body rest : read_payload (write_payload body rest) = Some (body, rest).
Proof.
  unfold read_payload, write_payload.
  rewrite !read_write_string.
  rewrite (read_write_option write_string read_string) by apply read_write_string.
  rewrite !(read_write_option write_Z read_Z) by apply read_write_Z.
  now destruct body as [[u e n] i x].
Qed.

Lemma write_string_app s r1 r2 : write_string s r1 ++ r2 = write_string s (r1 ++ r2).
Proof.
  induction s as [|[b0 b1 b2 b3 b4 b5 b6 b7] s IH]; [reflexivity|].
  cbn [write_string]. rewrite <- IH. reflexivity.
Qed.

Lemma write_positive_app q r1 r2 : write_positive q r1 ++ r2 = write_positive q (r1 ++ r2).
Proof.
  induction q as [q IH|q IH|]; cbn [write_positive]; [| |reflexivity];
    rewrite <- IH; reflexivity.
Qed.

Lemma write_Z_app n r1 r2 : write_Z n r1 ++ r2 = write_Z n (r1 ++ r2).
Proof.
  destruct n as [|q|q]; cbn [write_Z]; [reflexivity| |];
    rewrite <- write_positive_app; reflexivity.
Qed.

Lemma write_option_app {A} (write : A -> string -> string) v r1 r2 :
  (forall a r r', write a r ++ r' = write a (r ++ r')) ->
  write_option write v r1 ++ r2 = write_option write v (r1 ++ r2).
Proof.
  intros H. destruct v as [a|]; cbn [write_option]; [|reflexivity].
  rewrite <- H. reflexivity.
Qed.

Lemma encode_before_app a body rest :
  encodeSigningInput a body ++ rest = encode_before a body rest.
Proof.
  unfold encodeSigningInput, encode_before, write_payload.
  rewrite write_string_app.
  change (String "." ?x ++ rest) with (String "." (x ++ rest)).
  rewrite !write_string_app.
  rewrite (write_option_app write_string) by apply write_string_app.
  rewrite !(write_option_app write_Z) by apply write_Z_app.
  reflexivity.
Qed.

Section Alphabet.
Variable P : ascii -> bool.
Hypothesis letters : forallb P ["0"; "1"; "c"; "e"; "z"; "p"; "n"; "N"; "S"]%char = true.

Lemma letter c : In c ["0"; "1"; "c"; "e"; "z"; "p"; "n"; "N"; "S"]%char -> P c = true.
Proof. intros H. now apply (proj1 (forallb_forall _ _) letters). Qed.

Lemma P_bit b : P (bit b) = true.
Proof. destruct b; apply letter; simpl; tauto. Qed.

Lemma all_chars_write_string s rest :
  all_chars P (write_string s rest) = all_chars P rest.
Proof.
  induction s as [|[b0 b1 b2 b3 b4 b5 b6 b7] s IH]; cbn [write_string all_chars].
  - rewrite letter by (simpl; tauto). reflexivity.
  - rewrite !P_bit, IH, letter by (simpl; tauto). reflexivity.
Qed.

Lemma all_chars_write_positive q rest :
  all_chars P (write_positive q rest) = all_chars P rest.
Proof.
  induction q as [q IH|q IH|]; cbn [write_positive all_chars];
    rewrite ?IH, letter by (simpl; tauto); reflexivity.
Qed.

Lemma all_chars_write_Z n rest : all_chars P (write_Z n rest) = all_chars P rest.
Proof.
  destruct n as [|q|q]; cbn [write_Z all_chars];
    rewrite ?all_chars_write_positive, letter by (simpl; tauto); reflexivity.
Qed.

Lemma all_chars_write_option {A} (write : A -> string -> string) v rest :
  (forall a r, all_chars P (write a r) = all_chars P r) ->
  all_chars P (write_option write v rest) = all_chars P rest.
Proof.
  intros H. destruct v as [a|]; cbn [write_option all_chars];
    rewrite ?H, letter by (simpl; tauto); reflexivity.
Qed.

Lemma all_chars_write_payload body rest :
  all_chars P (write_payload body rest) = all_chars P rest.
Proof.
  unfold write_payload. rewrite !all_chars_write_string.
  rewrite (all_chars_write_option write_string) by apply all_chars_write_string.
  now rewrite !(all_chars_write_option write_Z) by apply all_chars_write_Z.
Qed.

End Alphabet.

(** The codec of this instance is a compact codec. *)
Lemma toy_compact_codec : Jwt.compact_codec hmac encodeSigningInput decode.
Proof.
  split; [|split].
  - intros a body sig Hsig. rewrite encode_before_app.
    change ("." ++ sig) with (String "." sig).
    unfold decode, encode_before. rewrite read_write_string.
    cbn [Ascii.eqb Bool.eqb]. rewrite read_write_payload.
    cbn [Ascii.eqb Bool.eqb]. rewrite Hsig. reflexivity.
  - intros a body. unfold encodeSigningInput, encode_before.
    rewrite all_chars_write_string by reflexivity. cbn [all_chars].
    rewrite all_chars_write_payload by reflexivity. reflexivity.
  - intros a key input. unfold hmac.
    now rewrite !all_chars_write_string by reflexivity.
Qed.

End ToyFacts.

(** C2.  The three extractors never throw, and each of them returns
    [null] when the request has no cookie header, when the header has no
    [auth-token] pair, and when the value their parser reads for
    [auth-token] is not a well-formed token or is a well-formed token
    past its expiry.  That value is not always the cookie's: from
    [auth-token=t=junk] the parser reads [t], so the extractors answer
    such a header as they answer [auth-token=t].  With the token issued
    to a user for [t], the cookie's value [t=junk] is not a well-formed
    token, and all three return the user. *)
Theorem C2_null_on_the_value_the_parser_reads :
  forall TextEncoder_encode hmac decode env request now_ms,
    ((exists r, Jwt.getUserIdFromToken TextEncoder_encode hmac decode env request now_ms
                = Return r)
     /\ (exists r, Jwt.getUserIdFromTokenSync TextEncoder_encode hmac decode env request now_ms
                   = Return r)
     /\ (exists r, Jwt.getToken TextEncoder_encode hmac decode env request now_ms
                   = Return r))
    /\ (headers_get request "cookie" = None ->
        Jwt.no_identity TextEncoder_encode hmac decode env request now_ms)
    /\ (forall cookieHeader,
          headers_get request "cookie" = Some cookieHeader ->
          CookieHeader.has_pair "auth-token" cookieHeader = false ->
          Jwt.no_identity TextEncoder_encode hmac decode env request now_ms)
    /\ (forall cookieHeader token,
          headers_get request "cookie" = Some cookieHeader ->
          CookieHeader.authToken cookieHeader = Some token ->
          decode token = None ->
          Jwt.no_identity TextEncoder_encode hmac decode env request now_ms)
    /\ (forall cookieHeader token parts expiry,
          headers_get request "cookie" = Some cookieHeader ->
          CookieHeader.authToken cookieHeader = Some token ->
          decode token = Some parts ->
          Jwt.exp (Jwt.payload parts) = Some expiry ->
          expiry <= Jwt.epoch now_ms ->
          Jwt.no_identity TextEncoder_encode hmac decode env request now_ms)
    /\ (forall token junk,
          JsString.all_chars CookieHeader.is_token_char token = true ->
          JsString.all_chars CookieHeader.is_token_char junk = true ->
          CookieHeader.authToken ("auth-token=" ++ token ++ "=" ++ junk) = Some token
          /\ Jwt.getUserIdFromToken TextEncoder_encode hmac decode env
               (Jwt.request_with_cookie ("auth-token=" ++ token ++ "=" ++ junk)) now_ms
             = Jwt.getUserIdFromToken TextEncoder_encode hmac decode env
                 (Jwt.request_with_cookie ("auth-token=" ++ token)) now_ms
          /\ Jwt.getUserIdFromTokenSync TextEncoder_encode hmac decode env
               (Jwt.request_with_cookie ("auth-token=" ++ token ++ "=" ++ junk)) now_ms
             = Jwt.getUserIdFromTokenSync TextEncoder_encode hmac decode env
                 (Jwt.request_with_cookie ("auth-token=" ++ token)) now_ms
          /\ Jwt.getToken TextEncoder_encode hmac decode env
               (Jwt.request_with_cookie ("auth-token=" ++ token ++ "=" ++ junk)) now_ms
             = Jwt.getToken TextEncoder_encode hmac decode env
                 (Jwt.request_with_cookie ("auth-token=" ++ token)) now_ms)
    /\ (Toy.decode
          (Jwt.createToken Toy.TextEncoder_encode Toy.hmac Toy.encodeSigningInput Toy.env
             Sample.alice 0 ++ "=junk") = None
        /\ Jwt.getUserIdFromToken Toy.TextEncoder_encode Toy.hmac Toy.decode Toy.env
             (Jwt.request_with_cookie
                ("auth-token="
                 ++ Jwt.createToken Toy.TextEncoder_encode Toy.hmac Toy.encodeSigningInput
                      Toy.env Sample.alice 0 ++ "=junk")) 1000
           = Return (Some "u1")
        /\ Jwt.getUserIdFromTokenSync Toy.TextEncoder_encode Toy.hmac Toy.decode Toy.env
             (Jwt.request_with_cookie
                ("auth-token="
                 ++ Jwt.createToken Toy.TextEncoder_encode Toy.hmac Toy.encodeSigningInput
                      Toy.env Sample.alice 0 ++ "=junk")) 1000
           = Return (Some "u1")
        /\ Jwt.getToken Toy.TextEncoder_encode Toy.hmac Toy.decode Toy.env
             (Jwt.request_with_cookie
                ("auth-token="
                 ++ Jwt.createToken Toy.TextEncoder_encode Toy.hmac Toy.encodeSigningInput
                      Toy.env Sample.alice 0 ++ "=junk")) 1000
           = Return (Some (Jwt.issued_payload Sample.alice 0))).
Proof.
  intros TE hmac decode env request now_ms.
  split.
  { rewrite JwtFacts.getUserIdFromToken_eq, JwtFacts.getUserIdFromTokenSync_eq,
      JwtFacts.getToken_eq.
    destruct (Jwt.located request) as [t|]; [|repeat split; eauto].
    repeat split.
    - destruct (Jwt.jose_jwtVerify _ _ _ _ _); simpl; eauto.
    - destruct (Jwt.jsonwebtoken_verify _ _ _ _ _ _); simpl; eauto.
    - destruct (Jwt.jose_jwtVerify _ _ _ _ _); simpl; eauto. }
  split.
  { intros H. apply JwtFacts.no_identity_of_located.
    now rewrite (JwtFacts.located_no_header _ H). }
  split.
  { intros h H Hpair. apply JwtFacts.no_identity_of_located.
    now rewrite (JwtFacts.located_no_pair _ _ H Hpair). }
  split.
  { intros h token H Ht Hd. apply JwtFacts.no_identity_of_located.
    rewrite (JwtFacts.located_parsed _ _ _ H Ht).
    destruct (String.eqb token ""); [exact I|].
    now apply JwtFacts.reject_malformed. }
  split.
  { intros h token parts expiry H Ht Hd He Hle. apply JwtFacts.no_identity_of_located.
    rewrite (JwtFacts.located_parsed _ _ _ H Ht).
    destruct (String.eqb token ""); [exact I|].
    now apply (JwtFacts.reject_expired _ _ _ _ parts expiry). }
  split.
  { intros token junk Ht Hj.
    pose proof (JwtFacts.authToken_cut token junk Ht Hj) as Hcut.
    pose proof (CookieHeaderFacts.authToken_single token Ht) as Hone.
    split; [exact Hcut|].
    rewrite !JwtFacts.getUserIdFromToken_eq, !JwtFacts.getUserIdFromTokenSync_eq,
      !JwtFacts.getToken_eq.
    rewrite (JwtFacts.located_parsed _ _ _ (JwtFacts.headers_get_cookie _) Hcut).
    rewrite (JwtFacts.located_parsed _ _ _ (JwtFacts.headers_get_cookie _) Hone).
    now repeat split. }
  split; [vm_compute; reflexivity|].
  split; [vm_compute; reflexivity|].
  split; vm_compute; reflexivity.
Qed.

(** C1.  Round trip and expiry of the session token, in the whole
    seconds the token carries.  Under a compact codec, the token
    [createToken] issues for a user at clock [issued_ms], sent back in
    the [auth-token] cookie, is accepted -- by the jose-based [getToken]
    and by jsonwebtoken's [verify] alike -- with the claims of the user
    exactly while the clock, read in whole seconds, is before the
    issuance second plus 24 hours: at every instant up to issuance + 24 h
    - 1 s it is accepted, at every instant from issuance + 24 h on it is
    refused as expired, and so one second after. *)
Theorem C1_token_round_trip_until_expiry :
  forall TextEncoder_encode hmac encodeSigningInput decode env user issued_ms,
    Jwt.compact_codec hmac encodeSigningInput decode ->
    Jwt.claims (Jwt.issued_payload user issued_ms)
    = {| Jwt.userId := Jwt.id user; Jwt.email := Jwt.user_email user;
         Jwt.name := Jwt.user_name user |}
    /\ (forall now_ms,
          Jwt.epoch now_ms < Jwt.epoch issued_ms + 24 * 60 * 60 ->
          Jwt.accepted TextEncoder_encode hmac decode env
            (Jwt.createToken TextEncoder_encode hmac encodeSigningInput env user issued_ms)
            (Jwt.issued_payload user issued_ms) now_ms)
    /\ (forall now_ms,
          now_ms <= issued_ms + 24 * 60 * 60 * 1000 - 1000 ->
          Jwt.accepted TextEncoder_encode hmac decode env
            (Jwt.createToken TextEncoder_encode hmac encodeSigningInput env user issued_ms)
            (Jwt.issued_payload user issued_ms) now_ms)
    /\ Jwt.refused_expired TextEncoder_encode hmac decode env
         (Jwt.createToken TextEncoder_encode hmac encodeSigningInput env user issued_ms)
         (issued_ms + 24 * 60 * 60 * 1000 + 1000)
    /\ (forall now_ms,
          Jwt.epoch issued_ms + 24 * 60 * 60 <= Jwt.epoch now_ms ->
          Jwt.refused_expired TextEncoder_encode hmac decode env
            (Jwt.createToken TextEncoder_encode hmac encodeSigningInput env user issued_ms)
            now_ms)
    /\ (forall now_ms,
          issued_ms + 24 * 60 * 60 * 1000 <= now_ms ->
          Jwt.refused_expired TextEncoder_encode hmac decode env
            (Jwt.createToken TextEncoder_encode hmac encodeSigningInput env user issued_ms)
            now_ms).
Proof.
  intros TE hmac enc decode env user issued_ms Hcodec.
  pose proof (JwtFacts.decode_issued TE hmac enc decode env user issued_ms Hcodec) as Hd.
  pose proof (JwtFacts.issued_token_chars TE hmac enc decode env user issued_ms Hcodec)
    as Hsafe.
  assert (Hlate : forall now_ms, issued_ms + 24 * 60 * 60 * 1000 <= now_ms ->
                    Jwt.epoch issued_ms + Jwt.expiresIn_24h <= Jwt.epoch now_ms).
  { intros now_ms Hle. apply JwtFacts.epoch_mono in Hle.
    replace (issued_ms + 24 * 60 * 60 * 1000) with (issued_ms + 86400 * 1000) in Hle by lia.
    rewrite JwtFacts.epoch_shift in Hle. unfold Jwt.expiresIn_24h. lia. }
  split; [reflexivity|].
  split; [intros now_ms Hlt; now apply JwtFacts.issued_accepted|].
  split.
  { intros now_ms Hle. apply JwtFacts.issued_accepted; try assumption.
    apply JwtFacts.epoch_mono in Hle.
    replace (issued_ms + 24 * 60 * 60 * 1000 - 1000) with (issued_ms + 86399 * 1000)
      in Hle by lia.
    rewrite JwtFacts.epoch_shift in Hle. unfold Jwt.expiresIn_24h. lia. }
  split.
  { apply JwtFacts.issued_refused; try assumption. apply Hlate. lia. }
  split.
  { intros now_ms Hle. now apply JwtFacts.issued_refused. }
  intros now_ms Hle. apply JwtFacts.issued_refused; try assumption. now apply Hlate.
Qed.

Lemma C1_token_round_trip_witness :
  Jwt.accepted Toy.TextEncoder_encode Toy.hmac Toy.decode Toy.env
    (Jwt.createToken Toy.TextEncoder_encode Toy.hmac Toy.encodeSigningInput Toy.env
       Sample.alice 1700000000999)
    (Jwt.issued_payload Sample.alice 1700000000999)
    (1700000000999 + 24 * 60 * 60 * 1000 - 1000)
  /\ Jwt.refused_expired Toy.TextEncoder_encode Toy.hmac Toy.decode Toy.env
       (Jwt.createToken Toy.TextEncoder_encode Toy.hmac Toy.encodeSigningInput Toy.env
          Sample.alice 1700000000999)
       (1700000000999 + 24 * 60 * 60 * 1000 + 1000).
Proof.
  pose proof (C1_token_round_trip_until_expiry
                Toy.TextEncoder_encode Toy.hmac Toy.encodeSigningInput Toy.decode
                Toy.env Sample.alice 1700000000999 ToyFacts.toy_compact_codec)
    as (_ & _ & Hbefore & Hafter & _).
  split; [apply Hbefore; lia | exact Hafter].
Defined.

(** Read to the millisecond, validity until issuance + 24 h fails in
    the last second: a token issued at 999 ms carries the issuance
    second 0 and expires at second 86400, so at 86400000 ms, which is
    before 999 ms + 24 h, [getToken] answers [null] and jsonwebtoken's
    [verify] throws [TokenExpiredError]. *)
Lemma C1_last_second_counterexample :
  86400000 < 999 + 24 * 60 * 60 * 1000
  /\ Jwt.getToken Toy.TextEncoder_encode Toy.hmac Toy.decode Toy.env
       (Jwt.request_with_cookie
          ("auth-token="
           ++ Jwt.createToken Toy.TextEncoder_encode Toy.hmac Toy.encodeSigningInput
                Toy.env Sample.alice 999)) 86400000
     = Return None
  /\ Jwt.jsonwebtoken_verify Toy.TextEncoder_encode Toy.hmac Toy.decode
       (Jwt.createToken Toy.TextEncoder_encode Toy.hmac Toy.encodeSigningInput
          Toy.env Sample.alice 999)
       (JWT_SECRET Toy.env) 86400000
     = Throw TokenExpiredError
  /\ Jwt.getToken Toy.TextEncoder_encode Toy.hmac Toy.decode Toy.env
       (Jwt.request_with_cookie
          ("auth-token="
           ++ Jwt.createToken Toy.TextEncoder_encode Toy.hmac Toy.encodeSigningInput
                Toy.env Sample.alice 999)) 86399999
     = Return (Some (Jwt.issued_payload Sample.alice 999)).
Proof.
  split; [reflexivity|]. split; [vm_compute; reflexivity|].
  split; vm_compute; reflexivity.
Qed.

(** ** The edge gatekeeper *)

Module MiddlewareFacts.
Import JsString JsStringFacts Middleware.

Section Gatekeeper.
Variable TextEncoder_encode : string -> list Byte.byte.
Variable hmac : string -> list Byte.byte -> string -> string.
Variable decode : string -> option Jwt.Decoded.
Variable env : ProcessEnv.
Variable publicRoutes protectedRoutes : list string.

(** A path is public exactly when it is a public entry or continues
    one after a slash. *)
Lemma isPublicRoute_spec p :
  isPublicRoute publicRoutes p = true <->
  exists route, In route publicRoutes /\
                (p = route \/ exists rest, p = route ++ "/" ++ rest).
Proof.
  unfold isPublicRoute. rewrite existsb_exists. split.
  - intros (route & Hin & H). exists route. split; [exact Hin|].
    apply orb_true_iff in H as [H|H].
    + left. now apply String.eqb_eq in H.
    + right. apply prefix_inv in H as [rest ->]. exists rest.
      apply append_assoc.
  - intros (route & Hin & [-> | [rest ->]]); exists route; (split; [exact Hin|]).
    + unfold strictEq. now rewrite String.eqb_refl.
    + apply orb_true_iff. right. unfold startsWith.
      rewrite <- append_assoc. apply prefix_app.
Qed.

(** A path is protected exactly when it begins with a protected entry. *)
Lemma isProtectedRoute_spec p :
  isProtectedRoute protectedRoutes p = true <->
  exists route rest, In route protectedRoutes /\ p = route ++ rest.
Proof.
  unfold isProtectedRoute. rewrite existsb_exists. split.
  - intros (route & Hin & H). apply prefix_inv in H as [rest ->]. eauto.
  - intros (route & rest & Hin & ->). exists route. split; [exact Hin|].
    apply prefix_app.
Qed.

Lemma middleware_public request now_ms :
  isPublicRoute publicRoutes (pathname request) = true ->
  middleware_body TextEncoder_encode hmac decode env publicRoutes protectedRoutes
    request now_ms = Return NextResponse_next.
Proof. intros H. unfold middleware_body. now rewrite H. Qed.

Lemma middleware_unlisted request now_ms :
  isPublicRoute publicRoutes (pathname request) = false ->
  isProtectedRoute protectedRoutes (pathname request) = false ->
  middleware_body TextEncoder_encode hmac decode env publicRoutes protectedRoutes
    request now_ms = Return NextResponse_next.
Proof. intros H1 H2. unfold middleware_body. now rewrite H1, H2. Qed.

Lemma middleware_no_token request now_ms :
  isPublicRoute publicRoutes (pathname request) = false ->
  isProtectedRoute protectedRoutes (pathname request) = true ->
  truthy (cookies request !! "auth-token") = false ->
  middleware_body TextEncoder_encode hmac decode env publicRoutes protectedRoutes
    request now_ms
  = Return (NextResponse_redirect
              {| origin := request_origin request; url_pathname := "/login";
                 searchParams := [("redirect", pathname request)] |}).
Proof.
  intros H1 H2 H3. unfold middleware_body, cookies_get_value. now rewrite H1, H2, H3.
Qed.

Lemma middleware_rejected request now_ms token error :
  isPublicRoute publicRoutes (pathname request) = false ->
  isProtectedRoute protectedRoutes (pathname request) = true ->
  cookies request !! "auth-token" = Some token -> token <> "" ->
  Jwt.jose_jwtVerify hmac decode token (TextEncoder_encode (JWT_SECRET env)) now_ms
  = Throw error ->
  middleware_body TextEncoder_encode hmac decode env publicRoutes protectedRoutes
    request now_ms
  = Return {| action := Redirect {| origin := request_origin request;
                                    url_pathname := "/login"; searchParams := [] |};
              response_headers := ∅;
              deleted_cookies := ["auth-token"] |}.
Proof.
  intros H1 H2 H3 Hne H4. unfold middleware_body, cookies_get_value.
  rewrite H1, H2, H3. simpl.
  destruct (String.eqb_spec token ""); [contradiction|]. simpl.
  now rewrite H4.
Qed.

(** After a verification that succeeded, the two calls of
    [headers.set] decide: the request is let through with the values
    they store, or, when one of them throws, answered as a failed
    verification is. *)
Lemma middleware_verified request now_ms token payload :
  isPublicRoute publicRoutes (pathname request) = false ->
  isProtectedRoute protectedRoutes (pathname request) = true ->
  cookies request !! "auth-token" = Some token -> token <> "" ->
  Jwt.jose_jwtVerify hmac decode token (TextEncoder_encode (JWT_SECRET env)) now_ms
  = Return payload ->
  middleware_body TextEncoder_encode hmac decode env publicRoutes protectedRoutes
    request now_ms
  = match header_value (Jwt.userId (Jwt.claims payload)),
          header_value (Jwt.email (Jwt.claims payload)) with
    | Some user_id, Some user_email =>
        Return {| action := Next;
                  response_headers :=
                    <["x-user-email" := user_email]> (<["x-user-id" := user_id]> ∅);
                  deleted_cookies := [] |}
    | _, _ =>
        Return {| action := Redirect {| origin := request_origin request;
                                        url_pathname := "/login"; searchParams := [] |};
                  response_headers := ∅;
                  deleted_cookies := ["auth-token"] |}
    end.
Proof.
  intros H1 H2 H3 Hne H4. unfold middleware_body, cookies_get_value.
  rewrite H1, H2, H3. simpl.
  destruct (String.eqb_spec token ""); [contradiction|]. simpl.
  rewrite H4. unfold header_value, headers_set. cbv zeta.
  cbn [mbind Completion_bind bindC].
  destruct (is_header_value (normalize (Jwt.userId (Jwt.claims payload))));
    cbn [bindC]; [|reflexivity].
  destruct (is_header_value (normalize (Jwt.email (Jwt.claims payload))));
    reflexivity.
Qed.

Lemma middleware_verified_accepted request now_ms token payload user_id user_email :
  isPublicRoute publicRoutes (pathname request) = false ->
  isProtectedRoute protectedRoutes (pathname request) = true ->
  cookies request !! "auth-token" = Some token -> token <> "" ->
  Jwt.jose_jwtVerify hmac decode token (TextEncoder_encode (JWT_SECRET env)) now_ms
  = Return payload ->
  header_value (Jwt.userId (Jwt.claims payload)) = Some user_id ->
  header_value (Jwt.email (Jwt.claims payload)) = Some user_email ->
  middleware_body TextEncoder_encode hmac decode env publicRoutes protectedRoutes
    request now_ms
  = Return {| action := Next;
              response_headers :=
                <["x-user-email" := user_email]> (<["x-user-id" := user_id]> ∅);
              deleted_cookies := [] |}.
Proof.
  intros H1 H2 H3 Hne H4 Hid Hemail.
  now rewrite (middleware_verified _ _ _ _ H1 H2 H3 Hne H4), Hid, Hemail.
Qed.

Lemma middleware_verified_refused request now_ms token payload :
  isPublicRoute publicRoutes (pathname request) = false ->
  isProtectedRoute protectedRoutes (pathname request) = true ->
  cookies request !! "auth-token" = Some token -> token <> "" ->
  Jwt.jose_jwtVerify hmac decode token (TextEncoder_encode (JWT_SECRET env)) now_ms
  = Return payload ->
  header_value (Jwt.userId (Jwt.claims payload)) = None
  \/ header_value (Jwt.email (Jwt.claims payload)) = None ->
  middleware_body TextEncoder_encode hmac decode env publicRoutes protectedRoutes
    request now_ms
  = Return {| action := Redirect {| origin := request_origin request;
                                    url_pathname := "/login"; searchParams := [] |};
              response_headers := ∅;
              deleted_cookies := ["auth-token"] |}.
Proof.
  intros H1 H2 H3 Hne H4 Hbad.
  rewrite (middleware_verified _ _ _ _ H1 H2 H3 Hne H4).
  destruct Hbad as [-> | ->]; [reflexivity|].
  now destruct (header_value (Jwt.userId (Jwt.claims payload))).
Qed.

(** On a protected path that is not public, the request gets through
    exactly when it carries a token that verifies and whose identity
    values are header values. *)
Lemma protected_allowed_iff request now_ms :
  isPublicRoute publicRoutes (pathname request) = false ->
  isProtectedRoute protectedRoutes (pathname request) = true ->
  allowed (middleware_body TextEncoder_encode hmac decode env publicRoutes protectedRoutes
             request now_ms) = true <->
  exists token payload,
    cookies request !! "auth-token" = Some token /\ token <> "" /\
    Jwt.jose_jwtVerify hmac decode token (TextEncoder_encode (JWT_SECRET env)) now_ms
    = Return payload /\
    is_Some (header_value (Jwt.userId (Jwt.claims payload))) /\
    is_Some (header_value (Jwt.email (Jwt.claims payload))).
Proof.
  intros H1 H2. split.
  - destruct (cookies request !! "auth-token") as [token|] eqn:Hc.
    + destruct (String.eqb_spec token "") as [->|Hne].
      * rewrite middleware_no_token by (try assumption; now rewrite Hc). discriminate.
      * destruct (Jwt.jose_jwtVerify hmac decode token
                    (TextEncoder_encode (JWT_SECRET env)) now_ms) as [payload|e] eqn:Hv.
        -- rewrite (middleware_verified _ _ _ _ H1 H2 Hc Hne Hv).
           destruct (header_value (Jwt.userId (Jwt.claims payload))) as [a|] eqn:Ha;
             [|discriminate].
           destruct (header_value (Jwt.email (Jwt.claims payload))) as [b|] eqn:Hb;
             [|discriminate].
           intros _. exists token, payload. rewrite Ha, Hb. eauto 10.
        -- rewrite (middleware_rejected _ _ _ _ H1 H2 Hc Hne Hv). discriminate.
    + rewrite middleware_no_token by (try assumption; now rewrite Hc). discriminate.
  - intros (token & payload & Hc & Hne & Hv & [a Ha] & [b Hb]).
    now rewrite (middleware_verified_accepted _ _ _ _ _ _ H1 H2 Hc Hne Hv Ha Hb).
Qed.

(** A value without blanks around it and without NUL, LF or CR is
    stored as it is. *)
Lemma header_value_plain value :
  normalize value = value -> is_header_value value = true ->
  header_value value = Some value.
Proof. intros Hn Hv. unfold header_value. now rewrite Hn, Hv. Qed.

End Gatekeeper.

(** With the lists of [middleware.ts] no protected path is public. *)
Lemma protected_not_public p :
  isProtectedRoute protectedRoutes p = true -> isPublicRoute publicRoutes p = false.
Proof.
  intros H. apply isProtectedRoute_spec in H as (route & rest & Hin & ->).
  simpl in Hin.
  destruct Hin as [<- | [<- | [<- | [<- | [<- | []]]]]]; reflexivity.
Qed.

End MiddlewareFacts.




(** C5.  Public before protected.  A path is public exactly when it is
    a public entry or continues one after a slash; a public path is let
    through whatever the cookies, the clock and the protected list are,
    so a public entry wins over a protected prefix of the same path;
    and a path in neither list is let through as well.  Stated for the
    body of [middleware] over any two lists, and for [middleware] with
    its own. *)
Theorem C5_public_first_default_open :
  forall TextEncoder_encode hmac decode env publicList protectedList request now_ms,
    (Middleware.isPublicRoute publicList (Middleware.pathname request) = true <->
     exists route, In route publicList /\
       (Middleware.pathname request = route \/
        exists rest, Middleware.pathname request = route ++ "/" ++ rest))
    /\ (Middleware.isPublicRoute publicList (Middleware.pathname request) = true ->
        forall protectedList' env' request' now_ms',
          Middleware.pathname request' = Middleware.pathname request ->
          Middleware.middleware_body TextEncoder_encode hmac decode env'
            publicList protectedList' request' now_ms'
          = Return Middleware.NextResponse_next)
    /\ (Middleware.isPublicRoute publicList (Middleware.pathname request) = true ->
        Middleware.isProtectedRoute protectedList (Middleware.pathname request) = true ->
        Middleware.middleware_body TextEncoder_encode hmac decode env
          publicList protectedList request now_ms
        = Return Middleware.NextResponse_next)
    /\ (Middleware.isPublicRoute publicList (Middleware.pathname request) = false ->
        Middleware.isProtectedRoute protectedList (Middleware.pathname request) = false ->
        Middleware.middleware_body TextEncoder_encode hmac decode env
          publicList protectedList request now_ms
        = Return Middleware.NextResponse_next)
    /\ (Middleware.isPublicRoute Middleware.publicRoutes (Middleware.pathname request) = true ->
        Middleware.middleware TextEncoder_encode hmac decode env request now_ms
        = Return Middleware.NextResponse_next)
    /\ (Middleware.isPublicRoute Middleware.publicRoutes (Middleware.pathname request) = false ->
        Middleware.isProtectedRoute Middleware.protectedRoutes (Middleware.pathname request)
        = false ->
        Middleware.middleware TextEncoder_encode hmac decode env request now_ms
        = Return Middleware.NextResponse_next).
Proof.
  intros TE hmac decode env pub prot request now_ms.
  split; [apply MiddlewareFacts.isPublicRoute_spec|].
  split.
  { intros Hpub prot' env' request' now_ms' Hpath.
    apply MiddlewareFacts.middleware_public. now rewrite Hpath. }
  split.
  { intros Hpub _. now apply MiddlewareFacts.middleware_public. }
  split.
  { intros Hpub Hprot. now apply MiddlewareFacts.middleware_unlisted. }
  split.
  { intros Hpub. now apply MiddlewareFacts.middleware_public. }
  intros Hpub Hprot. now apply MiddlewareFacts.middleware_unlisted.
Qed.

Lemma C5_public_first_witness :
  Middleware.isProtectedRoute ["/dashboard"] "/dashboard/help/faq" = true
  /\ Middleware.middleware_body Sample.TextEncoder_encode Sample.hmac Sample.decode
       Sample.env ["/dashboard/help"] ["/dashboard"]
       (Sample.to_path "/dashboard/help/faq" None) 0
     = Return Middleware.NextResponse_next
  /\ Middleware.middleware Sample.TextEncoder_encode Sample.hmac Sample.decode Sample.env
       (Sample.to_path "/register/step-2" (Some "garbage")) 0
     = Return Middleware.NextResponse_next
  /\ Middleware.middleware Sample.TextEncoder_encode Sample.hmac Sample.decode Sample.env
       (Sample.to_path "/about" None) 0
     = Return Middleware.NextResponse_next.
Proof.
  split; [reflexivity|]. split; [|split].
  - apply (proj1 (proj2 (proj2
             (C5_public_first_default_open Sample.TextEncoder_encode Sample.hmac
                Sample.decode Sample.env ["/dashboard/help"] ["/dashboard"]
                (Sample.to_path "/dashboard/help/faq" None) 0))));
      reflexivity.
  - apply (proj1 (proj2 (proj2 (proj2 (proj2
             (C5_public_first_default_open Sample.TextEncoder_encode Sample.hmac
                Sample.decode Sample.env [] []
                (Sample.to_path "/register/step-2" (Some "garbage")) 0))))));
      reflexivity.
  - apply (proj2 (proj2 (proj2 (proj2 (proj2
             (C5_public_first_default_open Sample.TextEncoder_encode Sample.hmac
                Sample.decode Sample.env [] []
                (Sample.to_path "/about" None) 0))))));
      reflexivity.
Defined.

(** C6.  Where the redirect carries the requested path.  On a protected
    path, the redirect for a missing [auth-token] cookie goes to
    [/login] with the path in the [redirect] parameter; the redirect for
    a cookie that fails verification goes to [/login] with no [redirect]
    parameter at all. *)
Theorem C6_redirect_parameter_only_without_cookie :
  forall TextEncoder_encode hmac decode env request now_ms,
    Middleware.isProtectedRoute Middleware.protectedRoutes (Middleware.pathname request)
    = true ->
    (JsString.truthy (Middleware.cookies request !! "auth-token") = false ->
     exists target,
       Middleware.redirect_target
         (Middleware.middleware TextEncoder_encode hmac decode env request now_ms)
       = Some target
       /\ Middleware.url_pathname target = "/login"
       /\ Middleware.searchParams_get target "redirect"
          = Some (Middleware.pathname request))
    /\ (forall token error,
          Middleware.cookies request !! "auth-token" = Some token -> token <> "" ->
          Jwt.jose_jwtVerify hmac decode token (TextEncoder_encode (JWT_SECRET env)) now_ms
          = Throw error ->
          exists target,
            Middleware.redirect_target
              (Middleware.middleware TextEncoder_encode hmac decode env request now_ms)
            = Some target
            /\ Middleware.url_pathname target = "/login"
            /\ Middleware.searchParams_get target "redirect" = None).
Proof.
  intros TE hmac decode env request now_ms Hprot.
  pose proof (MiddlewareFacts.protected_not_public _ Hprot) as Hpub.
  unfold Middleware.middleware. split.
  - intros Hc. rewrite MiddlewareFacts.middleware_no_token by assumption.
    eexists. repeat split.
  - intros token error Hc Hne Hv.
    rewrite (MiddlewareFacts.middleware_rejected _ _ _ _ _ _ _ _ token error) by assumption.
    eexists. repeat split.
Qed.

Lemma C6_redirect_parameter_witness :
  (exists target,
     Middleware.redirect_target
       (Middleware.middleware Sample.TextEncoder_encode Sample.hmac Sample.decode
          Sample.env (Sample.to_path "/dashboard" None) 0) = Some target
     /\ Middleware.url_pathname target = "/login"
     /\ Middleware.searchParams_get target "redirect" = Some "/dashboard")
  /\ (exists target,
        Middleware.redirect_target
          (Middleware.middleware Sample.TextEncoder_encode Sample.hmac Sample.decode
             Sample.env (Sample.to_path "/dashboard" (Some "garbage")) 0) = Some target
        /\ Middleware.url_pathname target = "/login"
        /\ Middleware.searchParams_get target "redirect" = None).
Proof.
  split.
  - apply (C6_redirect_parameter_only_without_cookie Sample.TextEncoder_encode Sample.hmac
             Sample.decode Sample.env (Sample.to_path "/dashboard" None) 0);
      reflexivity.
  - apply (proj2 (C6_redirect_parameter_only_without_cookie Sample.TextEncoder_encode
                    Sample.hmac Sample.decode Sample.env
                    (Sample.to_path "/dashboard" (Some "garbage")) 0 eq_refl)
             "garbage" JWSInvalid); try reflexivity. discriminate.
Defined.

(** C9.  Protected matching is a bare prefix test.  A path is protected
    exactly when it begins with a protected entry, with nothing asked of
    what follows: [/dashboard-public] and [/settingsX] are protected.
    Every such path is outside the public list and gets through only
    when its [auth-token] cookie verifies -- exactly when it verifies
    and the identity values of its payload are header values.  Public
    matching asks for the entry itself or the entry and a slash:
    [/loginX] is not public. *)
Theorem C9_protected_is_bare_prefix :
  forall TextEncoder_encode hmac decode env request now_ms,
    (Middleware.isProtectedRoute Middleware.protectedRoutes (Middleware.pathname request)
     = true <->
     exists route rest, In route Middleware.protectedRoutes /\
                        Middleware.pathname request = route ++ rest)
    /\ Middleware.isProtectedRoute Middleware.protectedRoutes "/dashboard-public" = true
    /\ Middleware.isProtectedRoute Middleware.protectedRoutes "/settingsX" = true
    /\ (Middleware.isProtectedRoute Middleware.protectedRoutes (Middleware.pathname request)
        = true ->
        Middleware.isPublicRoute Middleware.publicRoutes (Middleware.pathname request) = false
        /\ (Middleware.allowed
              (Middleware.middleware TextEncoder_encode hmac decode env request now_ms)
            = true ->
            exists token payload,
              Middleware.cookies request !! "auth-token" = Some token /\ token <> "" /\
              Jwt.jose_jwtVerify hmac decode token
                (TextEncoder_encode (JWT_SECRET env)) now_ms = Return payload)
        /\ (Middleware.allowed
              (Middleware.middleware TextEncoder_encode hmac decode env request now_ms)
            = true <->
            exists token payload,
              Middleware.cookies request !! "auth-token" = Some token /\ token <> "" /\
              Jwt.jose_jwtVerify hmac decode token
                (TextEncoder_encode (JWT_SECRET env)) now_ms = Return payload /\
              is_Some (Middleware.header_value (Jwt.userId (Jwt.claims payload))) /\
              is_Some (Middleware.header_value (Jwt.email (Jwt.claims payload)))))
    /\ (Middleware.isPublicRoute Middleware.publicRoutes (Middleware.pathname request) = true
        <->
        exists route, In route Middleware.publicRoutes /\
          (Middleware.pathname request = route \/
           exists rest, Middleware.pathname request = route ++ "/" ++ rest))
    /\ Middleware.isPublicRoute Middleware.publicRoutes "/loginX" = false
    /\ Middleware.isPublicRoute Middleware.publicRoutes "/login/x" = true.
Proof.
  intros TE hmac decode env request now_ms.
  split; [apply MiddlewareFacts.isProtectedRoute_spec|].
  split; [reflexivity|]. split; [reflexivity|].
  split.
  { intros Hprot.
    pose proof (MiddlewareFacts.protected_not_public _ Hprot) as Hpub.
    split; [exact Hpub|].
    pose proof (MiddlewareFacts.protected_allowed_iff TE hmac decode env _ _
                  request now_ms Hpub Hprot) as Hiff.
    split; [|exact Hiff].
    intros Hallowed. apply Hiff in Hallowed as (token & payload & Hc & Hne & Hv & _).
    now exists token, payload. }
  split; [apply MiddlewareFacts.isPublicRoute_spec|].
  split; reflexivity.
Qed.

Lemma C9_protected_is_bare_prefix_witness :
  (exists token payload,
     Middleware.cookies (Sample.to_path "/dashboard-public" (Some "h.p.s")) !! "auth-token"
     = Some token /\ token <> "" /\
     Jwt.jose_jwtVerify Sample.hmac Sample.decode token
       (Sample.TextEncoder_encode (JWT_SECRET Sample.env)) 1000 = Return payload)
  /\ Middleware.middleware Sample.TextEncoder_encode Sample.hmac Sample.decode Sample.env
       (Sample.to_path "/settingsX" None) 1000
     = Return (Middleware.NextResponse_redirect
                 {| Middleware.origin := "https://tasks.example";
                    Middleware.url_pathname := "/login";
                    Middleware.searchParams := [("redirect", "/settingsX")] |}).
Proof.
  split; [|reflexivity].
  apply (proj1 (proj2 (proj1 (proj2 (proj2 (proj2
           (C9_protected_is_bare_prefix Sample.TextEncoder_encode Sample.hmac
              Sample.decode Sample.env
              (Sample.to_path "/dashboard-public" (Some "h.p.s")) 1000)))) eq_refl))).
  reflexivity.
Defined.

(** ** The login and registration handlers *)

Module ApiFacts.
Import Api.

Lemma find_map_same {A} (p : A -> bool) (g : A -> A) (l : list A) :
  (forall a, p (g a) = p a) ->
  find p (map g l) = g <$> find p l.
Proof.
  intros Hp. induction l as [|a l IH]; simpl; [reflexivity|].
  rewrite Hp. destruct (p a); [reflexivity | exact IH].
Qed.

(** Looking a user up after the secrets were replaced finds the same
    user, with the replaced secrets. *)
Lemma user_findUnique_reseal f db where_email :
  user_findUnique (reseal f db) where_email =
  match user_findUnique db where_email with
  | Some (u, a) => Some (u, (fun a => with_secrets a (f a)) <$> a)
  | None => None
  end.
Proof.
  unfold user_findUnique, reseal. simpl.
  destruct (find _ (users db)) as [u|]; [|reflexivity].
  now rewrite find_map_same by reflexivity.
Qed.

Lemma user_findUnique_In db where_email u a :
  user_findUnique db where_email = Some (u, Some a) -> In a (aspNetUsers db).
Proof.
  unfold user_findUnique.
  destruct (find _ (users db)) as [u'|]; [|discriminate].
  destruct (find _ (aspNetUsers db)) as [a'|] eqn:Hf; [|discriminate].
  intros [= -> ->]. exact (proj1 (find_some _ _ Hf)).
Qed.

Section Handlers.
Variable TextEncoder_encode : string -> list Byte.byte.
Variable hmac : string -> list Byte.byte -> string -> string.
Variable encodeSigningInput : string -> Jwt.JWTPayload -> string.
Variable loginSchema_parse : Json -> Completion JsError (string * string).
Variable registerSchema_parse : Json -> Completion JsError (string * string * string).
Variable toLowerCase toUpperCase : string -> string.
Variable bcrypt_compare : string -> string -> bool.
Variable env : ProcessEnv.

(** The login handler on a request that passed validation. *)
Lemma login_validated db request now_ms body email_in password :
  json_body request = Some body ->
  loginSchema_parse body = Return (email_in, password) ->
  login_POST TextEncoder_encode hmac encodeSigningInput loginSchema_parse toLowerCase
    bcrypt_compare env db request now_ms
  = match user_findUnique db (toLowerCase email_in) with
    | Some (user, Some aspNetUser) =>
        if bcrypt_compare password (default "" (passwordHash aspNetUser)) then
          Return
            {| status := 200;
               body := JObj [("message", JStr "Login successful");
                             ("user", JObj [("id", JStr (id user));
                                            ("email", JStr (email user));
                                            ("name", json_of_nullable (name user));
                                            ("createdAt", JDate (createdAt user))])];
               set_cookies :=
                 [{| cookie_name := "auth-token";
                     cookie_value :=
                       Jwt.jsonwebtoken_sign TextEncoder_encode hmac encodeSigningInput
                         {| Jwt.userId := id user; Jwt.email := email user;
                            Jwt.name := name user |}
                         (JWT_SECRET env) now_ms;
                     cookie_options :=
                       {| httpOnly := true;
                          secure := bool_decide (NODE_ENV env = Some "production");
                          sameSite := "strict";
                          maxAge := 86400;
                          path := "/" |} |}] |}
        else
          Return (NextResponse_json (JObj [("error", JStr "Invalid email or password")]) 401)
    | _ => Return (NextResponse_json (JObj [("error", JStr "Invalid email or password")]) 401)
    end.
Proof.
  intros Hbody Hparse. unfold login_POST, request_json. rewrite Hbody. simpl.
  rewrite Hparse. simpl.
  destruct (user_findUnique db (toLowerCase email_in)) as [[user [aspNetUser|]]|];
    try reflexivity.
  destruct (bcrypt_compare password _); reflexivity.
Qed.

(** The login handler on a request that did not pass validation. *)
Lemma login_not_validated db request now_ms :
  (forall body pair, json_body request = Some body ->
                     loginSchema_parse body <> Return pair) ->
  exists error,
    login_POST TextEncoder_encode hmac encodeSigningInput loginSchema_parse toLowerCase
      bcrypt_compare env db request now_ms
    = Return (error_response error).
Proof.
  intros Hnot. unfold login_POST, request_json.
  destruct (json_body request) as [body|]; simpl; [|now exists SyntaxError].
  destruct (loginSchema_parse body) as [pair|error] eqn:Hp; simpl.
  - now destruct (Hnot body pair eq_refl).
  - now exists error.
Qed.

End Handlers.
End ApiFacts.

(** C7.  A login with bad credentials gets one answer.  Whether the
    e-mail is of no user, of a user without a credential record, or of
    a user whose stored hash the password does not match, the handler
    answers 401 with the body [{error: 'Invalid email or password'}] and
    sets no cookie: two such logins, of any kind, get equal responses. *)
Theorem C7_bad_credentials_one_answer :
  forall TextEncoder_encode hmac encodeSigningInput loginSchema_parse toLowerCase
         bcrypt_compare env db request now_ms body email_in password,
    Api.json_body request = Some body ->
    loginSchema_parse body = Return (email_in, password) ->
    Api.BadCredentials toLowerCase bcrypt_compare db email_in password ->
    Api.login_POST TextEncoder_encode hmac encodeSigningInput loginSchema_parse
      toLowerCase bcrypt_compare env db request now_ms
    = Return {| Api.status := 401;
                Api.body := JObj [("error", JStr "Invalid email or password")];
                Api.set_cookies := [] |}.
Proof.
  intros TE hmac enc parse lower compare env db request now_ms body email_in password
         Hbody Hparse Hbad.
  rewrite (ApiFacts.login_validated _ _ _ _ _ _ _ _ _ _ _ _ _ Hbody Hparse).
  destruct Hbad as [H | user H | user aspNetUser H Hcmp]; rewrite H; try reflexivity.
  now rewrite Hcmp.
Qed.

Lemma C7_bad_credentials_witness :
  Api.login_POST Sample.TextEncoder_encode Sample.hmac Sample.encodeSigningInput
    Sample.loginSchema_parse Sample.toLowerCase Sample.bcrypt_compare Sample.env
    Sample.db (Sample.credentials "nobody@example.com" "correct horse") 0
  = Return {| Api.status := 401;
              Api.body := JObj [("error", JStr "Invalid email or password")];
              Api.set_cookies := [] |}
  /\ Api.login_POST Sample.TextEncoder_encode Sample.hmac Sample.encodeSigningInput
       Sample.loginSchema_parse Sample.toLowerCase Sample.bcrypt_compare Sample.env
       {| Api.users := [Sample.alice_row]; Api.aspNetUsers := [] |}
       (Sample.credentials "alice@example.com" "correct horse") 0
     = Return {| Api.status := 401;
                 Api.body := JObj [("error", JStr "Invalid email or password")];
                 Api.set_cookies := [] |}
  /\ Api.login_POST Sample.TextEncoder_encode Sample.hmac Sample.encodeSigningInput
       Sample.loginSchema_parse Sample.toLowerCase Sample.bcrypt_compare Sample.env
       Sample.db (Sample.credentials "alice@example.com" "wrong") 0
     = Return {| Api.status := 401;
                 Api.body := JObj [("error", JStr "Invalid email or password")];
                 Api.set_cookies := [] |}.
Proof.
  split; [|split].
  - apply (C7_bad_credentials_one_answer _ _ _ _ _ _ _ _ _ _
             (JObj [("email", JStr "nobody@example.com");
                    ("password", JStr "correct horse")])
             "nobody@example.com" "correct horse"); try reflexivity.
    apply Api.unknown_email. reflexivity.
  - apply (C7_bad_credentials_one_answer _ _ _ _ _ _ _ _ _ _
             (JObj [("email", JStr "alice@example.com");
                    ("password", JStr "correct horse")])
             "alice@example.com" "correct horse"); try reflexivity.
    apply (Api.no_credential_record _ _ _ _ _ Sample.alice_row). reflexivity.
  - apply (C7_bad_credentials_one_answer _ _ _ _ _ _ _ _ _ _
             (JObj [("email", JStr "alice@example.com"); ("password", JStr "wrong")])
             "alice@example.com" "wrong"); try reflexivity.
    apply (Api.wrong_password _ _ _ _ _ Sample.alice_row Sample.alice_credentials);
      reflexivity.
Defined.

(** C8.  The session cookie of a successful login.  A login with the
    good credentials of a user is answered 200 and sets exactly one
    cookie: its name is [auth-token], its value the session token
    issued for that user at that moment (the token [createToken] issues
    for the user's id, address and name), with HttpOnly, SameSite
    [strict], Path [/], Max-Age 86400, and Secure exactly when
    [NODE_ENV] is [production].  Every answer of the handler with status
    200 is such an answer: to a request with the good credentials of
    the user whose token the cookie holds. *)
Theorem C8_session_cookie_attributes :
  forall TextEncoder_encode hmac encodeSigningInput loginSchema_parse toLowerCase
         bcrypt_compare env db request now_ms,
    (forall body email_in password user,
        Api.json_body request = Some body ->
        loginSchema_parse body = Return (email_in, password) ->
        Api.GoodCredentials toLowerCase bcrypt_compare db email_in password user ->
        exists response cookie,
          Api.login_POST TextEncoder_encode hmac encodeSigningInput loginSchema_parse
            toLowerCase bcrypt_compare env db request now_ms = Return response
          /\ Api.status response = 200
          /\ Api.set_cookies response = [cookie]
          /\ ApiInvariants.session_cookie env
               (Jwt.createToken TextEncoder_encode hmac encodeSigningInput env
                  {| Jwt.id := Api.id user; Jwt.user_email := Api.email user;
                     Jwt.user_name := Api.name user |} now_ms)
               cookie)
    /\ (forall response,
          Api.login_POST TextEncoder_encode hmac encodeSigningInput loginSchema_parse
            toLowerCase bcrypt_compare env db request now_ms = Return response ->
          Api.status response = 200 ->
          exists body email_in password user cookie,
            Api.json_body request = Some body
            /\ loginSchema_parse body = Return (email_in, password)
            /\ Api.GoodCredentials toLowerCase bcrypt_compare db email_in password user
            /\ Api.set_cookies response = [cookie]
            /\ ApiInvariants.session_cookie env
                 (Jwt.createToken TextEncoder_encode hmac encodeSigningInput env
                    {| Jwt.id := Api.id user; Jwt.user_email := Api.email user;
                       Jwt.user_name := Api.name user |} now_ms)
                 cookie).
Proof.
  intros TE hmac enc parse lower compare env db request now_ms.
  assert (Hcookie : forall user,
             ApiInvariants.session_cookie env
               (Jwt.createToken TE hmac enc env
                  {| Jwt.id := Api.id user; Jwt.user_email := Api.email user;
                     Jwt.user_name := Api.name user |} now_ms)
               {| Api.cookie_name := "auth-token";
                  Api.cookie_value :=
                    Jwt.jsonwebtoken_sign TE hmac enc
                      {| Jwt.userId := Api.id user; Jwt.email := Api.email user;
                         Jwt.name := Api.name user |} (JWT_SECRET env) now_ms;
                  Api.cookie_options :=
                    {| Api.httpOnly := true;
                       Api.secure := bool_decide (NODE_ENV env = Some "production");
                       Api.sameSite := "strict"; Api.maxAge := 86400;
                       Api.path := "/" |} |}).
  { intros user. unfold ApiInvariants.session_cookie. simpl.
    repeat (split; [reflexivity|]).
    split; [apply bool_decide_eq_true_1 | apply bool_decide_eq_true_2]. }
  split.
  - intros body email_in password user Hbody Hparse (aspNetUser & Hfind & Hcmp).
    rewrite (ApiFacts.login_validated _ _ _ _ _ _ _ _ _ _ _ _ _ Hbody Hparse).
    rewrite Hfind, Hcmp. do 2 eexists.
    split; [reflexivity|]. split; [reflexivity|]. split; [reflexivity|]. apply Hcookie.
  - intros response Hrun Hstatus.
    destruct (Api.json_body request) as [body|] eqn:Hbody.
    2:{ unfold Api.login_POST, Api.request_json in Hrun. rewrite Hbody in Hrun.
        simpl in Hrun. injection Hrun as <-. discriminate. }
    destruct (parse body) as [[email_in password]|error] eqn:Hparse.
    2:{ unfold Api.login_POST, Api.request_json in Hrun. rewrite Hbody in Hrun.
        simpl in Hrun. rewrite Hparse in Hrun. simpl in Hrun. injection Hrun as <-.
        destruct error; discriminate. }
    rewrite (ApiFacts.login_validated _ _ _ _ _ _ _ _ _ _ _ _ _ Hbody Hparse) in Hrun.
    destruct (Api.user_findUnique db (lower email_in)) as [[user [aspNetUser|]]|] eqn:Hfind;
      try (injection Hrun as <-; discriminate).
    destruct (compare password _) eqn:Hcmp; injection Hrun as <-; [|discriminate].
    exists body, email_in, password, user. eexists.
    split; [reflexivity|]. split; [exact Hparse|].
    split; [now exists aspNetUser|]. split; [reflexivity|]. apply Hcookie.
Qed.

Lemma C8_session_cookie_witness :
  exists response cookie,
    Api.login_POST Toy.TextEncoder_encode Toy.hmac Toy.encodeSigningInput
      Sample.loginSchema_parse Sample.toLowerCase Sample.bcrypt_compare Toy.env
      Sample.db (Sample.credentials "alice@example.com" "correct horse") 0
    = Return response
    /\ Api.status response = 200
    /\ Api.set_cookies response = [cookie]
    /\ ApiInvariants.session_cookie Toy.env
         (Jwt.createToken Toy.TextEncoder_encode Toy.hmac Toy.encodeSigningInput Toy.env
            {| Jwt.id := "u1"; Jwt.user_email := "alice@example.com";
               Jwt.user_name := Some "Alice" |} 0)
         cookie.
Proof.
  apply (proj1 (C8_session_cookie_attributes Toy.TextEncoder_encode Toy.hmac
                  Toy.encodeSigningInput Sample.loginSchema_parse Sample.toLowerCase
                  Sample.bcrypt_compare Toy.env Sample.db
                  (Sample.credentials "alice@example.com" "correct horse") 0)
           (JObj [("email", JStr "alice@example.com");
                  ("password", JStr "correct horse")])
           "alice@example.com" "correct horse" Sample.alice_row);
    try reflexivity.
  exists Sample.alice_credentials. split; reflexivity.
Defined.

Module ApiBodies.
Import Api.

(** The branch at hand answers with an error body and a status that is
    not the success status. *)
Ltac answers_error :=
  eexists; split; [reflexivity|]; split; [constructor | discriminate].

Lemma error_response_body error : HandlerBody (body (error_response error)).
Proof. destruct error; simpl; constructor. Qed.

Lemma error_response_status error :
  status (error_response error) = 400 \/ status (error_response error) = 500.
Proof. destruct error; simpl; auto. Qed.

Section Handlers.
Variable TextEncoder_encode : string -> list Byte.byte.
Variable hmac : string -> list Byte.byte -> string -> string.
Variable encodeSigningInput : string -> Jwt.JWTPayload -> string.
Variable loginSchema_parse : Json -> Completion JsError (string * string).
Variable registerSchema_parse : Json -> Completion JsError (string * string * string).
Variable toLowerCase toUpperCase : string -> string.
Variable bcrypt_compare : string -> string -> bool.
Variable env : ProcessEnv.

(** The login handler always answers; a 200 carries the public fields
    of a user of the database, any other answer an error body. *)
Lemma login_bodies db request now_ms :
  exists response,
    login_POST TextEncoder_encode hmac encodeSigningInput loginSchema_parse toLowerCase
      bcrypt_compare env db request now_ms = Return response
    /\ HandlerBody (body response)
    /\ (status response = 200 ->
        exists user,
          In user (users db)
          /\ body response = JObj [("message", JStr "Login successful");
                                   ("user", public_user user)]).
Proof.
  destruct (json_body request) as [body0|] eqn:Hbody.
  2:{ unfold login_POST, request_json. rewrite Hbody. simpl. answers_error. }
  destruct (loginSchema_parse body0) as [[email_in password]|error] eqn:Hparse.
  2:{ unfold login_POST, request_json. rewrite Hbody. simpl. rewrite Hparse. simpl.
      eexists. split; [reflexivity|]. split; [apply error_response_body|].
      destruct (error_response_status error) as [-> | ->]; discriminate. }
  rewrite (ApiFacts.login_validated _ _ _ _ _ _ _ _ _ _ _ _ _ Hbody Hparse).
  unfold user_findUnique.
  destruct (find _ (users db)) as [user|] eqn:Hfind; [|answers_error].
  destruct (find _ (aspNetUsers db)) as [aspNetUser|]; [|answers_error].
  destruct (bcrypt_compare password _); [|answers_error].
  eexists. split; [reflexivity|]. split; [apply (success_body _ user)|].
  intros _. exists user. split; [|reflexivity].
  exact (proj1 (find_some _ _ Hfind)).
Qed.

(** The answer to a login does not depend on the stored secrets beyond
    the verdict of [bcrypt.compare] on the submitted password. *)
Lemma login_secrets_hidden db f request now_ms :
  (forall body0 email_in password a,
      json_body request = Some body0 ->
      loginSchema_parse body0 = Return (email_in, password) ->
      In a (aspNetUsers db) ->
      bcrypt_compare password (default "" (fst (f a)))
      = bcrypt_compare password (default "" (passwordHash a))) ->
  login_POST TextEncoder_encode hmac encodeSigningInput loginSchema_parse toLowerCase
    bcrypt_compare env (reseal f db) request now_ms
  = login_POST TextEncoder_encode hmac encodeSigningInput loginSchema_parse toLowerCase
      bcrypt_compare env db request now_ms.
Proof.
  intros Hverdict.
  destruct (json_body request) as [body0|] eqn:Hbody.
  2:{ unfold login_POST, request_json. now rewrite Hbody. }
  destruct (loginSchema_parse body0) as [[email_in password]|error] eqn:Hparse.
  2:{ unfold login_POST, request_json. rewrite Hbody. simpl. now rewrite Hparse. }
  rewrite !(ApiFacts.login_validated _ _ _ _ _ _ _ _ _ _ _ _ _ Hbody Hparse).
  rewrite ApiFacts.user_findUnique_reseal.
  destruct (user_findUnique db (toLowerCase email_in)) as [[user [a|]]|] eqn:Hfind;
    try reflexivity.
  simpl.
  rewrite (Hverdict _ _ _ a eq_refl Hparse (ApiFacts.user_findUnique_In _ _ _ _ Hfind)).
  reflexivity.
Qed.

Section Register.
Variable bcrypt_hash : string -> Z -> string.
Variable bcrypt_genSaltSync : Z -> string.

(** The registration handler always answers; a 201 carries the public
    fields of the row it added, any other answer an error body. *)
Lemma register_bodies db request fresh_id now_ms :
  exists response db',
    register_POST registerSchema_parse toLowerCase toUpperCase bcrypt_hash
      bcrypt_genSaltSync db request fresh_id now_ms = Return (response, db')
    /\ HandlerBody (body response)
    /\ set_cookies response = []
    /\ (status response = 201 ->
        exists user,
          In user (users db') /\ id user = fresh_id /\ createdAt user = now_ms
          /\ body response = JObj [("message", JStr "User registered successfully");
                                   ("user", public_user user)]).
Proof.
  unfold register_POST, request_json.
  destruct (json_body request) as [body0|]; simpl.
  2:{ do 2 eexists. split; [reflexivity|]. repeat split; [constructor | discriminate]. }
  destruct (registerSchema_parse body0) as [[[fullName email_in] password]|error]; simpl.
  2:{ do 2 eexists. split; [reflexivity|].
      split; [apply error_response_body|]. split; [now destruct error|].
      destruct (error_response_status error) as [-> | ->]; discriminate. }
  destruct (user_findUnique db (toLowerCase email_in)); simpl.
  - do 2 eexists. split; [reflexivity|]. repeat split; [constructor | discriminate].
  - do 2 eexists. split; [reflexivity|]. simpl.
    split; [apply (success_body _ {| id := fresh_id; email := toLowerCase email_in;
                                     name := Some fullName; createdAt := now_ms |})|].
    split; [reflexivity|].
    intros _.
    exists {| id := fresh_id; email := toLowerCase email_in;
              name := Some fullName; createdAt := now_ms |}.
    split; [apply in_or_app; right; now left|].
    repeat split.
Qed.

End Register.

(** The answer to a registration does not depend on the hash and the
    stamp that were stored. *)
Lemma register_secrets_hidden hash1 salt1 hash2 salt2 db request fresh_id now_ms :
  response_of (register_POST registerSchema_parse toLowerCase toUpperCase hash1 salt1
                 db request fresh_id now_ms)
  = response_of (register_POST registerSchema_parse toLowerCase toUpperCase hash2 salt2
                   db request fresh_id now_ms).
Proof.
  unfold register_POST, request_json.
  destruct (json_body request) as [body0|]; simpl; [|reflexivity].
  destruct (registerSchema_parse body0) as [[[fullName email_in] password]|error]; simpl;
    [|reflexivity].
  now destruct (user_findUnique db (toLowerCase email_in)).
Qed.

End Handlers.
End ApiBodies.

(** C10.  What the two handlers put in a body.  Both always answer, and
    a body is a message with the public fields of a user, an error, or
    an error with the schema's issues.  The 200 of the login and the 201
    of the registration carry exactly [message] and [user], and [user]
    exactly [id], [email], [name], [createdAt] of the user's row.  The
    stored secrets never reach a response: replacing every password hash
    and security stamp of the database leaves the answer to a login
    unchanged as long as the verdict on the submitted password is, and
    the answer to a registration is the same whatever hash and stamp it
    stored. *)
Theorem C10_bodies_hold_no_secret :
  forall TextEncoder_encode hmac encodeSigningInput loginSchema_parse registerSchema_parse
         toLowerCase toUpperCase bcrypt_compare bcrypt_hash bcrypt_genSaltSync env
         db request fresh_id now_ms,
    (forall message u,
        Api.field_names (JObj [("message", JStr message); ("user", Api.public_user u)])
        = ["message"; "user"]
        /\ Api.field_names (Api.public_user u) = ["id"; "email"; "name"; "createdAt"]
        /\ Api.field (Api.public_user u) "passwordHash" = None
        /\ Api.field (Api.public_user u) "securityStamp" = None)
    /\ (exists response,
          Api.login_POST TextEncoder_encode hmac encodeSigningInput loginSchema_parse
            toLowerCase bcrypt_compare env db request now_ms = Return response
          /\ Api.HandlerBody (Api.body response)
          /\ (Api.status response = 200 ->
              exists user,
                In user (Api.users db)
                /\ Api.body response = JObj [("message", JStr "Login successful");
                                             ("user", Api.public_user user)]))
    /\ (exists response db',
          Api.register_POST registerSchema_parse toLowerCase toUpperCase bcrypt_hash
            bcrypt_genSaltSync db request fresh_id now_ms = Return (response, db')
          /\ Api.HandlerBody (Api.body response)
          /\ Api.set_cookies response = []
          /\ (Api.status response = 201 ->
              exists user,
                In user (Api.users db') /\ Api.id user = fresh_id
                /\ Api.createdAt user = now_ms
                /\ Api.body response
                   = JObj [("message", JStr "User registered successfully");
                           ("user", Api.public_user user)]))
    /\ (forall f,
          (forall body0 email_in password a,
              Api.json_body request = Some body0 ->
              loginSchema_parse body0 = Return (email_in, password) ->
              In a (Api.aspNetUsers db) ->
              bcrypt_compare password (default "" (fst (f a)))
              = bcrypt_compare password (default "" (Api.passwordHash a))) ->
          Api.login_POST TextEncoder_encode hmac encodeSigningInput loginSchema_parse
            toLowerCase bcrypt_compare env (Api.reseal f db) request now_ms
          = Api.login_POST TextEncoder_encode hmac encodeSigningInput loginSchema_parse
              toLowerCase bcrypt_compare env db request now_ms)
    /\ (forall bcrypt_hash' bcrypt_genSaltSync',
          Api.response_of
            (Api.register_POST registerSchema_parse toLowerCase toUpperCase bcrypt_hash'
               bcrypt_genSaltSync' db request fresh_id now_ms)
          = Api.response_of
              (Api.register_POST registerSchema_parse toLowerCase toUpperCase bcrypt_hash
                 bcrypt_genSaltSync db request fresh_id now_ms)).
Proof.
  intros TE hmac enc lparse rparse lower upper compare hash salt env
         db request fresh_id now_ms.
  split; [intros message u; repeat split|].
  split; [apply ApiBodies.login_bodies|].
  split; [apply ApiBodies.register_bodies|].
  split; [intros f Hverdict; now apply ApiBodies.login_secrets_hidden|].
  intros hash' salt'. apply ApiBodies.register_secrets_hidden.
Qed.

Lemma C10_bodies_hold_no_secret_witness :
  Api.login_POST Sample.TextEncoder_encode Sample.hmac Sample.encodeSigningInput
    Sample.loginSchema_parse Sample.toLowerCase Sample.bcrypt_compare Sample.env
    (Api.reseal (fun a => (Api.passwordHash a, Some "$2a$08$another-stamp")) Sample.db)
    (Sample.credentials "alice@example.com" "correct horse") 0
  = Api.login_POST Sample.TextEncoder_encode Sample.hmac Sample.encodeSigningInput
      Sample.loginSchema_parse Sample.toLowerCase Sample.bcrypt_compare Sample.env
      Sample.db (Sample.credentials "alice@example.com" "correct horse") 0
  /\ Api.status
       (fst (default (Api.NextResponse_json JNull 0, Sample.db)
               (match Api.register_POST Sample.registerSchema_parse Sample.toLowerCase
                        Sample.toUpperCase Sample.bcrypt_hash Sample.bcrypt_genSaltSync
                        Sample.db
                        (Sample.registration "Bob" "bob@example.com" "hunter22")
                        "u2" 1700000000001 with
                | Return r => Some r
                | Throw _ => None
                end))) = 201.
Proof.
  split; [|reflexivity].
  apply (proj1 (proj2 (proj2 (proj2
           (C10_bodies_hold_no_secret Sample.TextEncoder_encode Sample.hmac
              Sample.encodeSigningInput Sample.loginSchema_parse
              Sample.registerSchema_parse Sample.toLowerCase Sample.toUpperCase
              Sample.bcrypt_compare Sample.bcrypt_hash Sample.bcrypt_genSaltSync
              Sample.env Sample.db
              (Sample.credentials "alice@example.com" "correct horse") "u2" 0))))
           (fun a => (Api.passwordHash a, Some "$2a$08$another-stamp"))).
  intros body0 email_in password a _ _ _. reflexivity.
Defined.

(** ** Cookie headers read back *)

Module CookieJarFacts.
Import JsString JsStringFacts CookieHeader CookieHeaderFacts CookieJar.

Lemma token_chars_no_space s :
  all_chars is_token_char s = true ->
  all_chars (fun c => negb (is_whitespace c)) s = true.
Proof.
  induction s as [|c s IH]; simpl; [reflexivity|].
  intros H. apply andb_true_iff in H as [Hc Hs]. rewrite (IH Hs), andb_true_r.
  unfold is_token_char in Hc. now destruct (is_whitespace c).
Qed.

Section Plain.
Variable kv : string * string.
Hypothesis Hplain : plain_pair kv = true.

Lemma plain_name : all_chars is_token_char (fst kv) = true.
Proof.
  unfold plain_pair in Hplain.
  apply andb_true_iff in Hplain as [H _]. now apply andb_true_iff in H as [H _].
Qed.

Lemma plain_value : all_chars is_token_char (snd kv) = true.
Proof.
  unfold plain_pair in Hplain.
  apply andb_true_iff in Hplain as [H _]. now apply andb_true_iff in H as [_ H].
Qed.

Lemma plain_not_proto : String.eqb (fst kv) "__proto__" = false.
Proof.
  unfold plain_pair in Hplain.
  apply andb_true_iff in Hplain as [_ H]. now apply negb_true_iff in H.
Qed.

Lemma pair_text_eq : pair_text kv = fst kv ++ String "=" (snd kv).
Proof. reflexivity. Qed.

Lemma pair_text_no_semicolon : occurs ";" (pair_text kv) = false.
Proof.
  rewrite pair_text_eq, occurs_app. simpl.
  rewrite (all_chars_occurs _ _ _ plain_name) by reflexivity.
  now rewrite (all_chars_occurs _ _ _ plain_value) by reflexivity.
Qed.

Lemma pair_text_trim : trim (pair_text kv) = pair_text kv.
Proof.
  apply trim_id. rewrite pair_text_eq, all_chars_app. simpl.
  now rewrite (token_chars_no_space _ plain_name), (token_chars_no_space _ plain_value).
Qed.

(** The callback stores the value of a plain pair under its name, with
    or without the space that follows a semicolon. *)
Lemma reducer_plain (acc : Cookies) :
  reducer acc (pair_text kv) = <[fst kv := Some (snd kv)]> acc.
Proof.
  unfold reducer. rewrite pair_text_trim, pair_text_eq.
  rewrite split_app by (apply (all_chars_occurs _ _ _ plain_name); reflexivity).
  rewrite split_free by (apply (all_chars_occurs _ _ _ plain_value); reflexivity).
  simpl. unfold assign. now rewrite plain_not_proto.
Qed.

Lemma reducer_plain_spaced (acc : Cookies) :
  reducer acc (" " ++ pair_text kv) = <[fst kv := Some (snd kv)]> acc.
Proof.
  rewrite <- reducer_plain. unfold reducer, trim. reflexivity.
Qed.

End Plain.

Lemma split_spaced s :
  split ";" (" " ++ s) =
  match split ";" s with
  | p :: ps => (" " ++ p) :: ps
  | [] => [" "]
  end.
Proof. reflexivity. Qed.

(** The pieces of a rendered header. *)
Lemma split_render kv rest :
  Forall (fun kv => plain_pair kv = true) (kv :: rest) ->
  split ";" (render (kv :: rest))
  = pair_text kv :: map (fun kv => " " ++ pair_text kv) rest.
Proof.
  revert kv. induction rest as [|kv' rest IH]; intros kv Hall.
  - inversion Hall; subst. simpl. now rewrite split_free by now apply pair_text_no_semicolon.
  - inversion Hall as [|? ? Hkv Hrest]; subst.
    change (render (kv :: kv' :: rest))
      with (pair_text kv ++ String ";" (" " ++ render (kv' :: rest))).
    rewrite split_app by now apply pair_text_no_semicolon.
    rewrite split_spaced, (IH kv' Hrest). reflexivity.
Qed.

Lemma fold_spaced pairs (acc : Cookies) :
  Forall (fun kv => plain_pair kv = true) pairs ->
  fold_left reducer (map (fun kv => " " ++ pair_text kv) pairs) acc
  = fold_left (fun acc kv => <[fst kv := Some (snd kv)]> acc) pairs acc.
Proof.
  revert acc. induction pairs as [|kv pairs IH]; intros acc Hall; [reflexivity|].
  inversion Hall; subst. simpl. rewrite reducer_plain_spaced by assumption.
  now apply IH.
Qed.

Lemma get_fold_insert pairs (acc : Cookies) name :
  get (fold_left (fun acc kv => <[fst kv := Some (snd kv)]> acc) pairs acc) name
  = match last_value name pairs with
    | Some v => Some v
    | None => get acc name
    end.
Proof.
  revert acc. induction pairs as [|kv pairs IH]; intros acc; [reflexivity|].
  simpl. rewrite IH. destruct (last_value name pairs); [reflexivity|].
  unfold get. destruct (String.eqb_spec (fst kv) name) as [->|Hne].
  - now rewrite lookup_insert_eq.
  - now rewrite lookup_insert_ne.
Qed.

End CookieJarFacts.



(** ** The session extractors, characterised *)

Module AuthLibFacts.
Import JsString JsStringFacts CookieHeader CookieHeaderFacts Jwt AuthLib.

Section Codec.
Variable TextEncoder_encode : string -> list Byte.byte.
Variable hmac : string -> list Byte.byte -> string -> string.
Variable decode : string -> option Decoded.
Variable env : ProcessEnv.

(** When jose's verification returns. *)
Lemma jose_returns_iff token key now_ms p :
  jose_jwtVerify hmac decode token key now_ms = Return p <->
  exists parts,
    decode token = Some parts
    /\ symmetric_alg (alg parts) = true
    /\ hmac (alg parts) key (signing_input parts) = signature parts
    /\ (forall expiry, exp (payload parts) = Some expiry -> epoch now_ms < expiry)
    /\ payload parts = p.
Proof.
  unfold jose_jwtVerify. split.
  - destruct (decode token) as [parts|]; [|discriminate].
    destruct (symmetric_alg (alg parts)) eqn:Halg; [|discriminate]. simpl.
    destruct (String.eqb_spec (hmac (alg parts) key (signing_input parts))
                (signature parts)) as [Hsig|]; [|discriminate]. simpl.
    destruct (exp (payload parts)) as [e|] eqn:He.
    + destruct (Z.leb_spec e (epoch now_ms)); [discriminate|].
      intros [= <-]. exists parts.
      split; [reflexivity|]. split; [assumption|]. split; [assumption|].
      split; [|reflexivity]. intros expiry Hx. congruence.
    + intros [= <-]. exists parts.
      split; [reflexivity|]. split; [assumption|]. split; [assumption|].
      split; [|reflexivity]. intros expiry Hx. congruence.
  - intros (parts & -> & Halg & Hsig & Hexp & <-).
    rewrite Halg, Hsig, String.eqb_refl. simpl.
    destruct (exp (payload parts)) as [e|]; [|reflexivity].
    specialize (Hexp e eq_refl).
    destruct (Z.leb_spec e (epoch now_ms)); [lia | reflexivity].
Qed.

(** When the extractors reach verification. *)
Lemma located_iff request token :
  located request = Some token <->
  exists cookieHeader,
    headers_get request "cookie" = Some cookieHeader
    /\ authToken cookieHeader = Some token /\ token <> "".
Proof.
  unfold located. split.
  - destruct (headers_get request "cookie") as [h|]; [|discriminate].
    destruct (authToken h) as [t|] eqn:Ht; [|discriminate].
    destruct (String.eqb_spec t ""); [discriminate|].
    intros [= <-]. now exists h.
  - intros (h & -> & -> & Hne).
    now destruct (String.eqb_spec token "").
Qed.

Lemma getToken_returns_iff request now_ms p :
  getToken TextEncoder_encode hmac decode env request now_ms = Return (Some p) <->
  carries_session TextEncoder_encode hmac decode env request now_ms p.
Proof.
  rewrite JwtFacts.getToken_eq. unfold carries_session. split.
  - destruct (located request) as [token|] eqn:Hloc; [|discriminate].
    apply located_iff in Hloc as (h & Hh & Ht & Hne).
    destruct (jose_jwtVerify hmac decode token _ now_ms) as [q|] eqn:Hv; [|discriminate].
    simpl. intros [= <-].
    apply jose_returns_iff in Hv as (parts & Hd & Halg & Hsig & Hexp & Hp).
    exists h, token, parts. repeat split; assumption.
  - intros (h & token & parts & Hh & Ht & Hne & Hd & Halg & Hsig & Hexp & Hp).
    assert (Hloc : located request = Some token) by (apply located_iff; eauto).
    rewrite Hloc.
    assert (Hv : jose_jwtVerify hmac decode token (TextEncoder_encode (JWT_SECRET env))
                   now_ms = Return p) by (apply jose_returns_iff; eauto 10).
    now rewrite Hv.
Qed.

(** The user-id extractors are [getToken] followed by the [userId] of
    the payload. *)
Lemma getUserIdFromToken_of_getToken request now_ms :
  getUserIdFromToken TextEncoder_encode hmac decode env request now_ms
  = settle (fun o => userId (claims o))
      (p ← getToken TextEncoder_encode hmac decode env request now_ms;
       match p with
       | Some payload => Return payload
       | None => Throw JWSInvalid
       end).
Proof.
  rewrite JwtFacts.getUserIdFromToken_eq, JwtFacts.getToken_eq.
  destruct (located request); [|reflexivity].
  now destruct (jose_jwtVerify _ _ _ _ _).
Qed.

Lemma sync_is_async request now_ms :
  getUserIdFromTokenSync TextEncoder_encode hmac decode env request now_ms
  = getUserIdFromToken TextEncoder_encode hmac decode env request now_ms.
Proof.
  rewrite JwtFacts.getUserIdFromTokenSync_eq, JwtFacts.getUserIdFromToken_eq.
  destruct (located request) as [token|]; [|reflexivity].
  pose proof (JwtFacts.verifiers_agree TextEncoder_encode hmac decode token
                (JWT_SECRET env) now_ms) as H.
  destruct (jose_jwtVerify _ _ _ _ _), (jsonwebtoken_verify _ _ _ _ _ _);
    simpl in *; congruence.
Qed.

End Codec.
End AuthLibFacts.

(** X3.  When a session is read.  [getToken] returns a payload exactly
    when the request carries a session: a cookie header from which the
    parser extracts a non-empty [auth-token], which decodes, whose
    signature is the MAC of its signing input under the configured
    secret with a symmetric algorithm, and whose expiry, if it has one,
    is after the clock.  The payload is that of the token;
    [getUserFromToken] returns it in the same case, and
    [getUserIdFromToken], which verifies with the same library, returns
    its [userId] in the same case. *)
Theorem X3_session_read_iff_carried :
  forall TextEncoder_encode hmac decode env request now_ms,
    (forall p,
        Jwt.getToken TextEncoder_encode hmac decode env request now_ms = Return (Some p)
        <-> AuthLib.carries_session TextEncoder_encode hmac decode env request now_ms p)
    /\ (forall p,
          AuthLib.getUserFromToken TextEncoder_encode hmac decode env request now_ms
          = Return (Some p)
          <-> AuthLib.carries_session TextEncoder_encode hmac decode env request now_ms p)
    /\ (forall u,
          Jwt.getUserIdFromToken TextEncoder_encode hmac decode env request now_ms
          = Return (Some u)
          <-> exists p,
                AuthLib.carries_session TextEncoder_encode hmac decode env request now_ms p
                /\ Jwt.userId (Jwt.claims p) = u).
Proof.
  intros TE hmac decode env request now_ms.
  split; [intros p; apply AuthLibFacts.getToken_returns_iff|].
  split; [intros p; apply AuthLibFacts.getToken_returns_iff|].
  intros u. rewrite AuthLibFacts.getUserIdFromToken_of_getToken. split.
  - destruct (Jwt.getToken TE hmac decode env request now_ms) as [[p|]|] eqn:Hg;
      simpl; try discriminate.
    intros [= <-]. exists p. split; [|reflexivity].
    now apply AuthLibFacts.getToken_returns_iff.
  - intros (p & Hp & <-). apply AuthLibFacts.getToken_returns_iff in Hp.
    now rewrite Hp.
Qed.

(** ** The gatekeeper, case by case *)

Module GatekeeperFacts.
Import JsString Middleware MiddlewareFacts.

Section Gatekeeper.
Variable TextEncoder_encode : string -> list Byte.byte.
Variable hmac : string -> list Byte.byte -> string -> string.
Variable decode : string -> option Jwt.Decoded.
Variable env : ProcessEnv.

(** Every run of [middleware] is one of five. *)
Lemma middleware_cases request now_ms :
  (isProtectedRoute protectedRoutes (pathname request) = false
   /\ middleware TextEncoder_encode hmac decode env request now_ms
      = Return NextResponse_next)
  \/ (isProtectedRoute protectedRoutes (pathname request) = true
      /\ truthy (cookies request !! "auth-token") = false
      /\ middleware TextEncoder_encode hmac decode env request now_ms
         = Return (NextResponse_redirect
                     {| origin := request_origin request; url_pathname := "/login";
                        searchParams := [("redirect", pathname request)] |}))
  \/ (exists token error,
        isProtectedRoute protectedRoutes (pathname request) = true
        /\ cookies request !! "auth-token" = Some token /\ token <> ""
        /\ Jwt.jose_jwtVerify hmac decode token (TextEncoder_encode (JWT_SECRET env))
             now_ms = Throw error
        /\ middleware TextEncoder_encode hmac decode env request now_ms
           = Return {| action := Redirect {| origin := request_origin request;
                                             url_pathname := "/login";
                                             searchParams := [] |};
                       response_headers := ∅;
                       deleted_cookies := ["auth-token"] |})
  \/ (exists token payload user_id user_email,
        isProtectedRoute protectedRoutes (pathname request) = true
        /\ cookies request !! "auth-token" = Some token /\ token <> ""
        /\ Jwt.jose_jwtVerify hmac decode token (TextEncoder_encode (JWT_SECRET env))
             now_ms = Return payload
        /\ header_value (Jwt.userId (Jwt.claims payload)) = Some user_id
        /\ header_value (Jwt.email (Jwt.claims payload)) = Some user_email
        /\ middleware TextEncoder_encode hmac decode env request now_ms
           = Return {| action := Next;
                       response_headers :=
                         <["x-user-email" := user_email]> (<["x-user-id" := user_id]> ∅);
                       deleted_cookies := [] |})
  \/ (exists token payload,
        isProtectedRoute protectedRoutes (pathname request) = true
        /\ cookies request !! "auth-token" = Some token /\ token <> ""
        /\ Jwt.jose_jwtVerify hmac decode token (TextEncoder_encode (JWT_SECRET env))
             now_ms = Return payload
        /\ (header_value (Jwt.userId (Jwt.claims payload)) = None
            \/ header_value (Jwt.email (Jwt.claims payload)) = None)
        /\ middleware TextEncoder_encode hmac decode env request now_ms
           = Return {| action := Redirect {| origin := request_origin request;
                                             url_pathname := "/login";
                                             searchParams := [] |};
                       response_headers := ∅;
                       deleted_cookies := ["auth-token"] |}).
Proof.
  unfold middleware.
  destruct (isProtectedRoute protectedRoutes (pathname request)) eqn:Hprot.
  2:{ left. split; [reflexivity|].
      destruct (isPublicRoute publicRoutes (pathname request)) eqn:Hpub.
      - now apply middleware_public.
      - now apply middleware_unlisted. }
  pose proof (protected_not_public _ Hprot) as Hpub.
  right.
  destruct (cookies request !! "auth-token") as [token|] eqn:Hc.
  2:{ left. repeat split. apply middleware_no_token; try assumption. now rewrite Hc. }
  destruct (String.eqb_spec token "") as [->|Hne].
  { left. repeat split. apply middleware_no_token; try assumption. now rewrite Hc. }
  right.
  destruct (Jwt.jose_jwtVerify hmac decode token (TextEncoder_encode (JWT_SECRET env))
              now_ms) as [payload|error] eqn:Hv.
  2:{ left. exists token, error. repeat split; try assumption.
      now apply (middleware_rejected _ _ _ _ _ _ _ _ token error). }
  right.
  destruct (header_value (Jwt.userId (Jwt.claims payload))) as [a|] eqn:Ha.
  - destruct (header_value (Jwt.email (Jwt.claims payload))) as [b|] eqn:Hb.
    + left. exists token, payload, a, b.
      do 6 (split; [first [reflexivity | assumption]|]).
      now apply (middleware_verified_accepted _ _ _ _ _ _ _ _ token payload).
    + right. exists token, payload.
      do 4 (split; [first [reflexivity | assumption]|]). split; [now right|].
      apply (middleware_verified_refused _ _ _ _ _ _ _ _ token payload); auto.
  - right. exists token, payload.
    do 4 (split; [first [reflexivity | assumption]|]). split; [now left|].
    apply (middleware_verified_refused _ _ _ _ _ _ _ _ token payload); auto.
Qed.

End Gatekeeper.
End GatekeeperFacts.

(** X4.  Where the gatekeeper can send a request.  [middleware] never
    throws: it answers every request, and its answer either lets the
    request through or redirects to the path [/login] on the origin of
    the request itself, with no query parameter or with the single
    parameter [redirect] holding the requested path. *)
Theorem X4_middleware_redirects_to_own_login :
  forall TextEncoder_encode hmac decode env request now_ms,
    exists response,
      Middleware.middleware TextEncoder_encode hmac decode env request now_ms
      = Return response
      /\ (Middleware.action response = Middleware.Next
          \/ exists target,
               Middleware.action response = Middleware.Redirect target
               /\ Middleware.origin target = Middleware.request_origin request
               /\ Middleware.url_pathname target = "/login"
               /\ (Middleware.searchParams target = []
                   \/ Middleware.searchParams target
                      = [("redirect", Middleware.pathname request)])).
Proof.
  intros TE hmac decode env request now_ms.
  destruct (GatekeeperFacts.middleware_cases TE hmac decode env request now_ms)
    as [[_ ->] | [(_ & _ & ->) | [(t & e & _ & _ & _ & _ & ->)
                 | [(t & p & a & b & _ & _ & _ & _ & _ & _ & ->)
                   | (t & p & _ & _ & _ & _ & _ & ->)]]]];
    eexists; (split; [reflexivity|]); simpl; eauto 10.
Qed.

(** X5.  Identity headers only after verification.  Whatever header the
    answer of [middleware] carries, it is [x-user-id] or [x-user-email],
    the path is protected, the request is let through, and it holds a
    non-empty [auth-token] cookie that jose verified under the
    configured secret; the value is what [headers.set] stores for the
    [userId], respectively the [email], of the verified payload: that
    value without the blanks around it, free of NUL, LF and CR. *)
Theorem X5_identity_headers_only_when_verified :
  forall TextEncoder_encode hmac decode env request now_ms,
    exists response,
      Middleware.middleware TextEncoder_encode hmac decode env request now_ms
      = Return response
      /\ forall name value,
           Middleware.response_headers response !! name = Some value ->
           exists token payload,
             Middleware.isProtectedRoute Middleware.protectedRoutes
               (Middleware.pathname request) = true
             /\ Middleware.cookies request !! "auth-token" = Some token
             /\ token <> ""
             /\ Jwt.jose_jwtVerify hmac decode token
                  (TextEncoder_encode (JWT_SECRET env)) now_ms = Return payload
             /\ Middleware.action response = Middleware.Next
             /\ Middleware.is_header_value value = true
             /\ ((name = "x-user-id"
                  /\ value = Middleware.normalize (Jwt.userId (Jwt.claims payload)))
                 \/ (name = "x-user-email"
                     /\ value = Middleware.normalize (Jwt.email (Jwt.claims payload)))).
Proof.
  intros TE hmac decode env request now_ms.
  destruct (GatekeeperFacts.middleware_cases TE hmac decode env request now_ms)
    as [[_ ->] | [(_ & _ & ->) | [(t & e & _ & _ & _ & _ & ->)
                 | [(t & p & a & b & Hprot & Hc & Hne & Hv & Ha & Hb & ->)
                   | (t & p & _ & _ & _ & _ & _ & ->)]]]];
    eexists; (split; [reflexivity|]); simpl; intros name value Hl;
    try (rewrite lookup_empty in Hl; discriminate).
  assert (Hstored : forall v w, Middleware.header_value v = Some w ->
                      Middleware.is_header_value w = true /\ w = Middleware.normalize v).
  { intros v w. unfold Middleware.header_value.
    destruct (Middleware.is_header_value (Middleware.normalize v)) eqn:E; [|discriminate].
    intros [= <-]. now split. }
  exists t, p. repeat (split; [assumption || reflexivity|]).
  destruct (decide (name = "x-user-email")) as [->|Hn1].
  - rewrite lookup_insert_eq in Hl. injection Hl as <-.
    destruct (Hstored _ _ Hb) as [H1 H2]. split; [exact H1|]. right. now split.
  - rewrite lookup_insert_ne in Hl by congruence.
    destruct (decide (name = "x-user-id")) as [->|Hn2].
    + rewrite lookup_insert_eq in Hl. injection Hl as <-.
      destruct (Hstored _ _ Ha) as [H1 H2]. split; [exact H1|]. left. now split.
    + rewrite lookup_insert_ne in Hl by congruence.
      rewrite lookup_empty in Hl. discriminate.
Qed.

(** X6.  When the session cookie is cleared.  The answer of [middleware]
    deletes no cookie or only [auth-token], and it deletes [auth-token]
    exactly when the path is protected and the request holds a non-empty
    [auth-token] cookie that jose refuses, or that jose verifies with a
    [userId] or an [email] that [headers.set] refuses.  A cookie with
    the empty value is treated as a missing one: the request is
    redirected with its path in [redirect] and nothing is deleted. *)
Theorem X6_cookie_cleared_iff_token_refused :
  forall TextEncoder_encode hmac decode env request now_ms,
    exists response,
      Middleware.middleware TextEncoder_encode hmac decode env request now_ms
      = Return response
      /\ (Middleware.deleted_cookies response = []
          \/ Middleware.deleted_cookies response = ["auth-token"])
      /\ (Middleware.deleted_cookies response = ["auth-token"] <->
          Middleware.isProtectedRoute Middleware.protectedRoutes
            (Middleware.pathname request) = true
          /\ exists token,
               Middleware.cookies request !! "auth-token" = Some token
               /\ token <> ""
               /\ ((exists error,
                      Jwt.jose_jwtVerify hmac decode token
                        (TextEncoder_encode (JWT_SECRET env)) now_ms = Throw error)
                   \/ (exists payload,
                         Jwt.jose_jwtVerify hmac decode token
                           (TextEncoder_encode (JWT_SECRET env)) now_ms = Return payload
                         /\ (Middleware.header_value (Jwt.userId (Jwt.claims payload)) = None
                             \/ Middleware.header_value (Jwt.email (Jwt.claims payload))
                                = None))))
      /\ (Middleware.isProtectedRoute Middleware.protectedRoutes
            (Middleware.pathname request) = true ->
          Middleware.cookies request !! "auth-token" = Some "" ->
          response = Middleware.NextResponse_redirect
                       {| Middleware.origin := Middleware.request_origin request;
                          Middleware.url_pathname := "/login";
                          Middleware.searchParams :=
                            [("redirect", Middleware.pathname request)] |}).
Proof.
  intros TE hmac decode env request now_ms.
  destruct (GatekeeperFacts.middleware_cases TE hmac decode env request now_ms)
    as [[Hprot ->] | [(Hprot & Hc & ->) | [(t & e & Hprot & Hc & Hne & Hv & ->)
                 | [(t & p & a & b & Hprot & Hc & Hne & Hv & Ha & Hb & ->)
                   | (t & p & Hprot & Hc & Hne & Hv & Hbad & ->)]]]];
    eexists; (split; [reflexivity|]);
    cbn [Middleware.deleted_cookies Middleware.NextResponse_next
         Middleware.NextResponse_redirect].
  - split; [now left|]. split.
    + split; [discriminate|]. intros [H _]. congruence.
    + intros H. congruence.
  - split; [now left|]. split; [|reflexivity].
    split; [discriminate|].
    intros (_ & t & Ht & Hne & _). rewrite Ht in Hc. simpl in Hc.
    now destruct (String.eqb_spec t "").
  - split; [now right|]. split.
    + split; [|reflexivity]. intros _. split; [assumption|].
      exists t. split; [assumption|]. split; [assumption|]. left. now exists e.
    + intros _ Hempty. congruence.
  - split; [now left|]. split.
    + split; [discriminate|].
      intros (_ & t' & Ht & _ & [[e He] | (p' & Hp' & Hbad)]).
      * congruence.
      * assert (p' = p) as -> by congruence.
        destruct Hbad as [Hbad | Hbad]; congruence.
    + intros _ Hempty. congruence.
  - split; [now right|]. split.
    + split; [|reflexivity]. intros _. split; [assumption|].
      exists t. split; [assumption|]. split; [assumption|]. right. now exists p.
    + intros _ Hempty. congruence.
Qed.

(** X7.  The gatekeeper and the extractors agree.  Take a request to a
    protected path for which the framework's [auth-token] cookie is the
    value the extractors' own parser reads from the cookie header.  Then
    [middleware] lets the request through with [x-user-id] and
    [x-user-email] exactly when [getToken] returns a payload whose
    [userId] and [email] [headers.set] stores as those two values; and
    whenever [middleware] lets the request through,
    [getUserIdFromToken] returns a user id, the one whose stored form
    is in [x-user-id].  A request for which [getUserIdFromToken] returns
    [null] is not let through. *)
Theorem X7_gatekeeper_agrees_with_extractor :
  forall TextEncoder_encode hmac decode env request api_request now_ms cookieHeader,
    headers_get api_request "cookie" = Some cookieHeader ->
    Middleware.cookies request !! "auth-token" = CookieHeader.authToken cookieHeader ->
    Middleware.isProtectedRoute Middleware.protectedRoutes (Middleware.pathname request)
    = true ->
    (forall user_id user_email,
        (exists response,
           Middleware.middleware TextEncoder_encode hmac decode env request now_ms
           = Return response
           /\ Middleware.action response = Middleware.Next
           /\ Middleware.response_headers response !! "x-user-id" = Some user_id
           /\ Middleware.response_headers response !! "x-user-email" = Some user_email)
        <-> exists p,
              Jwt.getToken TextEncoder_encode hmac decode env api_request now_ms
              = Return (Some p)
              /\ Middleware.header_value (Jwt.userId (Jwt.claims p)) = Some user_id
              /\ Middleware.header_value (Jwt.email (Jwt.claims p)) = Some user_email)
    /\ (Middleware.allowed
          (Middleware.middleware TextEncoder_encode hmac decode env request now_ms) = true ->
        exists u response,
          Jwt.getUserIdFromToken TextEncoder_encode hmac decode env api_request now_ms
          = Return (Some u)
          /\ Middleware.middleware TextEncoder_encode hmac decode env request now_ms
             = Return response
          /\ Middleware.response_headers response !! "x-user-id"
             = Middleware.header_value u)
    /\ (Jwt.getUserIdFromToken TextEncoder_encode hmac decode env api_request now_ms
        = Return None ->
        Middleware.allowed
          (Middleware.middleware TextEncoder_encode hmac decode env request now_ms) = false).
Proof.
  intros TE hmac decode env request api_request now_ms h Hh Hsame Hprot.
  rewrite JwtFacts.getUserIdFromToken_eq, JwtFacts.getToken_eq.
  unfold Jwt.located. rewrite Hh, <- Hsame.
  destruct (GatekeeperFacts.middleware_cases TE hmac decode env request now_ms)
    as [[Hnp _] | [(_ & Hc & ->) | [(t & e & _ & Hc & Hne & Hv & ->)
                 | [(t & p & a & b & _ & Hc & Hne & Hv & Ha & Hb & ->)
                   | (t & p & _ & Hc & Hne & Hv & Hbad & ->)]]]].
  - congruence.
  - assert (Hnone : match Middleware.cookies request !! "auth-token" with
                    | Some token => if String.eqb token "" then None else Some token
                    | None => None
                    end = None).
    { destruct (Middleware.cookies request !! "auth-token") as [t|]; [|reflexivity].
      simpl in Hc. now destruct (String.eqb t ""). }
    rewrite Hnone. split; [|split].
    + intros a b. split.
      * intros (r & [= <-] & Hact & _). discriminate.
      * intros (p & Hp & _). discriminate.
    + discriminate.
    + reflexivity.
  - rewrite Hc. destruct (String.eqb_spec t ""); [contradiction|].
    rewrite Hv. simpl. split; [|split].
    + intros a b. split.
      * intros (r & [= <-] & Hact & _). discriminate.
      * intros (p & Hp & _). discriminate.
    + discriminate.
    + reflexivity.
  - rewrite Hc. destruct (String.eqb_spec t ""); [contradiction|].
    rewrite Hv. simpl. split; [|split].
    + intros a' b'. split.
      * intros (r & [= <-] & _ & Hl1 & Hl2). simpl in Hl1, Hl2.
        rewrite lookup_insert_ne in Hl1 by discriminate.
        rewrite lookup_insert_eq in Hl1, Hl2.
        exists p. split; [reflexivity|]. split; congruence.
      * intros (p' & [= <-] & Ha' & Hb').
        assert (a' = a) as -> by congruence. assert (b' = b) as -> by congruence.
        eexists. split; [reflexivity|]. split; [reflexivity|]. simpl.
        split; [|apply lookup_insert_eq].
        rewrite lookup_insert_ne by discriminate. apply lookup_insert_eq.
    + intros _. do 2 eexists. split; [reflexivity|]. split; [reflexivity|]. simpl.
      rewrite lookup_insert_ne by discriminate. rewrite lookup_insert_eq. now rewrite Ha.
    + discriminate.
  - rewrite Hc. destruct (String.eqb_spec t ""); [contradiction|].
    rewrite Hv. simpl. split; [|split].
    + intros a b. split.
      * intros (r & [= <-] & Hact & _). discriminate.
      * intros (p' & [= <-] & Ha & Hb). destruct Hbad as [Hbad|Hbad]; congruence.
    + discriminate.
    + discriminate.
Qed.

Lemma X7_gatekeeper_agrees_witness :
  exists response,
    Middleware.middleware Toy.TextEncoder_encode Toy.hmac Toy.decode Toy.env
      (Sample.to_path "/dashboard/board"
         (Some (Jwt.createToken Toy.TextEncoder_encode Toy.hmac Toy.encodeSigningInput
                  Toy.env Toy.padded 0))) 1000
    = Return response
    /\ Middleware.action response = Middleware.Next
    /\ Middleware.response_headers response !! "x-user-id" = Some "u1"
    /\ Middleware.response_headers response !! "x-user-email" = Some "padded@example.com".
Proof.
  apply (proj2 (proj1 (X7_gatekeeper_agrees_with_extractor Toy.TextEncoder_encode Toy.hmac
                  Toy.decode Toy.env
                  (Sample.to_path "/dashboard/board"
                     (Some (Jwt.createToken Toy.TextEncoder_encode Toy.hmac
                              Toy.encodeSigningInput Toy.env Toy.padded 0)))
                  (Jwt.request_with_cookie
                     ("theme=dark; auth-token="
                      ++ Jwt.createToken Toy.TextEncoder_encode Toy.hmac
                           Toy.encodeSigningInput Toy.env Toy.padded 0)) 1000
                  ("theme=dark; auth-token="
                   ++ Jwt.createToken Toy.TextEncoder_encode Toy.hmac
                        Toy.encodeSigningInput Toy.env Toy.padded 0)
                  eq_refl ltac:(vm_compute; reflexivity) eq_refl)
                 "u1" "padded@example.com")).
  exists (Jwt.issued_payload Toy.padded 0).
  split; [vm_compute; reflexivity|]. split; vm_compute; reflexivity.
Defined.


(** ** The handlers, case by case *)

Module HandlerFacts.
Import Api ApiInvariants.

Lemma error_response_400 error :
  status (error_response error) = 400 <-> exists errors, error = ZodError errors.
Proof.
  split.
  - destruct error; simpl; try discriminate. eauto.
  - now intros [errors ->].
Qed.

Lemma error_response_statuses error :
  (status (error_response error) = 400 /\ exists errors, error = ZodError errors)
  \/ (status (error_response error) = 500 /\ forall errors, error <> ZodError errors).
Proof. destruct error; simpl; try (right; split; [reflexivity | discriminate]). left. eauto. Qed.

Lemma error_response_no_cookie error : set_cookies (error_response error) = [].
Proof. now destruct error. Qed.

Lemma find_app_miss {A} (p : A -> bool) l x :
  find p l = None -> find p (l ++ [x]) = if p x then Some x else None.
Proof.
  induction l as [|a l IH]; simpl; [reflexivity|].
  destruct (p a); [discriminate | exact IH].
Qed.

Lemma find_none_all {A} (p : A -> bool) l :
  (forall x, In x l -> p x = false) -> find p l = None.
Proof.
  induction l as [|a l IH]; simpl; intros H; [reflexivity|].
  rewrite (H a) by now left. apply IH. intros x Hx. apply H. now right.
Qed.

Section Handlers.
Variable TextEncoder_encode : string -> list Byte.byte.
Variable hmac : string -> list Byte.byte -> string -> string.
Variable encodeSigningInput : string -> Jwt.JWTPayload -> string.
Variable loginSchema_parse : Json -> Completion JsError (string * string).
Variable registerSchema_parse : Json -> Completion JsError (string * string * string).
Variable toLowerCase toUpperCase : string -> string.
Variable bcrypt_compare : string -> string -> bool.
Variable bcrypt_hash : string -> Z -> string.
Variable bcrypt_genSaltSync : Z -> string.
Variable env : ProcessEnv.

(** Every run of the login handler is one of four. *)
Lemma login_cases db request now_ms :
  (json_body request = None
   /\ login_POST TextEncoder_encode hmac encodeSigningInput loginSchema_parse toLowerCase
        bcrypt_compare env db request now_ms = Return (error_response SyntaxError))
  \/ (exists body0 error,
        json_body request = Some body0 /\ loginSchema_parse body0 = Throw error
        /\ login_POST TextEncoder_encode hmac encodeSigningInput loginSchema_parse
             toLowerCase bcrypt_compare env db request now_ms
           = Return (error_response error))
  \/ (exists body0 email_in password,
        json_body request = Some body0
        /\ loginSchema_parse body0 = Return (email_in, password)
        /\ BadCredentials toLowerCase bcrypt_compare db email_in password
        /\ login_POST TextEncoder_encode hmac encodeSigningInput loginSchema_parse
             toLowerCase bcrypt_compare env db request now_ms = Return login_refused)
  \/ (exists body0 email_in password user,
        json_body request = Some body0
        /\ loginSchema_parse body0 = Return (email_in, password)
        /\ GoodCredentials toLowerCase bcrypt_compare db email_in password user
        /\ login_POST TextEncoder_encode hmac encodeSigningInput loginSchema_parse
             toLowerCase bcrypt_compare env db request now_ms
           = Return (login_success TextEncoder_encode hmac encodeSigningInput env
                       user now_ms)).
Proof.
  destruct (json_body request) as [body0|] eqn:Hbody.
  2:{ left. split; [reflexivity|]. unfold login_POST, request_json. now rewrite Hbody. }
  right.
  destruct (loginSchema_parse body0) as [[email_in password]|error] eqn:Hparse.
  2:{ left. exists body0, error. repeat split; try assumption.
      unfold login_POST, request_json. rewrite Hbody. simpl. now rewrite Hparse. }
  right.
  rewrite (ApiFacts.login_validated _ _ _ _ _ _ _ _ _ _ _ _ _ Hbody Hparse).
  destruct (user_findUnique db (toLowerCase email_in)) as [[user [a|]]|] eqn:Hfind.
  - destruct (bcrypt_compare password (default "" (passwordHash a))) eqn:Hcmp.
    + right. exists body0, email_in, password, user.
      repeat split; try assumption. now exists a.
    + left. exists body0, email_in, password. repeat split; try assumption.
      now apply (wrong_password _ _ _ _ _ user a).
  - left. exists body0, email_in, password. repeat split; try assumption.
    now apply (no_credential_record _ _ _ _ _ user).
  - left. exists body0, email_in, password. repeat split; try assumption.
    now apply unknown_email.
Qed.

(** Bad and good credentials exclude each other. *)
Lemma bad_not_good db email_in password user :
  BadCredentials toLowerCase bcrypt_compare db email_in password ->
  GoodCredentials toLowerCase bcrypt_compare db email_in password user -> False.
Proof.
  intros Hbad (a & Hfind & Hcmp).
  destruct Hbad as [H | u H | u a' H Hc]; rewrite H in Hfind; try discriminate.
  injection Hfind as -> ->. congruence.
Qed.

End Handlers.
End HandlerFacts.

(** X8.  A login succeeds only on verified credentials.  The login
    handler always answers.  Its status is 200 exactly when the body is
    JSON, passes the schema, the lower-cased e-mail is of a user with a
    credential record and [bcrypt.compare] accepts the password against
    the stored hash; then the answer is the success response of that
    user.  A cookie is set exactly when the status is 200. *)
Theorem X8_login_200_iff_credentials_verified :
  forall TextEncoder_encode hmac encodeSigningInput loginSchema_parse toLowerCase
         bcrypt_compare env db request now_ms,
    exists response,
      Api.login_POST TextEncoder_encode hmac encodeSigningInput loginSchema_parse
        toLowerCase bcrypt_compare env db request now_ms = Return response
      /\ (Api.status response = 200 <->
          exists body0 email_in password user,
            Api.json_body request = Some body0
            /\ loginSchema_parse body0 = Return (email_in, password)
            /\ Api.GoodCredentials toLowerCase bcrypt_compare db email_in password user
            /\ response = ApiInvariants.login_success TextEncoder_encode hmac
                            encodeSigningInput env user now_ms)
      /\ (Api.set_cookies response <> [] <-> Api.status response = 200).
Proof.
  intros TE hmac enc parse lower compare env db request now_ms.
  destruct (HandlerFacts.login_cases TE hmac enc parse lower compare env db request now_ms)
    as [[Hbody ->]
       | [(b & e & Hbody & Hparse & ->)
         | [(b & em & pw & Hbody & Hparse & Hbad & ->)
           | (b & em & pw & u & Hbody & Hparse & Hgood & ->)]]];
    eexists; (split; [reflexivity|]).
  - split; [|split; [intros H; now elim H | discriminate]].
    split; [discriminate|]. intros (b & ? & ? & ? & Hb & _). congruence.
  - split.
    + split.
      * intros H.
        destruct (HandlerFacts.error_response_statuses e) as [[Hs _]|[Hs _]];
          rewrite Hs in H; discriminate.
      * intros (b' & ? & ? & ? & Hb & Hp & _). congruence.
    + rewrite HandlerFacts.error_response_no_cookie. split; [intros H; now elim H|].
      intros H.
      destruct (HandlerFacts.error_response_statuses e) as [[Hs _]|[Hs _]];
        rewrite Hs in H; discriminate.
  - split; [|split; [intros H; now elim H | discriminate]].
    split; [discriminate|].
    intros (b' & em' & pw' & u & Hb & Hp & Hgood & _).
    assert (b' = b) as -> by congruence.
    assert (em' = em /\ pw' = pw) as [-> ->] by (split; congruence).
    exfalso. exact (HandlerFacts.bad_not_good _ _ _ _ _ _ Hbad Hgood).
  - split; [|split; [reflexivity | discriminate]].
    split; [|reflexivity]. intros _. now exists b, em, pw, u.
Qed.

(** X9.  The error statuses of a login.  The handler answers 500 exactly
    when the body is not JSON or the schema fails with something other
    than a validation error; 400 exactly when the schema reports a
    validation error, whose issues are the [details] of the body; 401
    exactly when the request passes the schema and the credentials are
    bad.  None of these answers sets a cookie. *)
Theorem X9_login_error_statuses :
  forall TextEncoder_encode hmac encodeSigningInput loginSchema_parse toLowerCase
         bcrypt_compare env db request now_ms,
    exists response,
      Api.login_POST TextEncoder_encode hmac encodeSigningInput loginSchema_parse
        toLowerCase bcrypt_compare env db request now_ms = Return response
      /\ (Api.status response = 500 <->
          Api.json_body request = None
          \/ exists body0 error,
               Api.json_body request = Some body0
               /\ loginSchema_parse body0 = Throw error
               /\ forall errors, error <> ZodError errors)
      /\ (Api.status response = 400 <->
          exists body0 errors,
            Api.json_body request = Some body0
            /\ loginSchema_parse body0 = Throw (ZodError errors)
            /\ Api.body response
               = JObj [("error", JStr "Validation failed"); ("details", errors)])
      /\ (Api.status response = 401 <->
          exists body0 email_in password,
            Api.json_body request = Some body0
            /\ loginSchema_parse body0 = Return (email_in, password)
            /\ Api.BadCredentials toLowerCase bcrypt_compare db email_in password)
      /\ (Api.status response <> 200 -> Api.set_cookies response = []).
Proof.
  intros TE hmac enc parse lower compare env db request now_ms.
  destruct (HandlerFacts.login_cases TE hmac enc parse lower compare env db request now_ms)
    as [[Hbody ->]
       | [(b & e & Hbody & Hparse & ->)
         | [(b & em & pw & Hbody & Hparse & Hbad & ->)
           | (b & em & pw & u & Hbody & Hparse & Hgood & ->)]]];
    eexists; (split; [reflexivity|]).
  - split; [split; [now left | reflexivity]|].
    split; [split; [discriminate | intros (? & ? & ? & _); congruence]|].
    split; [split; [discriminate | intros (? & ? & ? & ? & _); congruence]|].
    reflexivity.
  - destruct (HandlerFacts.error_response_statuses e) as [[Hs [errs ->]]|[Hs Hnz]].
    + split; [split; [discriminate|]|].
      { intros [H | (b' & e' & Hb & Hp & Hnz)]; [congruence|].
        assert (e' = ZodError errs) by congruence. now elim (Hnz errs). }
      split; [split; [|reflexivity]|].
      { intros _. now exists b, errs. }
      split; [split; [discriminate | intros (? & ? & ? & ? & ? & _); congruence]|].
      reflexivity.
    + rewrite Hs.
      split; [split; [|reflexivity]|].
      { intros _. right. now exists b, e. }
      split; [split; [discriminate|]|].
      { intros (b' & errs & Hb & Hp & _).
        assert (e = ZodError errs) by congruence. now elim (Hnz errs). }
      split; [split; [discriminate | intros (? & ? & ? & ? & ? & _); congruence]|].
      intros _. apply HandlerFacts.error_response_no_cookie.
  - split; [split; [discriminate|]|].
    { intros [H | (b' & e' & Hb & Hp & _)]; congruence. }
    split; [split; [discriminate | intros (? & ? & ? & ? & _); congruence]|].
    split; [split; [|reflexivity]|].
    { intros _. now exists b, em, pw. }
    reflexivity.
  - split; [split; [discriminate|]|].
    { intros [H | (b' & e' & Hb & Hp & _)]; congruence. }
    split; [split; [discriminate | intros (? & ? & ? & ? & _); congruence]|].
    split; [split; [discriminate|]|].
    { intros (b' & em' & pw' & Hb & Hp & Hbad).
      assert (b' = b) as -> by congruence.
      assert (em' = em /\ pw' = pw) as [-> ->] by (split; congruence).
      exfalso. exact (HandlerFacts.bad_not_good _ _ _ _ _ _ Hbad Hgood). }
    intros H. now elim H.
Qed.

Module RegisterFacts.
Import Api ApiInvariants HandlerFacts.

Section Handlers.
Variable registerSchema_parse : Json -> Completion JsError (string * string * string).
Variable toLowerCase toUpperCase : string -> string.
Variable bcrypt_hash : string -> Z -> string.
Variable bcrypt_genSaltSync : Z -> string.

(** The registration handler on a request that passed validation. *)
Lemma register_validated db request fresh_id now_ms body0 fullName email_in password :
  json_body request = Some body0 ->
  registerSchema_parse body0 = Return (fullName, email_in, password) ->
  register_POST registerSchema_parse toLowerCase toUpperCase bcrypt_hash
    bcrypt_genSaltSync db request fresh_id now_ms
  = match user_findUnique db (toLowerCase email_in) with
    | Some _ => Return (register_conflict, db)
    | None =>
        Return (register_success
                  (registered_user toLowerCase fresh_id fullName email_in now_ms),
                {| users := users db
                            ++ [registered_user toLowerCase fresh_id fullName email_in
                                  now_ms];
                   aspNetUsers := aspNetUsers db
                                  ++ [registered_credentials toLowerCase toUpperCase
                                        fresh_id email_in (bcrypt_hash password 12)
                                        (bcrypt_genSaltSync 8)] |})
    end.
Proof.
  intros Hbody Hparse. unfold register_POST, request_json. rewrite Hbody. simpl.
  rewrite Hparse. simpl.
  now destruct (user_findUnique db (toLowerCase email_in)).
Qed.

(** Every run of the registration handler is one of four. *)
Lemma register_cases db request fresh_id now_ms :
  (json_body request = None
   /\ register_POST registerSchema_parse toLowerCase toUpperCase bcrypt_hash
        bcrypt_genSaltSync db request fresh_id now_ms
      = Return (error_response SyntaxError, db))
  \/ (exists body0 error,
        json_body request = Some body0 /\ registerSchema_parse body0 = Throw error
        /\ register_POST registerSchema_parse toLowerCase toUpperCase bcrypt_hash
             bcrypt_genSaltSync db request fresh_id now_ms
           = Return (error_response error, db))
  \/ (exists body0 fullName email_in password existing,
        json_body request = Some body0
        /\ registerSchema_parse body0 = Return (fullName, email_in, password)
        /\ user_findUnique db (toLowerCase email_in) = Some existing
        /\ register_POST registerSchema_parse toLowerCase toUpperCase bcrypt_hash
             bcrypt_genSaltSync db request fresh_id now_ms
           = Return (register_conflict, db))
  \/ (exists body0 fullName email_in password,
        json_body request = Some body0
        /\ registerSchema_parse body0 = Return (fullName, email_in, password)
        /\ user_findUnique db (toLowerCase email_in) = None
        /\ register_POST registerSchema_parse toLowerCase toUpperCase bcrypt_hash
             bcrypt_genSaltSync db request fresh_id now_ms
           = Return (register_success
                       (registered_user toLowerCase fresh_id fullName email_in now_ms),
                     {| users := users db
                                 ++ [registered_user toLowerCase fresh_id fullName
                                       email_in now_ms];
                        aspNetUsers := aspNetUsers db
                                       ++ [registered_credentials toLowerCase toUpperCase
                                             fresh_id email_in (bcrypt_hash password 12)
                                             (bcrypt_genSaltSync 8)] |})).
Proof.
  destruct (json_body request) as [body0|] eqn:Hbody.
  2:{ left. split; [reflexivity|]. unfold register_POST, request_json. now rewrite Hbody. }
  right.
  destruct (registerSchema_parse body0) as [[[fullName email_in] password]|error]
    eqn:Hparse.
  2:{ left. exists body0, error. repeat split; try assumption.
      unfold register_POST, request_json. rewrite Hbody. simpl. now rewrite Hparse. }
  right. rewrite (register_validated _ _ _ _ _ _ _ _ Hbody Hparse).
  destruct (user_findUnique db (toLowerCase email_in)) as [existing|] eqn:Hfind.
  - left. exists body0, fullName, email_in, password, existing. now repeat split.
  - right. exists body0, fullName, email_in, password. now repeat split.
Qed.

(** After a registration the address finds the new user and the
    credential record made for it. *)
Lemma findUnique_after_register db fresh_id fullName email_in now_ms hash stamp :
  user_findUnique db (toLowerCase email_in) = None ->
  (forall a, In a (aspNetUsers db) -> asp_id a <> fresh_id) ->
  user_findUnique
    {| users := users db
                ++ [registered_user toLowerCase fresh_id fullName email_in now_ms];
       aspNetUsers := aspNetUsers db
                      ++ [registered_credentials toLowerCase toUpperCase fresh_id
                            email_in hash stamp] |}
    (toLowerCase email_in)
  = Some (registered_user toLowerCase fresh_id fullName email_in now_ms,
          Some (registered_credentials toLowerCase toUpperCase fresh_id email_in
                  hash stamp)).
Proof.
  intros Hnone Hfresh. unfold user_findUnique in *. simpl.
  destruct (find _ (users db)) eqn:Hf; [discriminate|].
  rewrite (find_app_miss _ _ _ Hf). simpl. rewrite String.eqb_refl. simpl.
  rewrite find_app_miss.
  - simpl. now rewrite String.eqb_refl.
  - apply find_none_all. intros a Ha. apply String.eqb_neq. now apply Hfresh.
Qed.

Lemma findUnique_taken_after_register db fresh_id fullName email_in now_ms creds :
  user_findUnique db (toLowerCase email_in) = None ->
  exists found,
    user_findUnique
      {| users := users db
                  ++ [registered_user toLowerCase fresh_id fullName email_in now_ms];
         aspNetUsers := creds |}
      (toLowerCase email_in) = Some found.
Proof.
  intros Hnone. unfold user_findUnique in *. simpl.
  destruct (find _ (users db)) eqn:Hf; [discriminate|].
  rewrite (find_app_miss _ _ _ Hf). simpl. rewrite String.eqb_refl. eauto.
Qed.

End Handlers.
End RegisterFacts.

(** X10.  What a registration changes.  The registration handler always
    answers and never sets a cookie.  Its status is 201 exactly when the
    body is JSON, passes the schema and no user has the lower-cased
    address; then the database gains exactly one user row (the fresh id,
    the lower-cased address, the full name, the creation time) and one
    credential row of the same id holding the bcrypt hash of the
    password at cost 12 and a fresh stamp, with the e-mail unconfirmed,
    lockout enabled and no failed access.  With any other status the
    database is unchanged; the status is 409 exactly when the request
    passes the schema and the address is taken. *)
Theorem X10_register_adds_one_user_or_nothing :
  forall registerSchema_parse toLowerCase toUpperCase bcrypt_hash bcrypt_genSaltSync
         db request fresh_id now_ms,
    exists response db',
      Api.register_POST registerSchema_parse toLowerCase toUpperCase bcrypt_hash
        bcrypt_genSaltSync db request fresh_id now_ms = Return (response, db')
      /\ Api.set_cookies response = []
      /\ (Api.status response = 201 <->
          exists body0 fullName email_in password,
            Api.json_body request = Some body0
            /\ registerSchema_parse body0 = Return (fullName, email_in, password)
            /\ Api.user_findUnique db (toLowerCase email_in) = None
            /\ response = ApiInvariants.register_success
                            (ApiInvariants.registered_user toLowerCase fresh_id fullName
                               email_in now_ms)
            /\ db' = {| Api.users :=
                          Api.users db
                          ++ [ApiInvariants.registered_user toLowerCase fresh_id fullName
                                email_in now_ms];
                        Api.aspNetUsers :=
                          Api.aspNetUsers db
                          ++ [ApiInvariants.registered_credentials toLowerCase
                                toUpperCase fresh_id email_in (bcrypt_hash password 12)
                                (bcrypt_genSaltSync 8)] |})
      /\ (Api.status response <> 201 -> db' = db)
      /\ (Api.status response = 409 <->
          exists body0 fullName email_in password existing,
            Api.json_body request = Some body0
            /\ registerSchema_parse body0 = Return (fullName, email_in, password)
            /\ Api.user_findUnique db (toLowerCase email_in) = Some existing).
Proof.
  intros parse lower upper hash salt db request fresh_id now_ms.
  destruct (RegisterFacts.register_cases parse lower upper hash salt db request
              fresh_id now_ms)
    as [[Hbody ->]
       | [(b & e & Hbody & Hparse & ->)
         | [(b & n & em & pw & x & Hbody & Hparse & Hfind & ->)
           | (b & n & em & pw & Hbody & Hparse & Hfind & ->)]]];
    do 2 eexists; (split; [reflexivity|]).
  - split; [reflexivity|].
    split; [split; [discriminate | intros (? & ? & ? & ? & ? & _); congruence]|].
    split; [reflexivity|].
    split; [discriminate | intros (? & ? & ? & ? & ? & ? & _); congruence].
  - split; [apply HandlerFacts.error_response_no_cookie|].
    assert (Hst : Api.status (Api.error_response e) <> 201
                  /\ Api.status (Api.error_response e) <> 409).
    { destruct (HandlerFacts.error_response_statuses e) as [[-> _]|[-> _]];
        split; discriminate. }
    destruct Hst as [H201 H409].
    split; [split; [contradiction | intros (? & ? & ? & ? & ? & ? & _); congruence]|].
    split; [reflexivity|].
    split; [contradiction | intros (? & ? & ? & ? & ? & ? & ? & _); congruence].
  - split; [reflexivity|].
    split; [split; [discriminate|]|].
    { intros (b' & n' & em' & pw' & Hb & Hp & Hf & _).
      assert (b' = b) as -> by congruence.
      assert (em' = em) as -> by congruence. congruence. }
    split; [reflexivity|].
    split; [|reflexivity]. intros _. now exists b, n, em, pw, x.
  - split; [reflexivity|].
    split; [split; [|reflexivity]|].
    { intros _. now exists b, n, em, pw. }
    split; [intros H; now elim H|].
    split; [discriminate|].
    intros (b' & n' & em' & pw' & x & Hb & Hp & Hf).
    assert (b' = b) as -> by congruence.
    assert (em' = em) as -> by congruence. congruence.
Qed.

(** X11.  An address registers once.  After a registration that went
    through, a registration under any address with the same lower-case
    form is answered 409 and leaves the database as the first one left
    it, whatever the name, the password and the id offered. *)
Theorem X11_second_registration_conflicts :
  forall registerSchema_parse toLowerCase toUpperCase bcrypt_hash bcrypt_genSaltSync
         db first second id1 id2 t1 t2 body1 name1 email1 password1
         body2 name2 email2 password2,
    Api.json_body first = Some body1 ->
    registerSchema_parse body1 = Return (name1, email1, password1) ->
    Api.user_findUnique db (toLowerCase email1) = None ->
    Api.json_body second = Some body2 ->
    registerSchema_parse body2 = Return (name2, email2, password2) ->
    toLowerCase email2 = toLowerCase email1 ->
    exists response db1,
      Api.register_POST registerSchema_parse toLowerCase toUpperCase bcrypt_hash
        bcrypt_genSaltSync db first id1 t1 = Return (response, db1)
      /\ Api.status response = 201
      /\ Api.register_POST registerSchema_parse toLowerCase toUpperCase bcrypt_hash
           bcrypt_genSaltSync db1 second id2 t2
         = Return (ApiInvariants.register_conflict, db1).
Proof.
  intros parse lower upper hash salt db first second id1 id2 t1 t2
         b1 n1 e1 p1 b2 n2 e2 p2 Hb1 Hp1 Hfree Hb2 Hp2 Hsame.
  rewrite (RegisterFacts.register_validated _ _ _ _ _ _ _ _ _ _ _ _ _ Hb1 Hp1), Hfree.
  do 2 eexists. split; [reflexivity|]. split; [reflexivity|].
  rewrite (RegisterFacts.register_validated _ _ _ _ _ _ _ _ _ _ _ _ _ Hb2 Hp2), Hsame.
  destruct (RegisterFacts.findUnique_taken_after_register lower db id1 n1 e1 t1
              (Api.aspNetUsers db
               ++ [ApiInvariants.registered_credentials lower upper id1 e1 (hash p1 12)
                     (salt 8)]) Hfree) as [found ->].
  reflexivity.
Qed.

Lemma X11_second_registration_witness :
  exists response db1,
    Api.register_POST Sample.registerSchema_parse Sample.toLowerCase Sample.toUpperCase
      Sample.bcrypt_hash Sample.bcrypt_genSaltSync Sample.db
      (Sample.registration "Bob" "bob@example.com" "hunter22") "u2" 1700000000001
    = Return (response, db1)
    /\ Api.status response = 201
    /\ Api.register_POST Sample.registerSchema_parse Sample.toLowerCase
         Sample.toUpperCase Sample.bcrypt_hash Sample.bcrypt_genSaltSync db1
         (Sample.registration "Robert" "bob@example.com" "another1") "u3" 1700000000002
       = Return (ApiInvariants.register_conflict, db1).
Proof.
  apply (X11_second_registration_conflicts Sample.registerSchema_parse Sample.toLowerCase
           Sample.toUpperCase Sample.bcrypt_hash Sample.bcrypt_genSaltSync Sample.db
           (Sample.registration "Bob" "bob@example.com" "hunter22")
           (Sample.registration "Robert" "bob@example.com" "another1")
           "u2" "u3" 1700000000001 1700000000002
           (JObj [("fullName", JStr "Bob"); ("email", JStr "bob@example.com");
                  ("password", JStr "hunter22")])
           "Bob" "bob@example.com" "hunter22"
           (JObj [("fullName", JStr "Robert"); ("email", JStr "bob@example.com");
                  ("password", JStr "another1")])
           "Robert" "bob@example.com" "another1");
    reflexivity.
Defined.

(** X12.  Register, then log in.  Take a registration that goes through
    with a fresh id, and a hashing whose [compare] accepts the password
    against its own hash.  Then a login under any address with the same
    lower-case form and the same password is answered 200 with the
    session cookie of the new user, and a login with a password that
    [compare] rejects against the stored hash is answered 401. *)
Theorem X12_register_then_login :
  forall TextEncoder_encode hmac encodeSigningInput loginSchema_parse registerSchema_parse
         toLowerCase toUpperCase bcrypt_compare bcrypt_hash bcrypt_genSaltSync env
         db registration fresh_id t1 body1 fullName email_in password
         login t2 body2 email_again,
    Api.json_body registration = Some body1 ->
    registerSchema_parse body1 = Return (fullName, email_in, password) ->
    Api.user_findUnique db (toLowerCase email_in) = None ->
    (forall a, In a (Api.aspNetUsers db) -> Api.asp_id a <> fresh_id) ->
    bcrypt_compare password (bcrypt_hash password 12) = true ->
    Api.json_body login = Some body2 ->
    loginSchema_parse body2 = Return (email_again, password) ->
    toLowerCase email_again = toLowerCase email_in ->
    exists response db1,
      Api.register_POST registerSchema_parse toLowerCase toUpperCase bcrypt_hash
        bcrypt_genSaltSync db registration fresh_id t1 = Return (response, db1)
      /\ Api.status response = 201
      /\ Api.login_POST TextEncoder_encode hmac encodeSigningInput loginSchema_parse
           toLowerCase bcrypt_compare env db1 login t2
         = Return (ApiInvariants.login_success TextEncoder_encode hmac encodeSigningInput
                     env
                     (ApiInvariants.registered_user toLowerCase fresh_id fullName
                        email_in t1)
                     t2)
      /\ (forall other body3 wrong,
            Api.json_body other = Some body3 ->
            loginSchema_parse body3 = Return (email_again, wrong) ->
            bcrypt_compare wrong (bcrypt_hash password 12) = false ->
            Api.login_POST TextEncoder_encode hmac encodeSigningInput loginSchema_parse
              toLowerCase bcrypt_compare env db1 other t2
            = Return ApiInvariants.login_refused).
Proof.
  intros TE hmac enc lparse rparse lower upper compare hash salt env
         db registration fresh_id t1 b1 n e p login t2 b2 e' Hb1 Hp1 Hfree Hfresh Hfit
         Hb2 Hp2 Hsame.
  rewrite (RegisterFacts.register_validated _ _ _ _ _ _ _ _ _ _ _ _ _ Hb1 Hp1), Hfree.
  do 2 eexists. split; [reflexivity|]. split; [reflexivity|].
  pose proof (RegisterFacts.findUnique_after_register lower upper db fresh_id n e t1
                (hash p 12) (salt 8) Hfree Hfresh) as Hfound.
  split.
  - rewrite (ApiFacts.login_validated _ _ _ _ _ _ _ _ _ _ _ _ _ Hb2 Hp2).
    rewrite Hsame, Hfound. simpl. now rewrite Hfit.
  - intros other b3 wrong Hb3 Hp3 Hwrong.
    rewrite (ApiFacts.login_validated _ _ _ _ _ _ _ _ _ _ _ _ _ Hb3 Hp3).
    rewrite Hsame, Hfound. simpl. now rewrite Hwrong.
Qed.

Lemma X12_register_then_login_witness :
  exists response db1,
    Api.register_POST Sample.registerSchema_parse Sample.toLowerCase Sample.toUpperCase
      Demo.bcrypt_hash Sample.bcrypt_genSaltSync Sample.db
      (Sample.registration "Bob" "bob@example.com" "hunter22") "u2" 1700000000001
    = Return (response, db1)
    /\ Api.status response = 201
    /\ Api.login_POST Sample.TextEncoder_encode Sample.hmac Sample.encodeSigningInput
         Sample.loginSchema_parse Sample.toLowerCase Demo.bcrypt_compare Sample.env db1
         (Sample.credentials "bob@example.com" "hunter22") 1700000005000
       = Return (ApiInvariants.login_success Sample.TextEncoder_encode Sample.hmac
                   Sample.encodeSigningInput Sample.env
                   (ApiInvariants.registered_user Sample.toLowerCase "u2" "Bob"
                      "bob@example.com" 1700000000001)
                   1700000005000)
    /\ (forall other body3 wrong,
          Api.json_body other = Some body3 ->
          Sample.loginSchema_parse body3 = Return ("bob@example.com", wrong) ->
          Demo.bcrypt_compare wrong (Demo.bcrypt_hash "hunter22" 12) = false ->
          Api.login_POST Sample.TextEncoder_encode Sample.hmac Sample.encodeSigningInput
            Sample.loginSchema_parse Sample.toLowerCase Demo.bcrypt_compare Sample.env
            db1 other 1700000005000
          = Return ApiInvariants.login_refused).
Proof.
  apply (X12_register_then_login Sample.TextEncoder_encode Sample.hmac
           Sample.encodeSigningInput Sample.loginSchema_parse Sample.registerSchema_parse
           Sample.toLowerCase Sample.toUpperCase Demo.bcrypt_compare Demo.bcrypt_hash
           Sample.bcrypt_genSaltSync Sample.env Sample.db
           (Sample.registration "Bob" "bob@example.com" "hunter22") "u2" 1700000000001
           (JObj [("fullName", JStr "Bob"); ("email", JStr "bob@example.com");
                  ("password", JStr "hunter22")])
           "Bob" "bob@example.com" "hunter22"
           (Sample.credentials "bob@example.com" "hunter22") 1700000005000
           (JObj [("email", JStr "bob@example.com"); ("password", JStr "hunter22")])
           "bob@example.com");
    try reflexivity.
  intros a [<- | []]. discriminate.
Defined.

(** X13.  What a registration keeps.  If no two users share an address
    and every credential record has a user of its id, the same holds of
    the database after any registration request, and every user row that
    was there is still there. *)
Theorem X13_register_keeps_tables_consistent :
  forall registerSchema_parse toLowerCase toUpperCase bcrypt_hash bcrypt_genSaltSync
         db request fresh_id now_ms,
    ApiInvariants.emails_unique db ->
    ApiInvariants.credentials_owned db ->
    exists response db',
      Api.register_POST registerSchema_parse toLowerCase toUpperCase bcrypt_hash
        bcrypt_genSaltSync db request fresh_id now_ms = Return (response, db')
      /\ ApiInvariants.emails_unique db'
      /\ ApiInvariants.credentials_owned db'
      /\ (forall u, In u (Api.users db) -> In u (Api.users db')).
Proof.
  intros parse lower upper hash salt db request fresh_id now_ms Hunique Howned.
  destruct (RegisterFacts.register_cases parse lower upper hash salt db request
              fresh_id now_ms)
    as [[_ ->]
       | [(b & e & _ & _ & ->)
         | [(b & n & em & pw & x & _ & _ & _ & ->)
           | (b & n & em & pw & _ & _ & Hfind & ->)]]];
    do 2 eexists; (split; [reflexivity|]); try (now repeat split).
  split; [|split].
  - unfold ApiInvariants.emails_unique in *. simpl.
    rewrite map_app. apply NoDup_app. split; [exact Hunique|].
    split; [|apply NoDup_singleton].
    intros addr Hin Hnew. apply list_elem_of_In in Hin.
    apply list_elem_of_In in Hnew. destruct Hnew as [<- | []].
    apply in_map_iff in Hin as (u & Hu & Hin).
    unfold Api.user_findUnique in Hfind.
    destruct (find _ (Api.users db)) eqn:Hf; [discriminate|].
    pose proof (find_none _ _ Hf u Hin) as Hneq. simpl in Hneq.
    rewrite Hu, String.eqb_refl in Hneq. discriminate.
  - intros a Ha. simpl in Ha. apply in_app_or in Ha as [Ha | [<- | []]].
    + destruct (Howned a Ha) as (u & Hu & Hid). exists u. split; [|exact Hid].
      simpl. apply in_or_app. now left.
    + eexists. split; [simpl; apply in_or_app; right; now left | reflexivity].
  - intros u Hu. simpl. apply in_or_app. now left.
Qed.

Lemma X13_register_keeps_witness :
  exists response db',
    Api.register_POST Sample.registerSchema_parse Sample.toLowerCase Sample.toUpperCase
      Sample.bcrypt_hash Sample.bcrypt_genSaltSync Sample.db
      (Sample.registration "Bob" "bob@example.com" "hunter22") "u2" 1700000000001
    = Return (response, db')
    /\ ApiInvariants.emails_unique db'
    /\ ApiInvariants.credentials_owned db'
    /\ (forall u, In u (Api.users Sample.db) -> In u (Api.users db')).
Proof.
  apply (X13_register_keeps_tables_consistent Sample.registerSchema_parse
           Sample.toLowerCase Sample.toUpperCase Sample.bcrypt_hash
           Sample.bcrypt_genSaltSync Sample.db
           (Sample.registration "Bob" "bob@example.com" "hunter22") "u2" 1700000000001).
  - unfold ApiInvariants.emails_unique. simpl. apply NoDup_singleton.
  - intros a [<- | []]. exists Sample.alice_row. split; [now left | reflexivity].
Defined.

(** X14.  From login to an authenticated request.  Under a compact
    codec, take a login with good credentials at [now_ms] of a user
    whose id and e-mail address are header values.  Sent back in the
    [auth-token] cookie at any clock reading before the token's expiry,
    the cookie set by the login makes both user-id extractors return
    the id of the user who logged in, and makes [middleware] let a
    request to a protected path through with [x-user-id] and
    [x-user-email] holding that id and that address as [headers.set]
    stores them. *)
Theorem X14_login_cookie_authenticates :
  forall TextEncoder_encode hmac encodeSigningInput decode loginSchema_parse toLowerCase
         bcrypt_compare env db request now_ms body0 email_in password user later_ms
         user_id user_email,
    Jwt.compact_codec hmac encodeSigningInput decode ->
    Api.json_body request = Some body0 ->
    loginSchema_parse body0 = Return (email_in, password) ->
    Api.GoodCredentials toLowerCase bcrypt_compare db email_in password user ->
    Middleware.header_value (Api.id user) = Some user_id ->
    Middleware.header_value (Api.email user) = Some user_email ->
    Jwt.epoch later_ms < Jwt.epoch now_ms + 24 * 60 * 60 ->
    exists response cookie,
      Api.login_POST TextEncoder_encode hmac encodeSigningInput loginSchema_parse
        toLowerCase bcrypt_compare env db request now_ms = Return response
      /\ Api.set_cookies response = [cookie]
      /\ Jwt.getUserIdFromTokenSync TextEncoder_encode hmac decode env
           (Jwt.request_with_cookie ("auth-token=" ++ Api.cookie_value cookie)) later_ms
         = Return (Some (Api.id user))
      /\ Jwt.getUserIdFromToken TextEncoder_encode hmac decode env
           (Jwt.request_with_cookie ("auth-token=" ++ Api.cookie_value cookie)) later_ms
         = Return (Some (Api.id user))
      /\ (forall page,
            Middleware.isProtectedRoute Middleware.protectedRoutes
              (Middleware.pathname page) = true ->
            Middleware.cookies page !! "auth-token" = Some (Api.cookie_value cookie) ->
            exists passed,
              Middleware.middleware TextEncoder_encode hmac decode env page later_ms
              = Return passed
              /\ Middleware.action passed = Middleware.Next
              /\ Middleware.response_headers passed !! "x-user-id" = Some user_id
              /\ Middleware.response_headers passed !! "x-user-email" = Some user_email).
Proof.
  intros TE hmac enc decode lparse lower compare env db request now_ms b e p user later
         user_id user_email Hcodec Hb Hp (a & Hfind & Hcmp) Hid Hemail Hlt.
  pose proof (JwtFacts.decode_issued TE hmac enc decode env
                {| Jwt.id := Api.id user; Jwt.user_email := Api.email user;
                   Jwt.user_name := Api.name user |} now_ms Hcodec) as Hd.
  pose proof (JwtFacts.issued_token_chars TE hmac enc decode env
                {| Jwt.id := Api.id user; Jwt.user_email := Api.email user;
                   Jwt.user_name := Api.name user |} now_ms Hcodec) as Hsafe.
  rewrite (ApiFacts.login_validated _ _ _ _ _ _ _ _ _ _ _ _ _ Hb Hp), Hfind, Hcmp.
  do 2 eexists. split; [reflexivity|]. split; [reflexivity|].
  cbn [Api.cookie_value].
  destruct (JwtFacts.issued_accepted TE hmac enc decode env _ _ _ Hd Hsafe Hlt)
    as (_ & _ & Hasync & Hsync).
  split; [exact Hsync|]. split; [exact Hasync|].
  intros page Hprot Hc.
  pose proof (MiddlewareFacts.protected_not_public _ Hprot) as Hpub.
  assert (Hne : Jwt.createToken TE hmac enc env
                  {| Jwt.id := Api.id user; Jwt.user_email := Api.email user;
                     Jwt.user_name := Api.name user |} now_ms <> "").
  { apply String.eqb_neq. apply JwtFacts.createToken_not_empty. }
  assert (Hv : Jwt.jose_jwtVerify hmac decode
                 (Jwt.createToken TE hmac enc env
                    {| Jwt.id := Api.id user; Jwt.user_email := Api.email user;
                       Jwt.user_name := Api.name user |} now_ms)
                 (TE (JWT_SECRET env)) later
               = Return (Jwt.issued_payload
                           {| Jwt.id := Api.id user; Jwt.user_email := Api.email user;
                              Jwt.user_name := Api.name user |} now_ms)).
  { rewrite (JwtFacts.jose_issued _ _ _ _ _ _ _ _ Hd).
    destruct (Z.leb_spec (Jwt.epoch now_ms + Jwt.expiresIn_24h) (Jwt.epoch later));
      [unfold Jwt.expiresIn_24h in *; lia | reflexivity]. }
  unfold Middleware.middleware.
  rewrite (MiddlewareFacts.middleware_verified_accepted _ _ _ _ _ _ _ _ _ _
             user_id user_email Hpub Hprot Hc Hne Hv Hid Hemail).
  eexists. split; [reflexivity|]. split; [reflexivity|]. simpl.
  split; [|apply lookup_insert_eq].
  rewrite lookup_insert_ne by discriminate. apply lookup_insert_eq.
Qed.

Lemma X14_login_cookie_witness :
  exists response cookie,
    Api.login_POST Toy.TextEncoder_encode Toy.hmac Toy.encodeSigningInput
      Sample.loginSchema_parse Sample.toLowerCase Sample.bcrypt_compare Toy.env
      Sample.db (Sample.credentials "alice@example.com" "correct horse") 0
    = Return response
    /\ Api.set_cookies response = [cookie]
    /\ Jwt.getUserIdFromTokenSync Toy.TextEncoder_encode Toy.hmac Toy.decode Toy.env
         (Jwt.request_with_cookie ("auth-token=" ++ Api.cookie_value cookie)) 3600000
       = Return (Some "u1")
    /\ Jwt.getUserIdFromToken Toy.TextEncoder_encode Toy.hmac Toy.decode Toy.env
         (Jwt.request_with_cookie ("auth-token=" ++ Api.cookie_value cookie)) 3600000
       = Return (Some "u1")
    /\ (forall page,
          Middleware.isProtectedRoute Middleware.protectedRoutes
            (Middleware.pathname page) = true ->
          Middleware.cookies page !! "auth-token" = Some (Api.cookie_value cookie) ->
          exists passed,
            Middleware.middleware Toy.TextEncoder_encode Toy.hmac Toy.decode Toy.env
              page 3600000 = Return passed
            /\ Middleware.action passed = Middleware.Next
            /\ Middleware.response_headers passed !! "x-user-id" = Some "u1"
            /\ Middleware.response_headers passed !! "x-user-email"
               = Some "alice@example.com").
Proof.
  apply (X14_login_cookie_authenticates Toy.TextEncoder_encode Toy.hmac
           Toy.encodeSigningInput Toy.decode Sample.loginSchema_parse
           Sample.toLowerCase Sample.bcrypt_compare Toy.env Sample.db
           (Sample.credentials "alice@example.com" "correct horse") 0
           (JObj [("email", JStr "alice@example.com"); ("password", JStr "correct horse")])
           "alice@example.com" "correct horse" Sample.alice_row 3600000
           "u1" "alice@example.com" ToyFacts.toy_compact_codec);
    try reflexivity.
  exists Sample.alice_credentials. split; reflexivity.
Defined.

(** ** The client session *)

Module ClientSessionFacts.
Import ClientSession.

Lemma verifySession_loading server s : isLoading (after (verifySession server s)) = false.
Proof. reflexivity. Qed.

Lemma verifySession_user server s :
  user (after (verifySession server s))
  = match get server "/api/auth/user" with
    | Return response => data_user response
    | Throw _ =>
        match get server "/api/auth/verify" with
        | Return fallbackResponse => data_user fallbackResponse
        | Throw _ => None
        end
    end.
Proof.
  unfold verifySession.
  destruct (get server "/api/auth/user"); [reflexivity|].
  now destruct (get server "/api/auth/verify").
Qed.

Lemma verifySession_requested server s :
  requested (verifySession server s)
  = match get server "/api/auth/user" with
    | Return _ => ["/api/auth/user"]
    | Throw _ => ["/api/auth/user"; "/api/auth/verify"]
    end.
Proof.
  unfold verifySession.
  destruct (get server "/api/auth/user"); [reflexivity|].
  now destruct (get server "/api/auth/verify").
Qed.

Lemma render_protected s isMounted u :
  render s isMounted = Protected u <->
  isMounted = true /\ isLoading s = false /\ user s = Some u.
Proof.
  unfold render. destruct isMounted, (isLoading s), (user s) as [v|]; simpl;
    split; try discriminate; try (intros (? & ? & ?); discriminate).
  - intros [= ->]. auto.
  - intros (_ & _ & [= ->]). reflexivity.
Qed.

Lemma layout_pushes_iff_nothing s isMounted :
  layoutEffect s isMounted = Some "/login" <-> render s isMounted = Nothing.
Proof.
  unfold layoutEffect, render.
  destruct isMounted, (isLoading s), (user s) as [v|]; simpl; split;
    try discriminate; try reflexivity.
Qed.

End ClientSessionFacts.

(** X15.  The session check of the client settles.  Once the provider
    has mounted, its verification ends with [isLoading] false whatever
    the two endpoints answer.  It asks [/api/auth/user] first and asks
    [/api/auth/verify] exactly when that first request failed; the user
    it keeps is the one of the answer it used, so an answer of
    [/api/auth/user] without a user leaves no user and asks nothing
    more, and two failures leave no user.  Before the provider has
    mounted the effect requests nothing and changes nothing. *)
Theorem X15_session_check_settles :
  forall server s,
    (ClientSession.hasMounted s = false ->
     ClientSession.verifyEffect server s
     = {| ClientSession.after := s; ClientSession.requested := [] |})
    /\ (ClientSession.hasMounted s = true ->
        ClientSession.isLoading (ClientSession.after (ClientSession.verifyEffect server s))
        = false
        /\ ClientSession.hasMounted
             (ClientSession.after (ClientSession.verifyEffect server s)) = true
        /\ (In "/api/auth/verify"
              (ClientSession.requested (ClientSession.verifyEffect server s))
            <-> exists error, ClientSession.get server "/api/auth/user" = Throw error)
        /\ (forall u,
              ClientSession.user (ClientSession.after (ClientSession.verifyEffect server s))
              = Some u
              <-> (exists response,
                     ClientSession.get server "/api/auth/user" = Return response
                     /\ ClientSession.data_user response = Some u)
                  \/ (exists error response,
                        ClientSession.get server "/api/auth/user" = Throw error
                        /\ ClientSession.get server "/api/auth/verify" = Return response
                        /\ ClientSession.data_user response = Some u))).
Proof.
  intros server s. unfold ClientSession.verifyEffect. split.
  - intros ->. reflexivity.
  - intros Hm. rewrite Hm. simpl negb. cbv iota.
    split; [reflexivity|].
    split.
    { unfold ClientSession.verifySession.
      destruct (ClientSession.get server "/api/auth/user");
        [|destruct (ClientSession.get server "/api/auth/verify")]; exact Hm. }
    rewrite ClientSessionFacts.verifySession_requested.
    split.
    + destruct (ClientSession.get server "/api/auth/user") as [r|e]; simpl.
      * split; [intros [H|[]]; discriminate | intros [? H]; discriminate].
      * split; [eauto | auto].
    + intros u. rewrite ClientSessionFacts.verifySession_user.
      destruct (ClientSession.get server "/api/auth/user") as [r|e].
      * split.
        -- intros H. left. eauto.
        -- intros [(r' & [= <-] & H) | (? & ? & H & _)]; [exact H | discriminate].
      * destruct (ClientSession.get server "/api/auth/verify") as [r|e'].
        -- split.
           ++ intros H. right. eauto.
           ++ intros [(? & H & _) | (? & r' & _ & [= <-] & H)]; [discriminate | exact H].
        -- split; [discriminate|].
           intros [(? & H & _) | (? & ? & _ & H & _)]; discriminate.
Qed.

(** X16.  What the protected layout shows.  The layout renders the
    protected content, for user [u], exactly when it has mounted, the
    session check is over and the context holds [u]; it pushes [/login]
    exactly when it renders nothing.  From the initial state it shows
    the spinner and pushes nothing; after mounting and the session
    check it shows the protected content of the user the check kept, or
    renders nothing and pushes [/login] when the check kept none. *)
Theorem X16_layout_shows_content_only_to_a_user :
  forall server s isMounted,
    (forall u,
        ClientSession.render s isMounted = ClientSession.Protected u
        <-> isMounted = true /\ ClientSession.isLoading s = false
            /\ ClientSession.user s = Some u)
    /\ (ClientSession.layoutEffect s isMounted = Some "/login"
        <-> ClientSession.render s isMounted = ClientSession.Nothing)
    /\ ClientSession.render ClientSession.initial isMounted = ClientSession.Spinner
    /\ ClientSession.layoutEffect ClientSession.initial isMounted = None
    /\ match ClientSession.user
               (ClientSession.after
                  (ClientSession.verifyEffect server
                     (ClientSession.mountEffect ClientSession.initial))) with
       | Some u =>
           ClientSession.render
             (ClientSession.after
                (ClientSession.verifyEffect server
                   (ClientSession.mountEffect ClientSession.initial))) true
           = ClientSession.Protected u
           /\ ClientSession.layoutEffect
                (ClientSession.after
                   (ClientSession.verifyEffect server
                      (ClientSession.mountEffect ClientSession.initial))) true = None
       | None =>
           ClientSession.render
             (ClientSession.after
                (ClientSession.verifyEffect server
                   (ClientSession.mountEffect ClientSession.initial))) true
           = ClientSession.Nothing
           /\ ClientSession.layoutEffect
                (ClientSession.after
                   (ClientSession.verifyEffect server
                      (ClientSession.mountEffect ClientSession.initial))) true
              = Some "/login"
       end.
Proof.
  intros server s isMounted.
  split; [intros u; apply ClientSessionFacts.render_protected|].
  split; [apply ClientSessionFacts.layout_pushes_iff_nothing|].
  split; [now destruct isMounted|]. split; [now destruct isMounted|].
  unfold ClientSession.verifyEffect, ClientSession.mountEffect, ClientSession.verifySession.
  simpl.
  destruct (ClientSession.get server "/api/auth/user") as [r|e]; simpl.
  - destruct (ClientSession.data_user r); split; reflexivity.
  - destruct (ClientSession.get server "/api/auth/verify") as [r|e']; simpl.
    + destruct (ClientSession.data_user r); split; reflexivity.
    + split; reflexivity.
Qed.

(** X17.  Logging out.  When the server accepts the logout, the caller
    gets no error and the context holds no user, so a mounted layout
    whose check is over renders nothing and pushes [/login].  When the
    request fails, the caller gets that very error and the state is left
    as it was: the layout goes on showing what it showed. *)
Theorem X17_logout_clears_user_or_rethrows :
  forall server s isMounted,
    (forall error,
        ClientSession.post server "/api/auth/logout" = Throw error ->
        ClientSession.logout server s = (Throw error, s))
    /\ (ClientSession.post server "/api/auth/logout" = Return tt ->
        fst (ClientSession.logout server s) = Return tt
        /\ ClientSession.user (snd (ClientSession.logout server s)) = None
        /\ ClientSession.isLoading (snd (ClientSession.logout server s))
           = ClientSession.isLoading s
        /\ (isMounted = true -> ClientSession.isLoading s = false ->
            ClientSession.render (snd (ClientSession.logout server s)) isMounted
            = ClientSession.Nothing
            /\ ClientSession.layoutEffect (snd (ClientSession.logout server s)) isMounted
               = Some "/login")).
Proof.
  intros server s isMounted. unfold ClientSession.logout. split.
  - intros error ->. reflexivity.
  - intros ->. simpl. split; [reflexivity|]. split; [reflexivity|].
    split; [reflexivity|]. intros -> Hloaded. split.
    + unfold ClientSession.render. simpl. now rewrite Hloaded.
    + unfold ClientSession.layoutEffect. simpl. now rewrite Hloaded.
Qed.

(** ** Task statuses *)

Module TaskStatusFacts.
Import JsString TaskStatus.

Lemma known_cases status :
  known_status status ->
  status = 0 \/ status = 1 \/ status = 2 \/ status = 3 \/ status = 4.
Proof. unfold known_status. lia. Qed.

Lemma allowed_in_table status transition :
  In transition (getAllowedStatusTransitions status) ->
  In transition TASK_STATUS_TRANSITIONS /\ from transition = status
  /\ allowed transition = true.
Proof.
  unfold getAllowedStatusTransitions. intros H.
  apply filter_In in H as [Hin Hc]. apply andb_true_iff in Hc as [Hf Ha].
  apply Z.eqb_eq in Hf. auto.
Qed.

Lemma transitions_among_known transition :
  In transition TASK_STATUS_TRANSITIONS ->
  known_status (from transition) /\ known_status (to transition)
  /\ to transition <> from transition.
Proof.
  unfold known_status, TASK_STATUS_TRANSITIONS. intros H.
  repeat (destruct H as [<- | H];
          [cbv [from to TODO IN_PROGRESS DONE REJECTED COMPLETED]; lia|]).
  destruct H.
Qed.

(** The transitions of a status outside the table. *)
Lemma unknown_no_transition status :
  ~ known_status status -> getAllowedStatusTransitions status = [].
Proof.
  intros Hunknown.
  destruct (getAllowedStatusTransitions status) as [|t l] eqn:E; [reflexivity|].
  exfalso. apply Hunknown.
  assert (Hin : In t (getAllowedStatusTransitions status)) by (rewrite E; now left).
  apply allowed_in_table in Hin as (Hin & <- & _).
  now apply transitions_among_known.
Qed.

(** One step between two statuses. *)
Lemma step status transition target :
  In transition (getAllowedStatusTransitions status) ->
  to transition = target -> leads_to status target.
Proof.
  intros Hin <-. eapply leads_on; [exact Hin | apply leads_here].
Qed.

Lemma leads_to_trans a b c : leads_to a b -> leads_to b c -> leads_to a c.
Proof.
  induction 1 as [|s t u Hin _ IH]; [auto|].
  intros H. eapply leads_on; [exact Hin | now apply IH].
Qed.

(** The cycle To Do, In Progress, Done, Completed and the detour by
    Rejected. *)
Lemma to_do_to_in_progress : leads_to 0 1.
Proof. eapply step; [simpl; now left | reflexivity]. Qed.

Lemma in_progress_to_to_do : leads_to 1 0.
Proof. eapply step; [simpl; now left | reflexivity]. Qed.

Lemma in_progress_to_done : leads_to 1 2.
Proof. eapply step; [simpl; right; now left | reflexivity]. Qed.

Lemma in_progress_to_rejected : leads_to 1 3.
Proof. eapply step; [simpl; right; right; now left | reflexivity]. Qed.

Lemma done_to_in_progress : leads_to 2 1.
Proof. eapply step; [simpl; now left | reflexivity]. Qed.

Lemma done_to_completed : leads_to 2 4.
Proof. eapply step; [simpl; right; now left | reflexivity]. Qed.

Lemma rejected_to_to_do : leads_to 3 0.
Proof. eapply step; [simpl; now left | reflexivity]. Qed.

Lemma completed_to_in_progress : leads_to 4 1.
Proof. eapply step; [simpl; now left | reflexivity]. Qed.

(** Every known status leads to In Progress, and In Progress to every
    known status. *)
Lemma leads_to_hub status : known_status status -> leads_to status 1.
Proof.
  intros H. destruct (known_cases _ H) as [-> | [-> | [-> | [-> | ->]]]].
  - exact to_do_to_in_progress.
  - apply leads_here.
  - exact done_to_in_progress.
  - exact (leads_to_trans _ _ _ rejected_to_to_do to_do_to_in_progress).
  - exact completed_to_in_progress.
Qed.

Lemma hub_leads_to status : known_status status -> leads_to 1 status.
Proof.
  intros H. destruct (known_cases _ H) as [-> | [-> | [-> | [-> | ->]]]].
  - exact in_progress_to_to_do.
  - apply leads_here.
  - exact in_progress_to_done.
  - exact in_progress_to_rejected.
  - exact (leads_to_trans _ _ _ in_progress_to_done done_to_completed).
Qed.

Lemma number_text_digit n : 0 < n -> begins_with_digit (number_text n) = true.
Proof.
  destruct n as [|p|p]; try lia. intros _.
  unfold number_text. simpl Z.to_int.
  unfold NilZero.string_of_int, NilZero.string_of_uint.
  destruct (Pos.to_uint p) eqn:Hp; try reflexivity.
Qed.

Lemma begins_with_digit_app a b :
  begins_with_digit a = true -> begins_with_digit (a ++ b) = true.
Proof. destruct a; [discriminate | exact (fun H => H)]. Qed.

Lemma positive_spec value :
  positive value = true <-> exists n, value = Some n /\ 0 < n.
Proof.
  unfold positive. destruct value as [n|].
  - destruct (Z.eqb_spec n 0), (Z.ltb_spec 0 n); simpl; split;
      try discriminate; try (intros (m & [= <-] & Hm); lia); eauto.
  - split; [discriminate | intros (? & H & _); discriminate].
Qed.

Lemma part_digit value :
  positive value = true ->
  begins_with_digit (number_text (default 0 value)) = true.
Proof.
  intros H. apply positive_spec in H as (n & -> & Hn). simpl.
  now apply number_text_digit.
Qed.

End TaskStatusFacts.

(** X18.  The transitions offered for a status.  Every transition
    [getAllowedStatusTransitions] returns starts at the status asked
    for, is allowed, and ends at another status that the tables know.
    Nothing is returned exactly for a status outside 0..4, so no known
    status is a dead end; and every entry of the transition table is
    returned for the status it starts at. *)
Theorem X18_allowed_transitions_leave_to_known_status :
  forall status,
    (forall transition,
        In transition (TaskStatus.getAllowedStatusTransitions status) ->
        TaskStatus.from transition = status
        /\ TaskStatus.allowed transition = true
        /\ TaskStatus.known_status (TaskStatus.to transition)
        /\ TaskStatus.to transition <> status)
    /\ (TaskStatus.getAllowedStatusTransitions status = []
        <-> ~ TaskStatus.known_status status)
    /\ (forall transition,
          In transition TaskStatus.TASK_STATUS_TRANSITIONS ->
          In transition
            (TaskStatus.getAllowedStatusTransitions (TaskStatus.from transition))).
Proof.
  intros status. split; [|split].
  - intros t Hin. apply TaskStatusFacts.allowed_in_table in Hin as (Hin & Hfrom & Hallowed).
    destruct (TaskStatusFacts.transitions_among_known t Hin) as (_ & Hto & Hne).
    rewrite <- Hfrom. auto.
  - split; [|apply TaskStatusFacts.unknown_no_transition].
    intros Hempty Hknown.
    destruct (TaskStatusFacts.known_cases _ Hknown) as [-> | [-> | [-> | [-> | ->]]]];
      discriminate.
  - intros t Hin. unfold TaskStatus.getAllowedStatusTransitions.
    apply filter_In. split; [exact Hin|].
    rewrite Z.eqb_refl. simpl in Hin.
    repeat (destruct Hin as [<- | Hin]; [reflexivity|]). destruct Hin.
Qed.

(** X19.  The statuses form one cycle of work.  Through allowed
    transitions every status of 0..4 leads to every other one, so a
    task that is Completed or Rejected can always be brought back; the
    transitions never lead from a known status to an unknown one; and a
    status outside 0..4 leads nowhere but to itself. *)
Theorem X19_every_status_leads_to_every_status :
  forall status target,
    (TaskStatus.known_status status -> TaskStatus.known_status target ->
     TaskStatus.leads_to status target)
    /\ (TaskStatus.leads_to status target -> TaskStatus.known_status status ->
        TaskStatus.known_status target)
    /\ (TaskStatus.leads_to status target -> ~ TaskStatus.known_status status ->
        target = status).
Proof.
  intros status target. split; [|split].
  - intros Hs Ht.
    exact (TaskStatusFacts.leads_to_trans _ _ _ (TaskStatusFacts.leads_to_hub _ Hs)
             (TaskStatusFacts.hub_leads_to _ Ht)).
  - induction 1 as [|s t u Hin _ IH]; [auto|].
    intros _. apply IH.
    apply TaskStatusFacts.allowed_in_table in Hin as (Hin & _ & _).
    now apply TaskStatusFacts.transitions_among_known.
  - intros [|s t u Hin _] Hunknown; [reflexivity|].
    rewrite (TaskStatusFacts.unknown_no_transition _ Hunknown) in Hin. destruct Hin.
Qed.

Module LabelFacts.
Import JsString TaskStatus.

(** A key that is not in the table gets the fallback. *)
Lemma or_else_missing table key fallback :
  (forall kv, In kv table -> fst kv <> key) ->
  or_else (table_get table key) fallback = fallback.
Proof.
  intros H. unfold table_get.
  rewrite HandlerFacts.find_none_all; [reflexivity|].
  intros kv Hin. apply Z.eqb_neq. now apply H.
Qed.

Lemma status_label_known status :
  known_status status ->
  getStatusLabel status <> "Unknown"
  /\ table_get TASK_STATUS_LABELS status = Some (getStatusLabel status).
Proof.
  intros H. destruct (TaskStatusFacts.known_cases _ H) as [-> | [-> | [-> | [-> | ->]]]];
    split; (discriminate || reflexivity).
Qed.

Lemma digits_are_not_letters s :
  begins_with_digit s = true -> s <> "No estimate" /\ s <> "".
Proof. destruct s; [discriminate|]. split; intros [= -> _]; discriminate. Qed.

End LabelFacts.

(** X20.  Labels name the statuses.  [getStatusLabel] answers [Unknown]
    exactly for a status outside 0..4, and gives different labels to
    different known statuses; [getPriorityLabel] and
    [getImportanceLabel] answer [Unknown] exactly outside 0..3.  For a
    status, priority or importance outside its range the colour is the
    grey of the lowest level. *)
Theorem X20_labels_identify_known_levels :
  forall level other,
    (TaskStatus.getStatusLabel level = "Unknown" <-> ~ TaskStatus.known_status level)
    /\ (TaskStatus.known_status level -> TaskStatus.known_status other ->
        TaskStatus.getStatusLabel level = TaskStatus.getStatusLabel other ->
        level = other)
    /\ (TaskStatus.getPriorityLabel level = "Unknown" <-> ~ 0 <= level <= 3)
    /\ (TaskStatus.getImportanceLabel level = "Unknown" <-> ~ 0 <= level <= 3)
    /\ (~ TaskStatus.known_status level ->
        TaskStatus.getStatusColor level = "bg-gray-100 text-gray-800")
    /\ (~ 0 <= level <= 3 ->
        TaskStatus.getPriorityColor level = "bg-gray-100 text-gray-800"
        /\ TaskStatus.getImportanceColor level = "bg-gray-100 text-gray-800").
Proof.
  intros level other.
  assert (Hmiss5 : forall table : list (Z * string),
             (forall kv, In kv table -> 0 <= fst kv <= 4) ->
             ~ TaskStatus.known_status level ->
             forall kv, In kv table -> fst kv <> level).
  { intros table Hrange Hun kv Hin Heq. apply Hun. rewrite <- Heq.
    exact (Hrange _ Hin). }
  assert (Hmiss4 : forall table : list (Z * string),
             (forall kv, In kv table -> 0 <= fst kv <= 3) ->
             ~ 0 <= level <= 3 ->
             forall kv, In kv table -> fst kv <> level).
  { intros table Hrange Hun kv Hin Heq. apply Hun. rewrite <- Heq.
    exact (Hrange _ Hin). }
  assert (Hr5 : forall table : list (Z * string),
             map fst table = [0; 1; 2; 3; 4] ->
             forall kv, In kv table -> 0 <= fst kv <= 4).
  { intros table Hk kv Hin. apply (in_map fst) in Hin. rewrite Hk in Hin.
    simpl in Hin. lia. }
  assert (Hr4 : forall table : list (Z * string),
             map fst table = [0; 1; 2; 3] ->
             forall kv, In kv table -> 0 <= fst kv <= 3).
  { intros table Hk kv Hin. apply (in_map fst) in Hin. rewrite Hk in Hin.
    simpl in Hin. lia. }
  split; [|split; [|split; [|split; [|split]]]].
  - split.
    + intros Hlabel Hknown.
      now destruct (LabelFacts.status_label_known _ Hknown) as [Hne _].
    + intros Hun. apply LabelFacts.or_else_missing.
      apply (Hmiss5 _ (Hr5 TaskStatus.TASK_STATUS_LABELS eq_refl) Hun).
  - intros Hl Ho.
    destruct (TaskStatusFacts.known_cases _ Hl) as [-> | [-> | [-> | [-> | ->]]]];
      destruct (TaskStatusFacts.known_cases _ Ho) as [-> | [-> | [-> | [-> | ->]]]];
      try reflexivity; discriminate.
  - split.
    + intros Hlabel Hknown.
      assert (level = 0 \/ level = 1 \/ level = 2 \/ level = 3)
        as [-> | [-> | [-> | ->]]] by lia; discriminate.
    + intros Hun. apply LabelFacts.or_else_missing.
      apply (Hmiss4 _ (Hr4 TaskStatus.TASK_PRIORITY_LABELS eq_refl) Hun).
  - split.
    + intros Hlabel Hknown.
      assert (level = 0 \/ level = 1 \/ level = 2 \/ level = 3)
        as [-> | [-> | [-> | ->]]] by lia; discriminate.
    + intros Hun. apply LabelFacts.or_else_missing.
      apply (Hmiss4 _ (Hr4 TaskStatus.TASK_IMPORTANCE_LABELS eq_refl) Hun).
  - intros Hun.
    apply (LabelFacts.or_else_missing TaskStatus.TASK_STATUS_COLORS).
    apply (Hmiss5 _ (Hr5 TaskStatus.TASK_STATUS_COLORS eq_refl) Hun).
  - intros Hun. split.
    + apply (LabelFacts.or_else_missing TaskStatus.TASK_PRIORITY_COLORS).
      apply (Hmiss4 _ (Hr4 TaskStatus.TASK_PRIORITY_COLORS eq_refl) Hun).
    + apply (LabelFacts.or_else_missing TaskStatus.TASK_IMPORTANCE_COLORS).
      apply (Hmiss4 _ (Hr4 TaskStatus.TASK_IMPORTANCE_COLORS eq_refl) Hun).
Qed.

(** X21.  When there is an estimate.  [formatTimeEstimate] answers [No
    estimate] exactly when none of days, hours and minutes is a positive
    number (each may be missing, zero or negative); otherwise its answer
    begins with the digits of the first positive part.  It never
    answers the empty string. *)
Theorem X21_no_estimate_iff_nothing_positive :
  forall days hours minutes,
    (TaskStatus.formatTimeEstimate days hours minutes = "No estimate"
     <-> TaskStatus.positive days = false /\ TaskStatus.positive hours = false
         /\ TaskStatus.positive minutes = false)
    /\ (TaskStatus.begins_with_digit (TaskStatus.formatTimeEstimate days hours minutes)
        = true
        <-> TaskStatus.positive days = true \/ TaskStatus.positive hours = true
            \/ TaskStatus.positive minutes = true)
    /\ TaskStatus.formatTimeEstimate days hours minutes <> "".
Proof.
  intros days hours minutes.
  assert (Hcases :
            (TaskStatus.positive days = false /\ TaskStatus.positive hours = false
             /\ TaskStatus.positive minutes = false
             /\ TaskStatus.formatTimeEstimate days hours minutes = "No estimate")
            \/ ((TaskStatus.positive days = true \/ TaskStatus.positive hours = true
                 \/ TaskStatus.positive minutes = true)
                /\ TaskStatus.begins_with_digit
                     (TaskStatus.formatTimeEstimate days hours minutes) = true)).
  { unfold TaskStatus.formatTimeEstimate.
    destruct (TaskStatus.positive days) eqn:Hd;
      destruct (TaskStatus.positive hours) eqn:Hh;
      destruct (TaskStatus.positive minutes) eqn:Hm;
      try (left; repeat split; reflexivity);
      right; (split; [auto|]);
      cbn [TaskStatus.push app length Z.of_nat Z.ltb Z.compare Pos.of_succ_nat
           Pos.succ TaskStatus.join_spaces];
      repeat apply TaskStatusFacts.begins_with_digit_app;
      now apply TaskStatusFacts.part_digit. }
  destruct Hcases as [(Hd & Hh & Hm & Hfmt) | [Hpos Hdigit]].
  - rewrite Hfmt, Hd, Hh, Hm. split; [|split].
    + split; auto.
    + split; [discriminate|]. intros [H | [H | H]]; discriminate.
    + discriminate.
  - destruct (LabelFacts.digits_are_not_letters _ Hdigit) as [Hne Hnonempty].
    split; [|split].
    + split; [contradiction|].
      intros (Hd & Hh & Hm). destruct Hpos as [H | [H | H]]; congruence.
    + split; auto.
    + exact Hnonempty.
Qed.

(** X22.  A forged signature opens nothing.  If the [auth-token] read
    from the cookie header decodes to parts whose signature is not the
    MAC of their signing input under the configured secret, then at
    every clock reading all four readers return [null]; and
    [middleware], given that token on a protected path, redirects to
    [/login] and deletes the cookie. *)
Theorem X22_forged_signature_is_refused :
  forall TextEncoder_encode hmac decode env cookieHeader token parts now_ms,
    CookieHeader.authToken cookieHeader = Some token ->
    decode token = Some parts ->
    hmac (Jwt.alg parts) (TextEncoder_encode (JWT_SECRET env)) (Jwt.signing_input parts)
    <> Jwt.signature parts ->
    (Jwt.getToken TextEncoder_encode hmac decode env
       (Jwt.request_with_cookie cookieHeader) now_ms = Return None
     /\ AuthLib.getUserFromToken TextEncoder_encode hmac decode env
          (Jwt.request_with_cookie cookieHeader) now_ms = Return None
     /\ Jwt.getUserIdFromToken TextEncoder_encode hmac decode env
          (Jwt.request_with_cookie cookieHeader) now_ms = Return None
     /\ Jwt.getUserIdFromTokenSync TextEncoder_encode hmac decode env
          (Jwt.request_with_cookie cookieHeader) now_ms = Return None)
    /\ (forall page,
          Middleware.isProtectedRoute Middleware.protectedRoutes
            (Middleware.pathname page) = true ->
          Middleware.cookies page !! "auth-token" = Some token -> token <> "" ->
          Middleware.middleware TextEncoder_encode hmac decode env page now_ms
          = Return {| Middleware.action :=
                        Middleware.Redirect
                          {| Middleware.origin := Middleware.request_origin page;
                             Middleware.url_pathname := "/login";
                             Middleware.searchParams := [] |};
                      Middleware.response_headers := ∅;
                      Middleware.deleted_cookies := ["auth-token"] |}).
Proof.
  intros TE hmac decode env h token parts now_ms Htoken Hd Hforged.
  assert (Hjose : exists error,
             Jwt.jose_jwtVerify hmac decode token (TE (JWT_SECRET env)) now_ms
             = Throw error).
  { destruct (Jwt.jose_jwtVerify hmac decode token (TE (JWT_SECRET env)) now_ms)
      as [p|e] eqn:Hv; [|eauto].
    apply AuthLibFacts.jose_returns_iff in Hv as (parts' & Hd' & _ & Hsig & _).
    congruence. }
  destruct Hjose as [error Hjose].
  split.
  - assert (Hget : Jwt.getToken TE hmac decode env (Jwt.request_with_cookie h) now_ms
                   = Return None).
    { rewrite JwtFacts.getToken_eq. unfold Jwt.located.
      rewrite JwtFacts.headers_get_cookie, Htoken.
      destruct (String.eqb token ""); [reflexivity|]. now rewrite Hjose. }
    assert (Hid : Jwt.getUserIdFromToken TE hmac decode env
                    (Jwt.request_with_cookie h) now_ms = Return None).
    { rewrite AuthLibFacts.getUserIdFromToken_of_getToken. now rewrite Hget. }
    split; [exact Hget|]. split; [exact Hget|]. split; [exact Hid|].
    rewrite AuthLibFacts.sync_is_async. exact Hid.
  - intros page Hprot Hc Hne.
    pose proof (MiddlewareFacts.protected_not_public _ Hprot) as Hpub.
    exact (MiddlewareFacts.middleware_rejected _ _ _ _ _ _ _ _ token error
             Hpub Hprot Hc Hne Hjose).
Qed.

Lemma X22_forged_signature_witness :
  (Jwt.getToken Sample.TextEncoder_encode Sample.hmac Demo.decode Sample.env
     (Jwt.request_with_cookie "auth-token=h.p.x") 1000 = Return None
   /\ AuthLib.getUserFromToken Sample.TextEncoder_encode Sample.hmac Demo.decode Sample.env
        (Jwt.request_with_cookie "auth-token=h.p.x") 1000 = Return None
   /\ Jwt.getUserIdFromToken Sample.TextEncoder_encode Sample.hmac Demo.decode Sample.env
        (Jwt.request_with_cookie "auth-token=h.p.x") 1000 = Return None
   /\ Jwt.getUserIdFromTokenSync Sample.TextEncoder_encode Sample.hmac Demo.decode
        Sample.env (Jwt.request_with_cookie "auth-token=h.p.x") 1000 = Return None)
  /\ Jwt.getUserIdFromTokenSync Sample.TextEncoder_encode Sample.hmac Demo.decode
       Sample.env (Jwt.request_with_cookie "auth-token=h.p.s") 1000 = Return (Some "u1").
Proof.
  split; [|reflexivity].
  apply (X22_forged_signature_is_refused Sample.TextEncoder_encode Sample.hmac
           Demo.decode Sample.env "auth-token=h.p.x" "h.p.x"
           {| Jwt.signing_input := "h.p"; Jwt.alg := "HS256";
              Jwt.payload := Jwt.issued_payload Sample.alice 0;
              Jwt.signature := "x" |} 1000); try reflexivity.
  discriminate.
Defined.
